(** * MernAi: upload, evaluation and result-store pipeline

    A shallow embedding of
    - the client-side Result Store, [ModelProvider] of context/ModelContext.tsx
      (second file of src/src/context/DatasetContext.tsx);
    - the dataset validators: [handleDatasetUpload] of
      components/DatasetUploader.tsx (src/unnamed/part_001) and
      [validateDataset] of pages/DatasetComparisonPage.tsx (third file of
      src/src/context/DatasetContext.tsx);
    - the model validator [validateModelFile] of utils/modelHandler.ts
      (second file of src/unnamed/part_008);
    - the upload routes: the dataset [handler] (src/unnamed/part_005) and
      the model [handler] (src/src/pages/api/model/upload.ts);
    - the evaluation code: [handleEvaluate] of pages/UnifiedBenchmarkPage.tsx
      (second file of src/src/pages/SelfBenchmarkPage.tsx) and
      [evaluateModel] of utils/modelEvaluation.ts (src/unnamed/part_008);
    - the code around them: [DatasetProvider] of context/DatasetContext.tsx,
      [api.uploadModel] of services/api.ts (src/unnamed/part_005), the
      upload handlers and the mount effect of pages/UnifiedBenchmarkPage.tsx,
      [handleModelSelect] of pages/ModelLibraryPage.tsx, [handleModelUpload]
      of pages/ModelSelectionPage.tsx, [runComparison] of
      pages/DatasetComparisonPage.tsx and [handleModelFileUpload] of
      pages/HomePage.tsx,
    followed by the properties proved of them.

    JavaScript numbers are IEEE-754 binary64 values: Rocq's primitive
    floats.  JavaScript strings are sequences of UTF-16 code units
    ([JSString]); file contents are bytes.  What the platform supplies
    and the repository does not define ([toLowerCase], [path.extname],
    the texts of formidable's errors) is a parameter of the definitions
    that call it, gathered in [Platform]; [JSON.stringify], [JSON.parse]
    and [fetch] are parameters in the same way.  Promises are modelled
    by their settled outcome, React state setters by the state they
    produce. *)

From Stdlib Require Import ZArith Bool Ascii String List Lia.
From Stdlib.Strings Require Import Byte.
From Stdlib Require Import PrimFloat FloatOps SpecFloat Uint63.
From stdpp Require Import base option list gmap strings pretty.

Set Warnings "-inexact-float,-register-all".

(* ===================================================================== *)
(** ** JavaScript strings *)
(* ===================================================================== *)

Module JSString.

(** A UTF-16 code unit, as a number below 65536. *)
Definition code_unit : Set := N.

(** A JavaScript string: the sequence of its code units. *)
Inductive string : Set :=
| EmptyString
| String (c : code_unit) (s : string).

(** [s1 + s2]. *)
Fixpoint append (s1 s2 : string) : string :=
  match s1 with
  | EmptyString => s2
  | String c s1' => String c (append s1' s2)
  end.

(** [s.length]. *)
Fixpoint length (s : string) : nat :=
  match s with
  | EmptyString => O
  | String _ s' => S (length s')
  end.

(** [s1 === s2]. *)
Fixpoint eqb (s1 s2 : string) : bool :=
  match s1, s2 with
  | EmptyString, EmptyString => true
  | String c1 s1', String c2 s2' => N.eqb c1 c2 && eqb s1' s2'
  | _, _ => false
  end.

(** [s2.startsWith(s1)]. *)
Fixpoint prefix (s1 s2 : string) : bool :=
  match s1, s2 with
  | EmptyString, _ => true
  | String c1 s1', String c2 s2' => N.eqb c1 c2 && prefix s1' s2'
  | String _ _, EmptyString => false
  end.

Fixpoint of_units (l : list code_unit) : string :=
  match l with
  | [] => EmptyString
  | c :: l' => String c (of_units l')
  end.

Fixpoint to_units (s : string) : list code_unit :=
  match s with
  | EmptyString => []
  | String c s' => c :: to_units s'
  end.

(** The string of an ASCII text, character by character. *)
Fixpoint of_ascii (s : String.string) : string :=
  match s with
  | String.EmptyString => EmptyString
  | String.String c s' => String (N_of_ascii c) (of_ascii s')
  end.

(** The decimal digits of a natural number. *)
Definition decimal (n : N) : string := of_ascii (pretty n).

(** *** Literals

    A literal of this file is UTF-8 text; it denotes the string of the
    UTF-16 code units of that text. *)

Definition utf16 (code_point : N) : list code_unit :=
  if (code_point <? 65536)%N then [code_point]
  else [(55296 + (code_point - 65536) / 1024)%N;
        (56320 + (code_point - 65536) mod 1024)%N].

Definition continuation (b : N) : option N :=
  if ((128 <=? b) && (b <? 192))%N then Some (b - 128)%N else None.

Fixpoint decode_utf8 (bs : list N) : option (list code_unit) :=
  match bs with
  | [] => Some []
  | b :: r =>
      if (b <? 128)%N then cons b <$> decode_utf8 r
      else if ((192 <=? b) && (b <? 224))%N then
        match r with
        | b1 :: r1 =>
            c1 ← continuation b1;
            (utf16 ((b - 192) * 64 + c1)%N ++.) <$> decode_utf8 r1
        | _ => None
        end
      else if ((224 <=? b) && (b <? 240))%N then
        match r with
        | b1 :: b2 :: r2 =>
            c1 ← continuation b1; c2 ← continuation b2;
            (utf16 (((b - 224) * 64 + c1) * 64 + c2)%N ++.) <$> decode_utf8 r2
        | _ => None
        end
      else if ((240 <=? b) && (b <? 248))%N then
        match r with
        | b1 :: b2 :: b3 :: r3 =>
            c1 ← continuation b1; c2 ← continuation b2; c3 ← continuation b3;
            (utf16 ((((b - 240) * 64 + c1) * 64 + c2) * 64 + c3)%N ++.)
              <$> decode_utf8 r3
        | _ => None
        end
      else None
  end.

Definition of_bytes (bs : list Byte.byte) : option string :=
  of_units <$> decode_utf8 (Byte.to_N <$> bs).

(** Strings of ASCII characters are shown as literals. *)
Fixpoint to_bytes (s : string) : option (list Byte.byte) :=
  match s with
  | EmptyString => Some []
  | String c s' =>
      if (c <? 128)%N then b ← Byte.of_N c; bs ← to_bytes s'; Some (b :: bs)
      else None
  end.

Definition unit_of_byte (b : Byte.byte) : option code_unit :=
  if (Byte.to_N b <? 128)%N then Some (Byte.to_N b) else None.

Definition byte_of_unit (c : code_unit) : option Byte.byte := None.

End JSString.

Declare Scope js_scope.
Delimit Scope js_scope with js.
Declare Scope unit_scope.
Delimit Scope unit_scope with unit.
String Notation JSString.string JSString.of_bytes JSString.to_bytes : js_scope.
String Notation N JSString.unit_of_byte JSString.byte_of_unit : unit_scope.
Bind Scope js_scope with JSString.string.
Bind Scope unit_scope with JSString.code_unit.
Infix "+:+" := JSString.append (at level 60, right associativity) : js_scope.

Import JSString(code_unit, string(..), decimal).

Local Open Scope js_scope.
Local Open Scope Z_scope.
Local Open Scope list_scope.

#[global] Instance jsstring_eq_dec : EqDecision string.
Proof. solve_decision. Defined.

#[global] Instance jsstring_countable : Countable string.
Proof.
  refine (inj_countable' JSString.to_units JSString.of_units _).
  intros s. induction s as [|c s IH]; simpl; [reflexivity | by rewrite IH].
Defined.

#[global] Instance jsstring_inhabited : Inhabited string := populate EmptyString.

(* ===================================================================== *)
(** ** The JavaScript built-ins the sources call *)
(* ===================================================================== *)

Module JS.

Definition number : Type := float.

(** Outcome of a computation that may throw: [Threw msg] carries the
    [message] of the thrown [Error]. *)
Inductive completion (A : Type) : Type :=
| Returned (a : A)
| Threw (message : string).
Arguments Returned {A} a.
Arguments Threw {A} message.

(** ASCII lower case: [A]..[Z] become [a]..[z], any other code unit is
    kept. *)
Definition lower_ascii (c : code_unit) : code_unit :=
  if ((65 <=? c) && (c <=? 90))%N then (c + 32)%N else c.

Fixpoint ascii_lowercase (s : string) : string :=
  match s with
  | EmptyString => EmptyString
  | String c s' => String (lower_ascii c) (ascii_lowercase s')
  end.

(** Every code unit of [s] is in U+0020..U+007E. *)
Fixpoint printable_ascii (s : string) : bool :=
  match s with
  | EmptyString => true
  | String c s' => (32 <=? c)%N && (c <=? 126)%N && printable_ascii s'
  end.

(** [s.endsWith(x)]. *)
Fixpoint endsWith (s x : string) : bool :=
  if JSString.eqb s x then true
  else match s with
       | EmptyString => false
       | String _ s' => endsWith s' x
       end.

(** [s.includes(c)] for a one-character needle. *)
Fixpoint includes_char (s : string) (c : code_unit) : bool :=
  match s with
  | EmptyString => false
  | String d s' => if N.eqb d c then true else includes_char s' c
  end.

(** [s.lastIndexOf(c)] for a one-character needle: the greatest index
    holding [c], or -1. *)
Fixpoint lastIndexOf_from (i : Z) (found : Z) (s : string) (c : code_unit) : Z :=
  match s with
  | EmptyString => found
  | String d s' => lastIndexOf_from (i + 1) (if N.eqb d c then i else found) s' c
  end.

Definition lastIndexOf (s : string) (c : code_unit) : Z := lastIndexOf_from 0 (-1) s c.

Fixpoint drop_chars (n : nat) (s : string) : string :=
  match n, s with
  | O, _ => s
  | S _, EmptyString => EmptyString
  | S n', String _ s' => drop_chars n' s'
  end.

(** [s.substring(start)]: a negative start counts as 0, a start past the
    end as the length. *)
Definition substring (s : string) (start : Z) : string :=
  drop_chars (Z.to_nat (Z.max 0 start)) s.

(** [s.split(sep)] for a one-character separator: never empty. *)
Fixpoint split (sep : code_unit) (s : string) : list string :=
  match s with
  | EmptyString => [EmptyString]
  | String c s' =>
      if N.eqb c sep then EmptyString :: split sep s'
      else match split sep s' with
           | x :: xs => String c x :: xs
           | [] => [String c EmptyString]
           end
  end.

(** [arr.pop()], as a value: the last element, [None] for [undefined]. *)
Definition pop {A} (l : list A) : option A := last l.

(** [arr.includes(x)] on an array of strings. *)
Definition includes (l : list string) (x : string) : bool :=
  existsb (JSString.eqb x) l.

(** [arr.some(p)]. *)
Definition some {A} (p : A -> bool) (l : list A) : bool := existsb p l.

(** [arr.findIndex(p)]: the first index satisfying [p], or -1. *)
Fixpoint findIndex_from {A} (i : Z) (p : A -> bool) (l : list A) : Z :=
  match l with
  | [] => -1
  | x :: l' => if p x then i else findIndex_from (i + 1) p l'
  end.

Definition findIndex {A} (p : A -> bool) (l : list A) : Z := findIndex_from 0 p l.

(** [arr.slice(start, end)] and [arr.slice(start)], with negative
    indices counted from the end and both ends clamped. *)
Definition relative_index (len i : Z) : Z :=
  if i <? 0 then Z.max 0 (len + i) else Z.min i len.

Definition slice {A} (l : list A) (start : Z) (stop : option Z) : list A :=
  let len := Z.of_nat (length l) in
  let from := relative_index len start in
  let to := match stop with Some e => relative_index len e | None => len end in
  take (Z.to_nat (to - from)) (drop (Z.to_nat from) l).

(** [n.toString()] for a non-negative integer-valued number such as
    [Date.now()]: its decimal digits. *)
Definition toString (n : N) : string := decimal n.

(** Truthiness of a [string | null] value. *)
Definition truthy (v : option string) : bool :=
  match v with
  | Some s => negb (JSString.eqb s EmptyString)
  | None => false
  end.

(** Truthiness of an object-or-null (or object-or-undefined) value. *)
Definition defined {A} (v : option A) : bool :=
  match v with Some _ => true | None => false end.

End JS.

Import JS.

(* ===================================================================== *)
(** ** Data model *)
(* ===================================================================== *)

(** A metrics object is a JavaScript object literal of numbers: its
    properties in insertion order. *)
Definition Metrics : Type := list (string * number).

(** The records held by the Result Store and produced by batch
    evaluation (the object literals of UnifiedBenchmarkPage.tsx and
    ModelLibraryPage.tsx).  Optional properties are [None] when the object
    has no such property. *)
Record BenchmarkResult : Type := mkBenchmarkResult {
  modelName : string;
  modelId : option string;
  metrics : Metrics;
  timestamp : string;
  fromLibrary : option bool;
  error : option string
}.

(** A browser or Node [File]: its metadata, and its contents as the byte
    held at each offset below [size]. *)
Record File : Type := mkFile {
  name : string;
  size : Z;
  type : string;
  byte_at : Z -> ascii
}.

(** The [type] a [Blob] keeps of the one it is constructed with: the
    empty string when a character is outside U+0020..U+007E, its lower
    case otherwise. *)
Definition blob_type (type_ : string) : string :=
  if printable_ascii type_ then ascii_lowercase type_ else "".

(** [new File([buffer], name, {type})]. *)
Definition File_of (buffer : list ascii) (name_ type_ : string) : File :=
  mkFile name_ (Z.of_nat (length buffer)) (blob_type type_)
         (fun i => nth (Z.to_nat i) buffer "000"%char).

(** [localStorage]: string keys to string values. *)
Abbreviation Storage := (gmap string string).

Definition getItem (st : Storage) (k : string) : option string := st !! k.
Definition setItem (st : Storage) (k v : string) : Storage := <[k := v]> st.
Definition removeItem (st : Storage) (k : string) : Storage := delete k st.

(** The server's disk: paths to contents. *)
Abbreviation FileSystem := (gmap string (list ascii)).

(** [fs.promises.rename(from, to)]. *)
Definition rename (from to : string) (fs : FileSystem) : completion unit * FileSystem :=
  match fs !! from with
  | Some c => (Returned tt, <[to := c]> (delete from fs))
  | None => (Threw "ENOENT: no such file or directory", fs)
  end.

(* ===================================================================== *)
(** ** The multipart parser: formidable *)
(* ===================================================================== *)

Module Formidable.

(** One part of a multipart body, as formidable has read its headers:
    the file name and the content type it carries, if any, and its bytes;
    [staging] is the path formidable picks under [uploadDir] for it. *)
Record Part : Type := mkPart {
  originalFilename : option string;
  mimetype : option string;
  content : list ascii;
  staging : string
}.

(** A parsed file, as the handler sees it. *)
Record PersistentFile : Type := mkPersistentFile {
  pf_originalFilename : option string;
  filepath : string;
  pf_size : Z;
  pf_mimetype : option string
}.

(** The reasons for which [form.parse] rejects a file part: the part is
    empty (the handlers leave [allowEmptyFiles] unset), or it is larger
    than [maxFileSize]. *)
Inductive Failure : Type :=
| emptyFile
| fileTooLarge.

Section Parse.

(** The [message] of the error the promise is rejected with: the
    library's wording, for the failure, the [maxFileSize] option and the
    part. *)
Variable message : Failure -> Z -> Part -> string.

(** [form.parse(req)] restricted to the one field the handler reads.  A
    part without a content type is a field, not a file; a part the
    [filter] turns down is skipped; an empty part and a part over
    [maxFileSize] make the parse fail, and what was staged of them is
    removed; any other part is written to its staging path. *)
Definition parse (filter : Part -> bool) (maxFileSize : Z) (part : option Part)
    (fs : FileSystem) : completion (option PersistentFile) * FileSystem :=
  match part with
  | None => (Returned None, fs)
  | Some p =>
      if negb (truthy (mimetype p)) then (Returned None, fs)
      else if negb (filter p) then (Returned None, fs)
      else if Z.of_nat (length (content p)) =? 0 then
        (Threw (message emptyFile maxFileSize p), fs)
      else if Z.of_nat (length (content p)) >? maxFileSize then
        (Threw (message fileTooLarge maxFileSize p), fs)
      else
        (Returned (Some (mkPersistentFile (originalFilename p) (staging p)
                           (Z.of_nat (length (content p))) (mimetype p))),
         <[staging p := content p]> fs)
  end.

End Parse.

End Formidable.

(** A request to an upload route: its method and, if the body has one,
    the first part under the field the route reads. *)
Record Request : Type := mkRequest {
  method : string;
  file_part : option Formidable.Part
}.

(* ===================================================================== *)
(** ** The platform *)
(* ===================================================================== *)

(** What the sources call and the platform supplies; the development
    assumes nothing of these functions beyond what a statement says. *)
Record Platform : Type := mkPlatform {
  (** [String.prototype.toLowerCase] *)
  toLowerCase : string -> string;
  (** [path.extname] of Node *)
  path_extname : string -> string;
  (** the [message] of the errors of formidable *)
  formidable_message : Formidable.Failure -> Z -> Formidable.Part -> string
}.

(** With its letters lowered, the file name ends in [ext] (the dot
    included). *)
Definition has_extension (platform : Platform) (ext filename : string) : Prop :=
  exists stem, toLowerCase platform filename = stem +:+ ext.

(* ===================================================================== *)
(** ** Result Store: context/ModelContext.tsx *)
(* ===================================================================== *)

Module ModelContext.

(** The provider's React state together with the browser storage it
    mirrors. *)
Record Store : Type := mkStore {
  selectedModels : list BenchmarkResult;
  localStorage : Storage
}.

(** The model names held by a collection, in order. *)
Definition names (l : list BenchmarkResult) : list string := modelName <$> l.

Section Provider.

(** [JSON.stringify] and [JSON.parse] at the type of the stored
    collection; [JSON_parse s = None] when [JSON.parse(s)] throws its
    [SyntaxError]. *)
Variable JSON_stringify : list BenchmarkResult -> string.
Variable JSON_parse : string -> option (list BenchmarkResult).

(** The effect run on initial render.  [Threw "SyntaxError"] is the
    [SyntaxError] of [JSON.parse] leaving the effect: nothing catches it. *)
Definition loadModels (st : Store) : completion Store :=
  let savedModels := getItem (localStorage st) "selectedModels" in
  if truthy savedModels then
    match JSON_parse (default "" savedModels) with
    | Some parsed => Returned (mkStore parsed (localStorage st))
    | None => Threw "SyntaxError"
    end
  else Returned st.

Definition addModel (model : BenchmarkResult) (st : Store) : Store :=
  let prev := selectedModels st in
  let exists_ := some (fun m => JSString.eqb (modelName m) (modelName model)) prev in
  if exists_ then st
  else
    let newModels := prev ++ [model] in
    mkStore newModels
            (setItem (localStorage st) "selectedModels" (JSON_stringify newModels)).

Definition removeModel (modelName_ : string) (st : Store) : Store :=
  let prev := selectedModels st in
  let index := findIndex (fun m => JSString.eqb (modelName m) modelName_) prev in
  if index =? -1 then st
  else
    let newModels := slice prev 0 (Some index) ++ slice prev (index + 1) None in
    mkStore newModels
            (setItem (localStorage st) "selectedModels" (JSON_stringify newModels)).

Definition clearModels (st : Store) : Store :=
  mkStore [] (removeItem (localStorage st) "selectedModels").

(** The collection a reload reads back from storage: what [loadModels]
    leaves in a freshly mounted provider, [None] when it throws. *)
Definition storedModels (storage : Storage) : option (list BenchmarkResult) :=
  match loadModels (mkStore [] storage) with
  | Returned st => Some (selectedModels st)
  | Threw _ => None
  end.

Definition in_sync (st : Store) : Prop :=
  storedModels (localStorage st) = Some (selectedModels st).

(** A collection survives being written and read back: its JSON text is
    not the empty string and parses to the collection itself. *)
Definition round_trips (l : list BenchmarkResult) : Prop :=
  JSON_stringify l <> "" /\ JSON_parse (JSON_stringify l) = Some l.

End Provider.

End ModelContext.

(* ===================================================================== *)
(** ** Dataset validation: components/DatasetUploader.tsx *)
(* ===================================================================== *)

Module DatasetUploader.

Record State : Type := mkState {
  loading : bool;
  error : option string;
  successMessage : option string
}.

(** What the server's JSON body exposes to the component. *)
Record ResponseData : Type := mkResponseData {
  data_error : option string;
  data_payload : string
}.

Record Response : Type := mkResponse {
  ok : bool;
  status : N;
  json : completion ResponseData
}.

(** The optional callbacks of [DatasetUploaderProps]: whether the
    mounting page passes them. *)
Record Props : Type := mkProps {
  has_onUploadSuccess : bool;
  has_onUploadError : bool
}.

(** The calls the component makes to its surroundings, in order. *)
Inductive Event : Type :=
| fetch_POST (url : string) (file : File)
| onUploadError (msg : string)
| onUploadSuccess (data : ResponseData)
| clearFileInput.

Definition validTypes : list string := [".csv"; ".xlsx"; ".xls"].

Definition apiUrl : string := "http://localhost:3000/api/upload/dataset".

Section Handler.

Variable platform : Platform.
Variable props : Props.

(** The network: what [fetch(url, {method: 'POST', body})] settles to. *)
Variable fetch : string -> File -> completion Response.

Definition fileExtension (file : File) : string :=
  toLowerCase platform (substring (name file) (lastIndexOf (name file) "."%unit)).

(** [onUploadError?.(msg)] and [onUploadSuccess?.(data)]. *)
Definition call_onUploadError (msg : string) : list Event :=
  if has_onUploadError props then [onUploadError msg] else [].

Definition call_onUploadSuccess (data : ResponseData) : list Event :=
  if has_onUploadSuccess props then [onUploadSuccess data] else [].

(** The body of the [try] block: the request and the handling of its
    response; events are listed in the order they happen. *)
Definition upload (file : File) : list Event * completion ResponseData :=
  match fetch apiUrl file with
  | Threw msg => ([fetch_POST apiUrl file], Threw msg)
  | Returned response =>
      match json response with
      | Threw _ => ([fetch_POST apiUrl file], Threw "Server returned invalid JSON response")
      | Returned data =>
          if negb (ok response) then
            ([fetch_POST apiUrl file],
             Threw (if truthy (data_error data) then default "" (data_error data)
                    else "Upload failed with status: " +:+ decimal (status response)))
          else ([fetch_POST apiUrl file; clearFileInput], Returned data)
      end
  end.

Definition handleDatasetUpload (file : option File) (st : State) : State * list Event :=
  match file with
  | None =>
      let errorMsg := "No file selected" in
      (mkState (loading st) (Some errorMsg) (successMessage st),
       call_onUploadError errorMsg)
  | Some file =>
      if negb (includes validTypes (fileExtension file)) then
        let errorMsg := "Invalid file format. Only .csv, .xlsx, and .xls files are supported." in
        (mkState (loading st) (Some errorMsg) (successMessage st),
         call_onUploadError errorMsg)
      else
        match upload file with
        | (events, Returned data) =>
            (mkState false None (Some "Dataset uploaded successfully"),
             events ++ call_onUploadSuccess data)
        | (events, Threw errorMsg) =>
            (mkState false (Some errorMsg) (successMessage st),
             events ++ call_onUploadError errorMsg)
        end
  end.

End Handler.


End DatasetUploader.

(* ===================================================================== *)
(** ** Dataset validation: pages/DatasetComparisonPage.tsx *)
(* ===================================================================== *)

Module DatasetComparisonPage.

Record DatasetValidationResult : Type := mkValidation {
  isValid : bool;
  error : option string;
  data : option (list File)
}.

Section Validation.

Variable platform : Platform.

Definition validateDataset (file : option File) : DatasetValidationResult :=
  match file with
  | None => mkValidation false (Some "No file provided") None
  | Some file =>
      let fileType :=
        option_map (toLowerCase platform) (pop (split "."%unit (name file))) in
      if negb (includes ["csv"; "xlsx"] (default "" fileType)) then
        mkValidation false
          (Some "Invalid file type. Please upload a .csv or .xlsx file") None
      else mkValidation true None (Some [])
  end.

Record Page : Type := mkPage {
  dataset1 : option File;
  dataset2 : option File;
  page_error : option string
}.

Definition handleDatasetUpload (file : option File) (isDataset1 : bool) (pg : Page) : Page :=
  match file with
  | None => mkPage (dataset1 pg) (dataset2 pg) None
  | Some f =>
      let validationResult := validateDataset (Some f) in
      if negb (isValid validationResult) then
        mkPage (dataset1 pg) (dataset2 pg)
               (Some (if truthy (error validationResult)
                      then default "" (error validationResult)
                      else "Invalid dataset file"))
      else if isDataset1 then mkPage (Some f) (dataset2 pg) None
      else mkPage (dataset1 pg) (Some f) None
  end.

End Validation.

End DatasetComparisonPage.

(* ===================================================================== *)
(** ** Model validation: utils/modelHandler.ts *)
(* ===================================================================== *)

Module ModelHandler.

Inductive ModelFormat : Type := pkl | onnx | h5 | pt.

Record ModelInfo : Type := mkModelInfo {
  id : string;
  info_name : string;
  format : ModelFormat;
  info_size : Z;
  info_timestamp : string;
  info_type : string
}.

Definition maxSize : Z := 500 * 1024 * 1024.

(** [validateModelFile(file)]; [Threw msg] is the promise rejected with
    [new ModelValidationError(msg)].  [Date_now] is the reading of
    [Date.now()] (milliseconds) and [Date_iso] that of
    [new Date().toISOString()] at the call. *)
Section Validator.

Variable platform : Platform.

Definition validateModelFile (file : File) (Date_now : N) (Date_iso : string)
  : completion ModelInfo :=
  if negb (endsWith (toLowerCase platform (name file)) ".pkl") then
    Threw "Invalid file format. Only .pkl files are supported."
  else if size file >? maxSize then
    Threw "File size too large. Maximum size is 500MB."
  else
    Returned (mkModelInfo (toString Date_now) (name file) pkl (size file)
                          Date_iso "gpt-4").

(** The ids returned by a session of calls, each with the file it is given
    and the clock readings at the call. *)
Definition returned_ids (calls : list (File * N * string)) : list string :=
  omap (fun call : File * N * string =>
          match validateModelFile call.1.1 call.1.2 call.2 with
          | Returned info => Some (id info)
          | Threw _ => None
          end) calls.

End Validator.

(** The pass/fail decision of a validation: [None] for a pass, the
    error message for a failure. *)
Definition verdict (c : completion ModelInfo) : option string :=
  match c with
  | Returned _ => None
  | Threw msg => Some msg
  end.

End ModelHandler.

(* ===================================================================== *)
(** ** Upload handlers: pages/api/upload/dataset.ts, pages/api/model/upload.ts *)
(* ===================================================================== *)

Module UploadDataset.

Record DatasetInfo : Type := mkDatasetInfo {
  id : string;
  filename : string;
  originalName : string;
  info_size : Z;
  info_type : option string;
  uploadedAt : string
}.

Inductive Body : Type :=
| error_body (error : string)
| dataset_body (info : DatasetInfo).

Record Response : Type := mkResponse { status : Z; body : Body }.

Section Handler.

Variable platform : Platform.

(** The upload directory [path.join(process.cwd(), 'uploads', 'datasets')]. *)
Variable UPLOADS_DIR : string.

Definition path_join (dir file : string) : string := dir +:+ "/" +:+ file.

Definition filter (p : Formidable.Part) : bool :=
  match Formidable.originalFilename p with
  | None => false
  | Some originalFilename =>
      if JSString.eqb originalFilename "" then false
      else
        let ext := toLowerCase platform (path_extname platform originalFilename) in
        includes [".csv"; ".xlsx"; ".xls"] ext
  end.

Definition handler (req : Request) (Date_now : N) (Date_iso : string) (fs : FileSystem)
  : Response * FileSystem :=
  if negb (JSString.eqb (method req) "POST") then
    (mkResponse 405 (error_body "Method not allowed"), fs)
  else
    match Formidable.parse (formidable_message platform) filter (100 * 1024 * 1024)
            (file_part req) fs with
    | (Threw msg, fs1) => (mkResponse 500 (error_body msg), fs1)
    | (Returned None, fs1) => (mkResponse 400 (error_body "No file part"), fs1)
    | (Returned (Some uploadedFile), fs1) =>
        if negb (truthy (Formidable.pf_originalFilename uploadedFile)) then
          (mkResponse 400 (error_body "Invalid file upload"), fs1)
        else
          let originalFilename := default "" (Formidable.pf_originalFilename uploadedFile) in
          let fileId := toString Date_now in
          let ext := path_extname platform originalFilename in
          let finalFilename := "dataset_" +:+ fileId +:+ ext in
          let finalPath := path_join UPLOADS_DIR finalFilename in
          match rename (Formidable.filepath uploadedFile) finalPath fs1 with
          | (Threw msg, fs2) => (mkResponse 500 (error_body msg), fs2)
          | (Returned _, fs2) =>
              (mkResponse 200
                 (dataset_body
                    (mkDatasetInfo fileId finalFilename originalFilename
                       (Formidable.pf_size uploadedFile)
                       (Formidable.pf_mimetype uploadedFile) Date_iso)),
               fs2)
          end
    end.

End Handler.

(** The id a response carries, when it is a success. *)
Definition response_id (r : Response) : option string :=
  match body r with
  | dataset_body info => Some (id info)
  | error_body _ => None
  end.

(** A session: requests served one after the other on the same disk,
    each with the clock readings at its arrival. *)
Fixpoint serve (platform : Platform) (UPLOADS_DIR : string)
    (calls : list (Request * N * string)) (fs : FileSystem)
  : list Response * FileSystem :=
  match calls with
  | [] => ([], fs)
  | (req, Date_now, Date_iso) :: calls' =>
      let '(response, fs1) := handler platform UPLOADS_DIR req Date_now Date_iso fs in
      let '(responses, fs2) := serve platform UPLOADS_DIR calls' fs1 in
      (response :: responses, fs2)
  end.

End UploadDataset.

Module UploadModel.

Inductive Body : Type :=
| error_body (error : string)
| model_body (modelInfo : ModelHandler.ModelInfo).

Record Response : Type := mkResponse { status : Z; body : Body }.

Section Handler.

Variable platform : Platform.

(** The upload directory [path.join(process.cwd(), 'uploads')]. *)
Variable UPLOADS_DIR : string.

Definition handler (req : Request) (Date_now : N) (Date_iso : string) (fs : FileSystem)
  : Response * FileSystem :=
  if negb (JSString.eqb (method req) "POST") then
    (mkResponse 405 (error_body "Method not allowed"), fs)
  else
    match Formidable.parse (formidable_message platform) (fun _ => true)
            (500 * 1024 * 1024) (file_part req) fs with
    | (Threw msg, fs1) => (mkResponse 500 (error_body ("Upload failed: " +:+ msg)), fs1)
    | (Returned None, fs1) =>
        (mkResponse 400 (error_body "No model file provided in the request"), fs1)
    | (Returned (Some modelFile), fs1) =>
        if negb (truthy (Formidable.pf_originalFilename modelFile)) then
          (mkResponse 400 (error_body "Invalid file upload"), fs1)
        else
          match fs1 !! Formidable.filepath modelFile with
          | None =>
              (mkResponse 500 (error_body "Upload failed: ENOENT: no such file or directory"),
               fs1)
          | Some fileBuffer =>
              let file :=
                File_of fileBuffer
                  (default "" (Formidable.pf_originalFilename modelFile))
                  (if truthy (Formidable.pf_mimetype modelFile)
                   then default "" (Formidable.pf_mimetype modelFile)
                   else "application/octet-stream") in
              match ModelHandler.validateModelFile platform file Date_now Date_iso with
              | Threw msg =>
                  (mkResponse 500 (error_body ("Upload failed: " +:+ msg)), fs1)
              | Returned modelInfo =>
                  let finalPath :=
                    UPLOADS_DIR +:+ "/" +:+ ModelHandler.id modelInfo +:+ ".pkl" in
                  match rename (Formidable.filepath modelFile) finalPath fs1 with
                  | (Threw msg, fs2) =>
                      (mkResponse 500 (error_body ("Upload failed: " +:+ msg)), fs2)
                  | (Returned _, fs2) => (mkResponse 200 (model_body modelInfo), fs2)
                  end
              end
          end
    end.

End Handler.

Definition response_id (r : Response) : option string :=
  match body r with
  | model_body info => Some (ModelHandler.id info)
  | error_body _ => None
  end.

End UploadModel.

(* ===================================================================== *)
(** ** Effects of the evaluation code: randomness, clock, network, console *)
(* ===================================================================== *)

Module Effects.

(** The body of [POST /api/evaluate] and the JSON it answers with. *)
Record EvaluateRequest : Type := mkEvaluateRequest {
  model_path : option string;
  dataset_path : string
}.

Record EvaluationResponse : Type := mkEvaluationResponse {
  status : string;
  response_metrics : option Metrics;
  predictions : option (list number);
  message : option string
}.

(** The surroundings: the successive values of [Math.random()], the
    successive readings of [new Date().toISOString()], and what the
    evaluation endpoint does with a request ([Threw] when [fetch] or
    [response.json()] rejects). *)
Record Env : Type := mkEnv {
  Math_random_at : nat -> number;
  Date_toISOString_at : nat -> string;
  POST_evaluate : EvaluateRequest -> completion EvaluationResponse
}.

(** What the code has done to its surroundings so far. *)
Record World : Type := mkWorld {
  draws : nat;
  date_reads : nat;
  requests : list EvaluateRequest;
  console_error : list string
}.

Definition M (A : Type) : Type := World -> completion A * World.

Definition ret {A} (a : A) : M A := fun w => (Returned a, w).

Definition bind {A B} (c : M A) (k : A -> M B) : M B :=
  fun w =>
    match c w with
    | (Returned a, w') => k a w'
    | (Threw msg, w') => (Threw msg, w')
    end.

Definition throw {A} (msg : string) : M A := fun w => (Threw msg, w).

(** [try { c } catch (e) { h e.message }]. *)
Definition try_catch {A} (c : M A) (h : string -> M A) : M A :=
  fun w =>
    match c w with
    | (Returned a, w') => (Returned a, w')
    | (Threw msg, w') => h msg w'
    end.

Fixpoint for_of {A B} (l : list A) (body : A -> M B) : M (list B) :=
  match l with
  | [] => ret []
  | x :: l' => bind (body x) (fun y => bind (for_of l' body) (fun ys => ret (y :: ys)))
  end.

Section Primitives.

Variable env : Env.

Definition Math_random : M number :=
  fun w => (Returned (Math_random_at env (draws w)),
            mkWorld (S (draws w)) (date_reads w) (requests w) (console_error w)).

Definition Date_toISOString : M string :=
  fun w => (Returned (Date_toISOString_at env (date_reads w)),
            mkWorld (draws w) (S (date_reads w)) (requests w) (console_error w)).

Definition console_error_ (line : string) : M unit :=
  fun w => (Returned tt,
            mkWorld (draws w) (date_reads w) (requests w) (console_error w ++ [line])).

(** [api.evaluateModel(modelPath, datasetPath)] of services/api.ts. *)
Definition api_evaluateModel (modelPath : option string) (datasetPath : string)
  : M EvaluationResponse :=
  fun w =>
    let request := mkEvaluateRequest modelPath datasetPath in
    (POST_evaluate env request,
     mkWorld (draws w) (date_reads w) (requests w ++ [request]) (console_error w)).

End Primitives.

End Effects.

Import Effects.

Notation "x <- c ;; k" := (bind c (fun x => k))
  (at level 100, c at next level, right associativity).
Notation "c ;;; k" := (bind c (fun _ => k))
  (at level 100, right associativity).

(* ===================================================================== *)
(** ** Batch evaluation: pages/UnifiedBenchmarkPage.tsx *)
(* ===================================================================== *)

Module UnifiedBenchmarkPage.

Local Open Scope float_scope.

Record Page : Type := mkPage {
  loading : bool;
  page_error : option string;
  comparisonResults : list BenchmarkResult;
  activeTab : Z;
  (** the last argument given to [onStateChange], if it was called *)
  stateChange : option (list BenchmarkResult * list BenchmarkResult)
}.

Definition zeroMetrics : Metrics :=
  [("accuracy", 0); ("f1Score", 0); ("precision", 0); ("recall", 0);
   ("latency", 0); ("throughput", 0); ("memoryUsage", 0); ("modelSize", 0)].

Section Page.

Variable env : Env.

(** What the page reads from its contexts. *)
Variable selectedModels : list BenchmarkResult.
Variable dataset : option File.
Variable datasetPath : option string.

Definition simulatedMetrics : M Metrics :=
  accuracy <- Math_random env;;
  f1Score <- Math_random env;;
  precision <- Math_random env;;
  recall <- Math_random env;;
  latency <- Math_random env;;
  throughput <- Math_random env;;
  memoryUsage <- Math_random env;;
  modelSize <- Math_random env;;
  ret [("accuracy", accuracy * 0.3 + 0.7);
       ("f1Score", f1Score * 0.3 + 0.7);
       ("precision", precision * 0.3 + 0.7);
       ("recall", recall * 0.3 + 0.7);
       ("latency", latency * 100 + 50);
       ("throughput", throughput * 1000 + 500);
       ("memoryUsage", memoryUsage * 1000 + 500);
       ("modelSize", modelSize * 100 + 50)].

Definition customMetrics (model : BenchmarkResult) : M Metrics :=
  if negb (defined dataset) || negb (truthy datasetPath) then
    throw "Please upload a dataset before evaluating custom models"
  else
    try_catch
      (result <- api_evaluateModel env (modelId model) (default "" datasetPath);;
       match response_metrics result with
       | None => throw "Evaluation failed to return metrics"
       | Some m => ret m
       end)
      (fun evalError =>
         console_error_ ("Evaluation error for " +:+ modelName model +:+ ":");;;
         throw ("Failed to evaluate " +:+ modelName model +:+ ": " +:+ evalError)).

(** One iteration of the loop: the [BenchmarkResult] it pushes. *)
Definition evaluateOne (model : BenchmarkResult) : M BenchmarkResult :=
  try_catch
    (modelMetrics <- (if default false (fromLibrary model) then simulatedMetrics
                      else customMetrics model);;
     now <- Date_toISOString env;;
     ret (mkBenchmarkResult (modelName model) (modelId model) modelMetrics now
                            (fromLibrary model) None))
    (fun modelError =>
       console_error_ ("Error evaluating model " +:+ modelName model +:+ ":");;;
       now <- Date_toISOString env;;
       ret (mkBenchmarkResult (modelName model) (modelId model) zeroMetrics now
                              (fromLibrary model)
                              (Some ("Failed to evaluate model: " +:+ modelError)))).

(** Whether evaluating [model] yields metrics: it is a library model, or
    the dataset is there and the endpoint answers with metrics.  This
    depends on the model and the surroundings only. *)
Definition succeeds (model : BenchmarkResult) : bool :=
  if default false (fromLibrary model) then true
  else if negb (defined dataset) || negb (truthy datasetPath) then false
  else
    match POST_evaluate env (mkEvaluateRequest (modelId model) (default "" datasetPath)) with
    | Returned response => defined (response_metrics response)
    | Threw _ => false
    end.

(** The external dispatch for a custom model fails, for the reason
    [why]: the request is rejected, or its answer carries no metrics. *)
Definition dispatch_fails (model : BenchmarkResult) (why : string) : Prop :=
  default false (fromLibrary model) = false /\
  defined dataset = true /\ truthy datasetPath = true /\
  match POST_evaluate env (mkEvaluateRequest (modelId model) (default "" datasetPath)) with
  | Threw msg => why = msg
  | Returned response =>
      response_metrics response = None /\ why = "Evaluation failed to return metrics"
  end.

(** What an iteration pushes, set against the model it evaluates: the
    same name, id and origin, an error exactly when the evaluation does
    not succeed, and zero metrics under an error. *)
Definition result_of (model r : BenchmarkResult) : Prop :=
  modelName r = modelName model /\ modelId r = modelId model /\
  fromLibrary r = fromLibrary model /\
  (error r = None <-> succeeds model = true) /\
  (error r <> None -> metrics r = zeroMetrics).

Definition handleEvaluate (pg : Page) : M Page :=
  if (Z.of_nat (length selectedModels) =? 0)%Z then
    ret (mkPage (loading pg) (Some "Please select at least one model to evaluate.")
                (comparisonResults pg) (activeTab pg) (stateChange pg))
  else
    try_catch
      (results <- for_of selectedModels evaluateOne;;
       ret (mkPage false None results 2 (Some (selectedModels, results))))
      (fun _ =>
         console_error_ "Evaluation error:";;;
         ret (mkPage false (Some "Failed to evaluate models. Please try again.")
                     (comparisonResults pg) (activeTab pg) (stateChange pg))).

End Page.

End UnifiedBenchmarkPage.

(* ===================================================================== *)
(** ** Single-model evaluation: utils/modelEvaluation.ts *)
(* ===================================================================== *)

Module ModelEvaluation.

Local Open Scope float_scope.

Record KFoldResult : Type := mkKFoldResult {
  fold : Z;
  accuracy : number;
  precision : number;
  recall : number;
  f1Score : number
}.

Record DeviceMetrics : Type := mkDeviceMetrics {
  dev_inferenceTime : number;
  latency : number;
  throughput : number
}.

Record HardwareMetrics : Type := mkHardwareMetrics {
  cpu : DeviceMetrics;
  gpu : option DeviceMetrics
}.

(** [ModelMetrics] of types/index.ts, with the properties the module
    sets. *)
Record ModelMetrics : Type := mkModelMetrics {
  m_accuracy : number;
  m_precision : number;
  m_recall : number;
  m_f1Score : number;
  inferenceTime : number;
  memoryUsage : number;
  parameters : number;
  flops : number;
  modelSize : number;
  hardware : HardwareMetrics
}.

Record ModelEvaluationResult : Type := mkModelEvaluationResult {
  metrics : ModelMetrics;
  kFoldResults : list KFoldResult;
  isSimulated : bool
}.

Section Evaluation.

Variable env : Env.

(** The loop [for (let i = 0; i < k; i++)], counting [i] up from [i0]
    for [n] more rounds. *)
Fixpoint generateDummyKFoldResults_from (i0 : Z) (n : nat) : M (list KFoldResult) :=
  match n with
  | O => ret []
  | S n' =>
      a <- Math_random env;;
      p <- Math_random env;;
      r <- Math_random env;;
      f <- Math_random env;;
      rest <- generateDummyKFoldResults_from (i0 + 1)%Z n';;
      ret (mkKFoldResult (i0 + 1)%Z (0.85 + a * 0.1) (0.83 + p * 0.1)
                         (0.82 + r * 0.1) (0.84 + f * 0.1) :: rest)
  end.

Definition generateDummyKFoldResults (k : nat) : M (list KFoldResult) :=
  generateDummyKFoldResults_from 0%Z k.

Definition generateDummyMetrics (isBuiltInModel : bool) : M ModelMetrics :=
  let baseValue := if isBuiltInModel then 0.9 else 0.85 in
  let variance := 0.05 in
  a <- Math_random env;;
  p <- Math_random env;;
  r <- Math_random env;;
  f <- Math_random env;;
  t <- Math_random env;;
  m <- Math_random env;;
  ret (mkModelMetrics
         (baseValue + a * variance)
         (baseValue - 0.02 + p * variance)
         (baseValue - 0.01 + r * variance)
         (baseValue - 0.01 + f * variance)
         (if isBuiltInModel then 8 + t * 4 else 12 + t * 5)
         (if isBuiltInModel then 180 + m * 40 else 220 + m * 50)
         (if isBuiltInModel then 800000 else 1000000)
         (if isBuiltInModel then 1.8e9 else 2.3e9)
         (if isBuiltInModel then 75 else 98)
         (mkHardwareMetrics
            (mkDeviceMetrics (if isBuiltInModel then 15 else 22)
                             (if isBuiltInModel then 12 else 20)
                             (if isBuiltInModel then 150 else 110))
            (Some (mkDeviceMetrics (if isBuiltInModel then 3 else 5)
                                   (if isBuiltInModel then 2 else 4)
                                   (if isBuiltInModel then 800 else 550))))).

(** [evaluateModel(model, dataset, isBuiltInModel)], after its 1.5 s
    delay. *)
Definition evaluateModel (model dataset : File) (isBuiltInModel : bool)
  : M ModelEvaluationResult :=
  if isBuiltInModel then
    metrics <- generateDummyMetrics true;;
    kFoldResults <- generateDummyKFoldResults 5;;
    ret (mkModelEvaluationResult metrics kFoldResults true)
  else
    try_catch
      (metrics <- generateDummyMetrics false;;
       kFoldResults <- generateDummyKFoldResults 5;;
       ret (mkModelEvaluationResult metrics kFoldResults true))
      (fun error =>
         console_error_ "Error evaluating model:";;;
         throw "Failed to evaluate model").

End Evaluation.

End ModelEvaluation.

(* ===================================================================== *)
(** ** A reference JSON codec for the stored collection *)
(* ===================================================================== *)

(** The platform's [JSON.parse] and [JSON.stringify] are parameters of the
    Result Store above.  This module is an executable instance of them,
    written from the JSON grammar (ECMA-404), with which the store is run
    on concrete storage contents.  [parse_json] accepts exactly the JSON
    texts, a [\u] escape standing for one code unit; [parse] then reads the value at the type [BenchmarkResult[]],
    and is [None] as well on a JSON value of another shape or with a
    number outside the conversions of [number_to_float]. [stringify]
    writes numbers by their exact decimal expansion. *)

Module RefJSON.

Inductive json : Type :=
| JNull
| JBool (b : bool)
| JNumber (negative : bool) (digits : N) (scale : Z)
| JString (s : string)
| JArray (items : list json)
| JObject (members : list (string * json)).

Definition dq : code_unit := 34%N.

Definition is_ws (c : code_unit) : bool :=
  let n := c in
  ((n =? 32) || (n =? 9) || (n =? 10) || (n =? 13))%N.

Fixpoint skip_ws (s : string) : string :=
  match s with
  | String c s' => if is_ws c then skip_ws s' else s
  | EmptyString => s
  end.

Definition digit_of (c : code_unit) : option N :=
  let n := c in
  if ((48 <=? n) && (n <=? 57))%N then Some (n - 48)%N else None.

Definition hex_of (c : code_unit) : option N :=
  let n := c in
  if ((48 <=? n) && (n <=? 57))%N then Some (n - 48)%N
  else if ((97 <=? n) && (n <=? 102))%N then Some (n - 87)%N
  else if ((65 <=? n) && (n <=? 70))%N then Some (n - 55)%N
  else None.

(** A maximal run of digits continuing the value [acc]: the value, the
    number of digits read, the rest. *)
Fixpoint read_digits (acc : N) (count : nat) (s : string) : N * nat * string :=
  match s with
  | String c s' =>
      match digit_of c with
      | Some d => read_digits (10 * acc + d)%N (S count) s'
      | None => (acc, count, s)
      end
  | EmptyString => (acc, count, s)
  end.

Definition leading_zero (s : string) : bool :=
  match s with String "0" _ => true | _ => false end.

Definition read_fraction (ip : N) (s : string) : option (N * nat * string) :=
  match s with
  | String "." s' =>
      let '(v, c, r) := read_digits ip 0 s' in
      if Nat.eqb c 0 then None else Some (v, c, r)
  | _ => Some (ip, O, s)
  end.

Definition read_exponent (s : string) : option (Z * string) :=
  let digits_of (neg : bool) (s' : string) :=
    let '(v, c, r) := read_digits 0 0 s' in
    if Nat.eqb c 0 then None
    else Some (if neg then (- Z.of_N v)%Z else Z.of_N v, r) in
  let after_e (s' : string) :=
    match s' with
    | String "-" s'' => digits_of true s''
    | String "+" s'' => digits_of false s''
    | _ => digits_of false s'
    end in
  match s with
  | String "e" s' => after_e s'
  | String "E" s' => after_e s'
  | _ => Some (0, s)
  end.

Definition read_number (s : string) : option (json * string) :=
  let '(neg, s1) := match s with String "-" s' => (true, s') | _ => (false, s) end in
  let '(ip, ic, s2) := read_digits 0 0 s1 in
  if Nat.eqb ic 0 then None
  else if (Nat.ltb 1 ic && leading_zero s1)%bool then None
  else
    match read_fraction ip s2 with
    | None => None
    | Some (v, fc, s3) =>
        match read_exponent s3 with
        | None => None
        | Some (e, s4) => Some (JNumber neg v (e - Z.of_nat fc), s4)
        end
    end.

(** The characters of a string literal after its opening quote, and the
    rest after its closing quote. *)
Fixpoint read_string (s : string) : option (string * string) :=
  let cons (c : code_unit) (r : option (string * string)) :=
    match r with Some (t, rest) => Some (String c t, rest) | None => None end in
  match s with
  | EmptyString => None
  | String c s' =>
      if N.eqb c dq then Some (EmptyString, s')
      else if N.eqb c "\"%unit then
        match s' with
        | String "u" (String h1 (String h2 (String h3 (String h4 s'')))) =>
            match hex_of h1, hex_of h2, hex_of h3, hex_of h4 with
            | Some a, Some b, Some c', Some d =>
                let code := (((a * 16 + b) * 16 + c') * 16 + d)%N in
                cons code (read_string s'')
            | _, _, _, _ => None
            end
        | String e s'' =>
            if N.eqb e dq then cons dq (read_string s'')
            else if N.eqb e "\"%unit then cons "\"%unit (read_string s'')
            else if N.eqb e "/"%unit then cons "/"%unit (read_string s'')
            else if N.eqb e "b"%unit then cons 8%N (read_string s'')
            else if N.eqb e "f"%unit then cons 12%N (read_string s'')
            else if N.eqb e "n"%unit then cons 10%N (read_string s'')
            else if N.eqb e "r"%unit then cons 13%N (read_string s'')
            else if N.eqb e "t"%unit then cons 9%N (read_string s'')
            else None
        | EmptyString => None
        end
      else if (c <? 32)%N then None
      else cons c (read_string s')
  end.

Definition read_literal (word : string) (v : json) (s : string) : option (json * string) :=
  if JSString.prefix word s
  then Some (v, drop_chars (JSString.length word) s) else None.

Fixpoint read_value (fuel : nat) (s : string) {struct fuel} : option (json * string) :=
  match fuel with
  | O => None
  | S fuel' =>
      match skip_ws s with
      | String "n" _ as t => read_literal "null" JNull t
      | String "t" _ as t => read_literal "true" (JBool true) t
      | String "f" _ as t => read_literal "false" (JBool false) t
      | String "[" s' =>
          match skip_ws s' with
          | String "]" r => Some (JArray [], r)
          | t =>
              match read_items fuel' t with
              | Some (vs, r) => Some (JArray vs, r)
              | None => None
              end
          end
      | String "{" s' =>
          match skip_ws s' with
          | String "}" r => Some (JObject [], r)
          | t =>
              match read_members fuel' t with
              | Some (ms, r) => Some (JObject ms, r)
              | None => None
              end
          end
      | String c s' as t =>
          if N.eqb c dq then
            match read_string s' with
            | Some (str, r) => Some (JString str, r)
            | None => None
            end
          else read_number t
      | EmptyString => None
      end
  end
with read_items (fuel : nat) (s : string) {struct fuel} : option (list json * string) :=
  match fuel with
  | O => None
  | S fuel' =>
      match read_value fuel' s with
      | Some (v, r) =>
          match skip_ws r with
          | String "," r' =>
              match read_items fuel' r' with
              | Some (vs, r'') => Some (v :: vs, r'')
              | None => None
              end
          | String "]" r' => Some ([v], r')
          | _ => None
          end
      | None => None
      end
  end
with read_members (fuel : nat) (s : string) {struct fuel}
  : option (list (string * json) * string) :=
  match fuel with
  | O => None
  | S fuel' =>
      match skip_ws s with
      | String c s' =>
          if N.eqb c dq then
            match read_string s' with
            | Some (key, r) =>
                match skip_ws r with
                | String ":" r1 =>
                    match read_value fuel' r1 with
                    | Some (v, r2) =>
                        match skip_ws r2 with
                        | String "," r3 =>
                            match read_members fuel' r3 with
                            | Some (ms, r4) => Some ((key, v) :: ms, r4)
                            | None => None
                            end
                        | String "}" r3 => Some ([(key, v)], r3)
                        | _ => None
                        end
                    | None => None
                    end
                | _ => None
                end
            | None => None
            end
          else None
      | EmptyString => None
      end
  end.

(** [JSON.parse] as a syntax: one value, surrounded by white space. *)
Definition parse_json (s : string) : option json :=
  match read_value (2 * JSString.length s + 2) s with
  | Some (v, r) => match skip_ws r with EmptyString => Some v | _ => None end
  | None => None
  end.

(** *** Numbers *)

Definition float_of_Z (z : Z) : float := PrimFloat.of_uint63 (Uint63.of_Z z).

(** The binary64 value of the decimal [digits * 10^scale], where the
    conversion is exact ([digits * 10^scale] is a dyadic rational with a
    mantissa below [2^53]) or one correctly rounded division away. *)
Definition magnitude_to_float (digits : N) (scale : Z) : option float :=
  let d := Z.of_N digits in
  if (d =? 0)%Z then Some (float_of_Z 0)
  else if (0 <=? scale)%Z then
    let n := (d * 10 ^ scale)%Z in
    if (n <? 2 ^ 53)%Z then Some (float_of_Z n) else None
  else
    let k := (- scale)%Z in
    if (d mod 5 ^ k =? 0)%Z then
      let m := (d / 5 ^ k)%Z in
      if (m <? 2 ^ 53)%Z then Some (Z.ldexp (float_of_Z m) (- k)) else None
    else if ((d <? 2 ^ 53) && (k <=? 22))%Z then
      Some (float_of_Z d / float_of_Z (10 ^ k))%float
    else None.

Definition number_to_float (negative : bool) (digits : N) (scale : Z) : option float :=
  match magnitude_to_float digits scale with
  | Some f => Some (if negative then (- f)%float else f)
  | None => None
  end.

Fixpoint zeros (n : nat) : string :=
  match n with O => EmptyString | S n' => String "0" (zeros n') end.

Fixpoint strip_trailing_zeros (s : string) : string :=
  match s with
  | EmptyString => EmptyString
  | String c r =>
      let r' := strip_trailing_zeros r in
      if (N.eqb c "0"%unit && JSString.eqb r' EmptyString)%bool then EmptyString
      else String c r'
  end.

(** The decimal text of [n / 10^k]. *)
Definition decimal_text (n : Z) (k : Z) : string :=
  let ip := (n / 10 ^ k)%Z in
  let fp := (n mod 10 ^ k)%Z in
  let digits := decimal (Z.to_N fp) in
  let frac :=
    strip_trailing_zeros (zeros (Z.to_nat k - JSString.length digits) +:+ digits) in
  if JSString.eqb frac EmptyString then decimal (Z.to_N ip)
  else decimal (Z.to_N ip) +:+ "." +:+ frac.

(** The text of a number: its exact decimal expansion; [null] for the
    values JSON has no text for. *)
Definition number_text (f : float) : string :=
  match Prim2SF f with
  | S754_zero _ => "0"
  | S754_finite s m e =>
      (if s then "-" else "") +:+
      (if (0 <=? e)%Z then decimal (Z.to_N (Z.pos m * 2 ^ e))
       else decimal_text (Z.pos m * 5 ^ (- e)) (- e))
  | _ => "null"
  end.

(** *** Strings *)

Definition hex_digit (n : N) : code_unit :=
  if (n <? 10)%N then (48 + n)%N else (87 + n)%N.

Definition escape_char (c : code_unit) : string :=
  let n := c in
  if N.eqb c dq then String "\" (String dq EmptyString)
  else if N.eqb c "\"%unit then "\\"
  else if (n =? 8)%N then "\b"
  else if (n =? 12)%N then "\f"
  else if (n =? 10)%N then "\n"
  else if (n =? 13)%N then "\r"
  else if (n =? 9)%N then "\t"
  else if (n <? 32)%N then
    "\u00" +:+ String (hex_digit (n / 16)) (String (hex_digit (n mod 16)) EmptyString)
  else String c EmptyString.

Fixpoint escape (s : string) : string :=
  match s with
  | EmptyString => EmptyString
  | String c s' => escape_char c +:+ escape s'
  end.

Definition quote (s : string) : string :=
  String dq (escape s +:+ String dq EmptyString).

(** *** The stored collection *)

Fixpoint join (sep : string) (l : list string) : string :=
  match l with
  | [] => EmptyString
  | [x] => x
  | x :: l' => x +:+ sep +:+ join sep l'
  end.

Definition member (key text : string) : string := quote key +:+ ":" +:+ text.

Definition optional_member {A} (key : string) (text : A -> string) (v : option A)
  : list string :=
  match v with Some a => [member key (text a)] | None => [] end.

Definition metrics_text (m : Metrics) : string :=
  "{" +:+ join "," (List.map (fun kv => member (fst kv) (number_text (snd kv))) m) +:+ "}".

Definition model_text (r : BenchmarkResult) : string :=
  "{" +:+
  join ","
    ([member "modelName" (quote (modelName r))]
     ++ optional_member "modelId" quote (modelId r)
     ++ [member "metrics" (metrics_text (metrics r));
         member "timestamp" (quote (timestamp r))]
     ++ optional_member "fromLibrary"
          (fun b : bool => if b then "true" else "false") (fromLibrary r)
     ++ optional_member "error" quote (error r))
  +:+ "}".

(** [JSON.stringify] of a [BenchmarkResult[]]. *)
Definition stringify (l : list BenchmarkResult) : string :=
  "[" +:+ join "," (List.map model_text l) +:+ "]".

(** The last member with the given key, as [JSON.parse] keeps it. *)
Definition field (key : string) (members : list (string * json)) : option json :=
  match List.find (fun kv => JSString.eqb (fst kv) key) (rev members) with
  | Some kv => Some (snd kv)
  | None => None
  end.

Definition as_string (v : json) : option string :=
  match v with JString s => Some s | _ => None end.

Definition as_bool (v : json) : option bool :=
  match v with JBool b => Some b | _ => None end.

Definition as_number (v : json) : option float :=
  match v with JNumber s d e => number_to_float s d e | _ => None end.

Definition optional_field {A} (key : string) (read : json -> option A)
    (members : list (string * json)) : option (option A) :=
  match field key members with
  | Some v => match read v with Some a => Some (Some a) | None => None end
  | None => Some None
  end.

Definition as_metrics (v : json) : option Metrics :=
  match v with
  | JObject members =>
      mapM (fun kv : string * json =>
              match as_number (snd kv) with
              | Some f => Some (fst kv, f)
              | None => None
              end) members
  | _ => None
  end.

Definition as_model (v : json) : option BenchmarkResult :=
  match v with
  | JObject o =>
      name_ ← field "modelName" o ≫= as_string;
      id_ ← optional_field "modelId" as_string o;
      metrics_ ← field "metrics" o ≫= as_metrics;
      timestamp_ ← field "timestamp" o ≫= as_string;
      fromLibrary_ ← optional_field "fromLibrary" as_bool o;
      error_ ← optional_field "error" as_string o;
      Some (mkBenchmarkResult name_ id_ metrics_ timestamp_ fromLibrary_ error_)
  | _ => None
  end.

Definition as_models (v : json) : option (list BenchmarkResult) :=
  match v with
  | JArray items => mapM as_model items
  | _ => None
  end.

(** [JSON.parse] at the type [BenchmarkResult[]]. *)
Definition parse (s : string) : option (list BenchmarkResult) :=
  parse_json s ≫= as_models.

End RefJSON.

(* ===================================================================== *)
(** ** A reference [path.extname] *)
(* ===================================================================== *)

Module Path.

(** The state of the scan of [posix.extname]. *)
Record Scan : Type := mkScan {
  startDot : Z;
  startPart : Z;
  end_ : Z;
  matchedSlash : bool;
  preDotState : Z;
  stopped : bool
}.

(** One round of the loop, at index [i] holding [code]. *)
Definition step (i : Z) (code : code_unit) (st : Scan) : Scan :=
  if stopped st then st
  else if (code =? 47)%N then
    if negb (matchedSlash st) then
      mkScan (startDot st) (i + 1) (end_ st) (matchedSlash st) (preDotState st) true
    else st
  else
    let st1 :=
      if end_ st =? -1 then
        mkScan (startDot st) (startPart st) (i + 1) false (preDotState st) false
      else st in
    if (code =? 46)%N then
      if startDot st1 =? -1 then
        mkScan i (startPart st1) (end_ st1) (matchedSlash st1) (preDotState st1) false
      else if negb (preDotState st1 =? 1) then
        mkScan (startDot st1) (startPart st1) (end_ st1) (matchedSlash st1) 1 false
      else st1
    else if negb (startDot st1 =? -1) then
      mkScan (startDot st1) (startPart st1) (end_ st1) (matchedSlash st1) (-1) false
    else st1.

(** The loop [for (let i = path.length - 1; i >= 0; --i)] over the
    code units from index [i] on. *)
Fixpoint scan (i : Z) (s : string) (st : Scan) : Scan :=
  match s with
  | EmptyString => st
  | String code s' => step i code (scan (i + 1) s' st)
  end.

Fixpoint take_chars (n : nat) (s : string) : string :=
  match n, s with
  | S n', String c s' => String c (take_chars n' s')
  | _, _ => EmptyString
  end.

(** [path.extname] of Node on a POSIX host. *)
Definition extname (path : string) : string :=
  let st := scan 0 path (mkScan (-1) 0 (-1) true 0 false) in
  if (startDot st =? -1) || (end_ st =? -1) || (preDotState st =? 0)
     || ((preDotState st =? 1) && (startDot st =? end_ st - 1)
         && (startDot st =? startPart st + 1))
  then ""
  else take_chars (Z.to_nat (end_ st - startDot st))
                  (drop_chars (Z.to_nat (startDot st)) path).

End Path.

(* ===================================================================== *)
(** ** Sample values *)
(* ===================================================================== *)

Module Samples.

Local Open Scope float_scope.

(** The two mock entries of pages/ModelLibraryPage.tsx. *)
Definition ResNet50 : BenchmarkResult :=
  mkBenchmarkResult "ResNet50" None
    [("accuracy", 0.95); ("latency", 50); ("throughput", 100)]
    "2024-03-01T09:00:00.000Z" None None.

Definition EfficientNet : BenchmarkResult :=
  mkBenchmarkResult "EfficientNet" None
    [("accuracy", 0.92); ("latency", 30); ("throughput", 150)]
    "2024-03-01T09:00:00.000Z" None None.

(** A later entry under the name of the first one. *)
Definition ResNet50_again : BenchmarkResult :=
  mkBenchmarkResult "ResNet50" None
    [("accuracy", 0.5); ("latency", 10); ("throughput", 20)]
    "2024-03-02T10:30:00.000Z" None None.

(** An entry as [handleModelUpload] builds it for an uploaded file. *)
Definition uploaded (fileName filepath : string) : BenchmarkResult :=
  mkBenchmarkResult fileName (Some filepath)
    [("accuracy", 0); ("precision", 0); ("recall", 0); ("f1Score", 0);
     ("latency", 0); ("throughput", 0); ("memoryUsage", 0); ("modelSize", 2048)]
    "2024-03-01T09:05:00.000Z" (Some false) None.

(** Files of the given size, filled with one byte. *)
Definition filled (fill : ascii) (name_ : string) (size_ : Z) (type_ : string) : File :=
  mkFile name_ size_ type_ (fun _ => fill).

Definition iris_csv : File := filled "1" "iris.csv" 4551 "text/csv".
Definition notes_txt : File := filled "a" "notes.txt" 12 "text/plain".

Definition model_pkl : File := filled "0" "model.pkl" 2048 "application/octet-stream".
Definition same_name_and_size : File := filled "9" "model.pkl" 2048 "text/plain".
Definition other_pkl : File := filled "0" "other.PKL" 4096 "application/octet-stream".
Definition huge_pkl : File := filled "0" "huge.pkl" (500 * 1024 * 1024 + 1) "".
Definition weights_h5 : File := filled "0" "weights.h5" 2048 "".
Definition huge_txt : File := filled "a" "huge.txt" (500 * 1024 * 1024 + 1) "text/plain".



(** The uploader as the benchmark page mounts it: with [onDatasetSelect]
    alone. *)
Definition mounted : DatasetUploader.Props := DatasetUploader.mkProps false false.

(** Surroundings in which the evaluation endpoint knows the models
    stored under [uploads/a.pkl] and [uploads/c.pkl] and fails on any
    other. *)
Definition env : Env :=
  mkEnv (fun k => PrimFloat.of_uint63 (Uint63.of_Z (Z.of_nat k)) / 16)
        (fun k => "2024-03-01T09:10:0" +:+ decimal (N.of_nat k) +:+ ".000Z")
        (fun request =>
           if bool_decide (model_path request = Some "uploads/a.pkl")
              || bool_decide (model_path request = Some "uploads/c.pkl")
           then Returned (mkEvaluationResponse "success"
                            (Some [("accuracy", 0.9); ("precision", 0.8);
                                   ("recall", 0.7); ("f1_score", 0.75)])
                            None None)
           else Threw "Failed to fetch").

Definition world0 : World := mkWorld 0 0 [] [].

Definition modelA : BenchmarkResult := uploaded "a.pkl" "uploads/a.pkl".
Definition modelB : BenchmarkResult := uploaded "b.pkl" "uploads/b.pkl".
Definition modelC : BenchmarkResult := uploaded "c.pkl" "uploads/c.pkl".

Definition libraryModel : BenchmarkResult :=
  mkBenchmarkResult "ResNet50" None [] "2024-03-01T09:00:00.000Z" (Some true) None.

Definition page0 : UnifiedBenchmarkPage.Page :=
  UnifiedBenchmarkPage.mkPage false None [] 0 None.

(** A thousand validations of the same upload within one millisecond. *)
Definition burst : list (File * N * string) :=
  replicate 1000 (model_pkl, 1700000000000%N, "2023-11-14T22:13:20.000Z").

(** A platform for the samples: [toLowerCase] as it is on strings of
    ASCII characters, [path.extname] as it is on a POSIX host, and
    stand-ins for the texts of formidable's errors. *)
Definition formidableMessage (failure : Formidable.Failure) (maxFileSize : Z)
    (part : Formidable.Part) : string :=
  match failure with
  | Formidable.emptyFile => "formidable: empty file"
  | Formidable.fileTooLarge => "formidable: file over maxFileSize"
  end.

Definition platform : Platform :=
  mkPlatform ascii_lowercase Path.extname formidableMessage.

(** Two dataset uploads that reach the server in the same millisecond. *)
Definition firstUpload : Request :=
  mkRequest "POST"
    (Some (Formidable.mkPart (Some "iris.csv") (Some "text/csv")
             ["a"%char; "1"%char] "uploads/datasets/tmp-1.csv")).

Definition secondUpload : Request :=
  mkRequest "POST"
    (Some (Formidable.mkPart (Some "wine.csv") (Some "text/csv")
             ["b"%char; "2"%char] "uploads/datasets/tmp-2.csv")).

Definition sameMillisecond : list (Request * N * string) :=
  [(firstUpload, 1700000000000%N, "2023-11-14T22:13:20.000Z");
   (secondUpload, 1700000000000%N, "2023-11-14T22:13:20.000Z")].

Definition emptyStore : ModelContext.Store := ModelContext.mkStore [] ∅.

(** A store after three selections, through the reference codec. *)
Definition threeModels : ModelContext.Store :=
  ModelContext.addModel RefJSON.stringify EfficientNet
    (ModelContext.addModel RefJSON.stringify (uploaded "mine.pkl" "uploads/mine.pkl")
       (ModelContext.addModel RefJSON.stringify ResNet50 emptyStore)).

(** A stored payload cut short, as a write interrupted midway leaves it. *)
Definition truncatedPayload : string := "[{".

Definition corruptStore : ModelContext.Store :=
  ModelContext.mkStore [] (setItem ∅ "selectedModels" truncatedPayload).

End Samples.

(* ===================================================================== *)
(** ** Further built-ins *)
(* ===================================================================== *)

Module JSText.

(** [s.includes(sub)]. *)
Fixpoint includes (s sub : string) : bool :=
  if JSString.prefix sub s then true
  else match s with
       | EmptyString => false
       | String _ s' => includes s' sub
       end.

(** [s.slice(start)]: a negative start counts from the end. *)
Definition slice (s : string) (start : Z) : string :=
  let len := Z.of_nat (JSString.length s) in
  drop_chars (Z.to_nat (if start <? 0 then Z.max 0 (len + start) else start)) s.

(** [arr.join(sep)]. *)
Fixpoint join (sep : string) (l : list string) : string :=
  match l with
  | [] => EmptyString
  | [x] => x
  | x :: l' => x +:+ sep +:+ join sep l'
  end.

(** The number whose value is the integer [z] (a file size). *)
Definition number_of_Z (z : Z) : number := PrimFloat.of_uint63 (Uint63.of_Z z).

End JSText.

(* ===================================================================== *)
(** ** Dataset context: context/DatasetContext.tsx *)
(* ===================================================================== *)

Module DatasetContext.

(** The provider's two pieces of React state and the storage it writes. *)
Record Provider : Type := mkProvider {
  dataset : option File;
  datasetPath : option string;
  localStorage : Storage
}.

(** The effect run on initial render. *)
Definition loadDatasetPath (p : Provider) : Provider :=
  let savedDatasetPath := getItem (localStorage p) "datasetPath" in
  if truthy savedDatasetPath then mkProvider (dataset p) savedDatasetPath (localStorage p)
  else p.

Definition setDataset (file : option File) (p : Provider) : Provider :=
  mkProvider file (datasetPath p)
    (if negb (defined file) then removeItem (localStorage p) "datasetPath"
     else localStorage p).

Definition setDatasetPath (path : option string) (p : Provider) : Provider :=
  mkProvider (dataset p) path
    (if truthy path then setItem (localStorage p) "datasetPath" (default "" path)
     else removeItem (localStorage p) "datasetPath").

Definition clearDataset (p : Provider) : Provider :=
  mkProvider None None (removeItem (localStorage p) "datasetPath").

(** The path a freshly mounted provider shows for a given storage. *)
Definition storedPath (storage : Storage) : option string :=
  datasetPath (loadDatasetPath (mkProvider None None storage)).

End DatasetContext.

(* ===================================================================== *)
(** ** Client API: services/api.ts *)
(* ===================================================================== *)

Module Api.

Inductive FormValue : Type :=
| file_value (f : File)
| text_value (s : string).

(** A [FormData]: its entries in the order they were appended. *)
Definition FormData : Type := list (string * FormValue).

(** What the client reads off the JSON body of an upload response. *)
Record UploadData : Type := mkUploadData {
  error : option string;
  message : option string;
  filepath : option string
}.

Record Response : Type := mkResponse {
  ok : bool;
  status : N;
  content_type : option string;
  json : completion UploadData
}.

Record UploadResult : Type := mkUploadResult {
  result_message : string;
  result_filepath : string;
  result_error : option string
}.

Definition API_BASE_URL : string := "http://localhost:3000/api".

Section Network.

(** What [fetch(url, {method: 'POST', body: formData})] settles to. *)
Variable fetch : string -> FormData -> completion Response.

(** The [try] block of [uploadModel]. *)
Definition uploadModel_try (formData : FormData) : completion UploadResult :=
  match fetch (API_BASE_URL +:+ "/upload/model") formData with
  | Threw msg => Threw msg
  | Returned response =>
      let contentType := content_type response in
      if truthy contentType && JSText.includes (default "" contentType) "application/json"
      then
        match json response with
        | Threw msg => Threw msg
        | Returned data =>
            if negb (ok response) then
              Threw (if truthy (error data) then default "" (error data)
                     else if truthy (message data) then default "" (message data)
                     else "HTTP error! status: " +:+ decimal (status response))
            else if negb (truthy (filepath data)) then
              Threw "Server response missing filepath"
            else
              Returned (mkUploadResult
                          (if truthy (message data) then default "" (message data)
                           else "Upload successful")
                          (default "" (filepath data)) None)
        end
      else Threw "Server response was not JSON"
  end.

(** [api.uploadModel(formData)]: the value its promise resolves to. *)
Definition uploadModel (formData : FormData) : UploadResult :=
  match uploadModel_try formData with
  | Returned result => result
  | Threw msg => mkUploadResult "Upload failed" "" (Some msg)
  end.

End Network.

End Api.

(* ===================================================================== *)
(** ** Callers of the Result Store *)
(* ===================================================================== *)

(** pages/ModelLibraryPage.tsx. *)
Module ModelLibraryPage.

Section Page.

Variable JSON_stringify : list BenchmarkResult -> string.

Definition handleModelSelect (model : BenchmarkResult) (st : ModelContext.Store)
  : ModelContext.Store :=
  if some (fun m => JSString.eqb (modelName m) (modelName model))
          (ModelContext.selectedModels st)
  then ModelContext.removeModel JSON_stringify (modelName model) st
  else ModelContext.addModel JSON_stringify model st.

End Page.

End ModelLibraryPage.

(** pages/ModelSelectionPage.tsx. *)
Module ModelSelectionPage.

Local Open Scope float_scope.

Record Page : Type := mkPage {
  error : option string;
  loading : bool
}.

Section Page.

Variable JSON_stringify : list BenchmarkResult -> string.
Variable fetch : string -> Api.FormData -> completion Api.Response.

Definition newModel (file : File) (response : Api.UploadResult) (Date_iso : string)
  : BenchmarkResult :=
  mkBenchmarkResult (name file) (Some (Api.result_filepath response))
    [("accuracy", 0); ("precision", 0); ("recall", 0); ("f1Score", 0);
     ("latency", 0); ("throughput", 0); ("memoryUsage", 0); ("modelSize", 0)]
    Date_iso None None.

(** [handleModelUpload]; nothing in its [try] block rejects, since
    [api.uploadModel] resolves in every case. *)
Definition handleModelUpload (file : option File) (Date_iso : string)
    (pg : Page) (st : ModelContext.Store) : Page * ModelContext.Store :=
  match file with
  | None => (pg, st)
  | Some file =>
      let formData := [("model", Api.file_value file)] in
      let response := Api.uploadModel fetch formData in
      (mkPage None false,
       ModelContext.addModel JSON_stringify (newModel file response Date_iso) st)
  end.

Definition handleEvaluate (pg : Page) (st : ModelContext.Store) : Page * bool :=
  if (Z.of_nat (length (ModelContext.selectedModels st)) <? 2)%Z
  then (mkPage (Some "Please select at least two models to compare") (loading pg), false)
  else (pg, true).

End Page.

End ModelSelectionPage.

(* ===================================================================== *)
(** ** Upload handlers of pages/UnifiedBenchmarkPage.tsx *)
(* ===================================================================== *)

Module BenchmarkUploads.

Local Open Scope float_scope.

(** The part of the page state the upload handlers set. *)
Record Banner : Type := mkBanner {
  loading : bool;
  error : option string;
  successMessage : option string
}.

Definition validExtensions : list string := [".h5"; ".pt"; ".pth"; ".onnx"; ".pkl"].

Definition maxSize : Z := 1024 * 1024 * 1024.

Definition fileExtension (platform : Platform) (file : File) : string :=
  JSText.slice (toLowerCase platform (name file)) (lastIndexOf (name file) "."%unit).

(** The object literal that maps an extension to a content type. *)
Definition contentTypes : list (string * string) :=
  [(".h5", "application/x-hdf");
   (".pt", "application/octet-stream");
   (".pth", "application/octet-stream");
   (".onnx", "application/octet-stream");
   (".pkl", "application/octet-stream")].

Definition contentType (ext : string) : option string :=
  match List.find (fun kv => JSString.eqb (fst kv) ext) contentTypes with
  | Some kv => Some (snd kv)
  | None => None
  end.

Definition formData (platform : Platform) (file : File) : Api.FormData :=
  [("file", Api.file_value file)]
  ++ match contentType (fileExtension platform file) with
     | Some ct => if truthy (Some ct) then [("content_type", Api.text_value ct)] else []
     | None => []
     end.

Definition newModel (file : File) (filepath : string) (Date_iso : string)
  : BenchmarkResult :=
  mkBenchmarkResult (name file) (Some filepath)
    [("accuracy", 0); ("precision", 0); ("recall", 0); ("f1Score", 0);
     ("latency", 0); ("throughput", 0); ("memoryUsage", 0);
     ("modelSize", JSText.number_of_Z (size file))]
    Date_iso (Some false) None.

Section Handlers.

Variable platform : Platform.
Variable JSON_stringify : list BenchmarkResult -> string.
Variable fetch : string -> Api.FormData -> completion Api.Response.

(** The [try] block of [handleModelUpload]: the entry to add. *)
Definition uploadedModel (file : File) (Date_iso : string) : completion BenchmarkResult :=
  let response := Api.uploadModel fetch (formData platform file) in
  if truthy (Api.result_error response) then
    Threw (default "" (Api.result_error response))
  else if negb (truthy (Some (Api.result_filepath response))) then
    Threw "Server response missing filepath"
  else Returned (newModel file (Api.result_filepath response) Date_iso).

Definition handleModelUpload (file : option File) (Date_iso : string)
    (b : Banner) (st : ModelContext.Store) : Banner * ModelContext.Store :=
  match file with
  | None => (b, st)
  | Some file =>
      if negb (JS.includes validExtensions (fileExtension platform file)) then
        (mkBanner (loading b)
           (Some ("Invalid file format. Supported formats: "
                  +:+ JSText.join ", " validExtensions))
           (successMessage b), st)
      else if size file >? maxSize then
        (mkBanner (loading b) (Some "File size exceeds limit (max 1GB)")
                  (successMessage b), st)
      else
        match uploadedModel file Date_iso with
        | Returned model =>
            (mkBanner false None (Some ("Successfully uploaded " +:+ name file)),
             ModelContext.addModel JSON_stringify model st)
        | Threw msg => (mkBanner false (Some msg) None, st)
        end
  end.

(** The models part of the effect run when the page mounts:
    [savedState.selectedModels.forEach(model => addModel(model))]. *)
Definition restoreSelectedModels (saved : list BenchmarkResult) (st : ModelContext.Store)
  : ModelContext.Store :=
  if (0 <? Z.of_nat (length saved))%Z
  then foldl (fun st model => ModelContext.addModel JSON_stringify model st) st saved
  else st.

End Handlers.

(** What the client reads off the JSON body of a dataset upload
    response. *)
Record DatasetData : Type := mkDatasetData {
  data_error : option string;
  data_filepath : option string
}.

Record DatasetResponse : Type := mkDatasetResponse {
  ok : bool;
  status : N;
  json : completion DatasetData
}.

Definition datasetUrl : string := "http://localhost:3000/api/upload/dataset".

Section DatasetHandler.

Variable fetch : string -> File -> completion DatasetResponse.

(** The [try] block of [handleDatasetUpload]: the body of an accepted
    response. *)
Definition uploadedDataset (file : File) : completion DatasetData :=
  match fetch datasetUrl file with
  | Threw msg => Threw msg
  | Returned response =>
      match json response with
      | Threw msg => Threw msg
      | Returned data =>
          if negb (ok response) then
            Threw (if truthy (data_error data) then default "" (data_error data)
                   else "Upload failed with status: " +:+ decimal (status response))
          else if truthy (data_error data) then Threw (default "" (data_error data))
          else Returned data
      end
  end.

Definition handleDatasetUpload (file : option File)
    (b : Banner) (p : DatasetContext.Provider) : Banner * DatasetContext.Provider :=
  match file with
  | None => (b, p)
  | Some file =>
      let p1 := DatasetContext.setDataset (Some file) p in
      match uploadedDataset file with
      | Returned data =>
          (mkBanner false None (Some "Dataset uploaded successfully"),
           DatasetContext.setDatasetPath (data_filepath data) p1)
      | Threw msg => (mkBanner false (Some msg) None, p1)
      end
  end.

End DatasetHandler.

(** What a browser makes of an answer of the dataset route
    [res.status(s).json(body)]: the body's properties are [error], or
    [id], [filename], [originalName], [size], [type] and [uploadedAt]. *)
Definition seen_by_client (r : UploadDataset.Response) : DatasetResponse :=
  mkDatasetResponse
    ((200 <=? UploadDataset.status r)%Z && (UploadDataset.status r <=? 299)%Z)
    (Z.to_N (UploadDataset.status r))
    (Returned
       (mkDatasetData
          match UploadDataset.body r with
          | UploadDataset.error_body e => Some e
          | UploadDataset.dataset_body _ => None
          end
          None)).

End BenchmarkUploads.

(* ===================================================================== *)
(** ** Running a comparison: pages/DatasetComparisonPage.tsx *)
(* ===================================================================== *)

Module ComparisonRun.

Record Results : Type := mkResults {
  dataset1Results : option ModelEvaluation.ModelEvaluationResult;
  dataset2Results : option ModelEvaluation.ModelEvaluationResult
}.

Record Page : Type := mkPage {
  model : option File;
  dataset1 : option File;
  dataset2 : option File;
  isProcessing : bool;
  error : option string;
  isBuiltInModel : bool;
  results : Results
}.

Definition handleModelUpload (file : option File) (pg : Page) : Page :=
  match file with
  | Some f =>
      mkPage (Some f) (dataset1 pg) (dataset2 pg) (isProcessing pg) None
             (endsWith (name f) ".mlmodel") (results pg)
  | None =>
      mkPage (model pg) (dataset1 pg) (dataset2 pg) (isProcessing pg) None
             (isBuiltInModel pg) (results pg)
  end.

Section Run.

Variable env : Env.

Definition runComparison (pg : Page) : M Page :=
  match model pg, dataset1 pg with
  | Some model_, Some dataset1_ =>
      try_catch
        (dataset1Results_ <-
           ModelEvaluation.evaluateModel env model_ dataset1_ (isBuiltInModel pg);;
         dataset2Results_ <-
           match dataset2 pg with
           | Some dataset2_ =>
               r <- ModelEvaluation.evaluateModel env model_ dataset2_ (isBuiltInModel pg);;
               ret (Some r)
           | None => ret None
           end;;
         ret (mkPage (model pg) (dataset1 pg) (dataset2 pg) false None
                     (isBuiltInModel pg)
                     (mkResults (Some dataset1Results_) dataset2Results_)))
        (fun _ =>
           ret (mkPage (model pg) (dataset1 pg) (dataset2 pg) false
                       (Some "Failed to process comparison. Please try again.")
                       (isBuiltInModel pg) (results pg)))
  | _, _ => ret pg
  end.

End Run.

End ComparisonRun.

(* ===================================================================== *)
(** ** Model upload from the chat page: pages/HomePage.tsx *)
(* ===================================================================== *)

Module HomePage.

(** The JSON body of the model route, as the page reads it. *)
Record Data : Type := mkData {
  data_error : option string;
  modelInfo : option ModelHandler.ModelInfo
}.

Record Response : Type := mkResponse { ok : bool; json : completion Data }.

(** The state the handler touches: [selectedModel], [isLoading] and
    [error] of the chat state, and [customModel]. *)
Record Page : Type := mkPage {
  selectedModel : string;
  isLoading : bool;
  error : option string;
  customModel : option ModelHandler.ModelInfo
}.

Definition uploadUrl : string := "/api/model/upload".

Section Handler.

Variable platform : Platform.

(** [fetch(url, {method: 'POST', body: formData})], the form holding the
    file under [model]. *)
Variable fetch : string -> File -> completion Response.

(** The [try] block up to its state updates: the [data.modelInfo] it
    goes on with. *)
Definition uploaded (file : File) : completion (option ModelHandler.ModelInfo) :=
  match fetch uploadUrl file with
  | Threw msg => Threw msg
  | Returned response =>
      match json response with
      | Threw msg => Threw msg
      | Returned data =>
          if negb (ok response) then
            Threw (if truthy (data_error data) then default "" (data_error data)
                   else "Failed to upload model")
          else Returned (modelInfo data)
      end
  end.

(** [handleModelFileUpload(e)], [file] being [e.target.files?.[0]].  The
    state updater of the success path reads [data.modelInfo.type] when
    React runs it, outside the handler's [try]: with an [ok] answer that
    has no [modelInfo] the page throws. *)
Definition handleModelFileUpload (file : option File) (pg : Page) : completion Page :=
  match file with
  | None =>
      Returned (mkPage (selectedModel pg) (isLoading pg) (Some "No file selected")
                       (customModel pg))
  | Some file =>
      if negb (endsWith (toLowerCase platform (name file)) ".pkl") then
        Returned (mkPage (selectedModel pg) (isLoading pg)
                         (Some "Invalid file format. Only .pkl files are supported.")
                         (customModel pg))
      else
        match uploaded file with
        | Returned (Some info) =>
            Returned (mkPage (ModelHandler.info_type info) false None (Some info))
        | Returned None => Threw "Cannot read properties of undefined (reading 'type')"
        | Threw msg =>
            Returned (mkPage (selectedModel pg) false (Some msg) (customModel pg))
        end
  end.

End Handler.

(** The bytes of a file, in order. *)
Definition bytes (file : File) : list ascii :=
  (fun i => byte_at file (Z.of_nat i)) <$> seq 0 (Z.to_nat (size file)).

(** The request the page's [fetch] makes, as the model route gets it:
    one file part with the file's name, its type (a browser writes
    [application/octet-stream] for a file without one) and its bytes;
    [staging] is the path formidable picks for it. *)
Definition request_of (file : File) (staging : string) : Request :=
  mkRequest "POST"
    (Some (Formidable.mkPart (Some (name file))
             (Some (if JSString.eqb (type file) "" then "application/octet-stream"
                    else type file))
             (bytes file) staging)).

(** What the page makes of an answer of the model route
    [res.status(s).json(body)]. *)
Definition seen_by_client (r : UploadModel.Response) : Response :=
  mkResponse
    ((200 <=? UploadModel.status r)%Z && (UploadModel.status r <=? 299)%Z)
    (Returned
       match UploadModel.body r with
       | UploadModel.error_body e => mkData (Some e) None
       | UploadModel.model_body info => mkData None (Some info)
       end).

End HomePage.

(* ===================================================================== *)
(** ** Further sample values *)
(* ===================================================================== *)

Module MoreSamples.

(** An upload server that stores every model under [uploads/]. *)
Definition storingServer (url : string) (formData : Api.FormData)
  : completion Api.Response :=
  Returned (Api.mkResponse true 200 (Some "application/json; charset=utf-8")
              (Returned (Api.mkUploadData None (Some "stored")
                           (Some "uploads/model.bin")))).

(** An upload server that is down. *)
Definition unreachableServer (url : string) (formData : Api.FormData)
  : completion Api.Response :=
  Threw "Failed to fetch".

(** An upload server behind a proxy that answers with an HTML page. *)
Definition htmlServer (url : string) (formData : Api.FormData)
  : completion Api.Response :=
  Returned (Api.mkResponse false 502 (Some "text/html") (Threw "Unexpected token <")).

Definition quiet : BenchmarkUploads.Banner := BenchmarkUploads.mkBanner false None None.

Definition unmounted : DatasetContext.Provider := DatasetContext.mkProvider None None ∅.


Definition pklPart : Formidable.Part :=
  Formidable.mkPart (Some "Model.PKL") (Some "application/octet-stream")
    ["m"%char; "0"%char; "1"%char] "uploads/tmp-7".

Definition txtPart : Formidable.Part :=
  Formidable.mkPart (Some "notes.txt") (Some "text/plain")
    ["h"%char; "i"%char] "uploads/tmp-8".

Definition csvPart : Formidable.Part :=
  Formidable.mkPart (Some "Iris.CSV") (Some "text/csv")
    ["a"%char; ","%char; "b"%char] "uploads/datasets/tmp-9".

Definition comparisonPage : ComparisonRun.Page :=
  ComparisonRun.mkPage (Some Samples.model_pkl) (Some Samples.iris_csv) None
    false None false (ComparisonRun.mkResults None None).

End MoreSamples.

(* ===================================================================== *)
(** * Properties *)
(* ===================================================================== *)

(** ** Strings *)

Section StringBasics.

Lemma string_eqb_refl (s : string) : JSString.eqb s s = true.
Proof. induction s as [|c s IH]; simpl; [reflexivity | by rewrite N.eqb_refl]. Qed.

Lemma string_eqb_eq (s1 s2 : string) : JSString.eqb s1 s2 = true <-> s1 = s2.
Proof.
  split; [|intros ->; apply string_eqb_refl].
  revert s2. induction s1 as [|c1 s1 IH]; intros [|c2 s2]; simpl; try done.
  intros [Hc Hs]%andb_true_iff. apply N.eqb_eq in Hc as ->. by rewrite (IH s2 Hs).
Qed.

Lemma string_eqb_neq (s1 s2 : string) : JSString.eqb s1 s2 = false <-> s1 <> s2.
Proof.
  rewrite <- string_eqb_eq. by destruct (JSString.eqb s1 s2).
Qed.

Lemma string_eqb_spec (s1 s2 : string) : reflect (s1 = s2) (JSString.eqb s1 s2).
Proof.
  destruct (JSString.eqb s1 s2) eqn:H; constructor.
  - by apply string_eqb_eq.
  - by apply string_eqb_neq.
Qed.

Lemma of_ascii_inj (s1 s2 : String.string) :
  JSString.of_ascii s1 = JSString.of_ascii s2 -> s1 = s2.
Proof.
  revert s2. induction s1 as [|c1 s1 IH]; intros [|c2 s2]; simpl; try done.
  intros [= Hc Hs]. apply (f_equal ascii_of_N) in Hc.
  rewrite !ascii_N_embedding in Hc. by rewrite Hc, (IH s2 Hs).
Qed.

(** Distinct numbers have distinct decimal texts. *)
Lemma decimal_inj (n1 n2 : N) : decimal n1 = decimal n2 -> n1 = n2.
Proof. intros H%of_ascii_inj. by apply pretty_N_inj in H. Qed.

End StringBasics.

(** ** The built-ins on small inputs *)

Example literal_units :
  "a.b" = String 97%N (String 46%N (String 98%N EmptyString))
  /\ JSString.length "uploads/datasets" = 16%nat.
Proof. split; reflexivity. Qed.

Example extname_of_plain_names :
  Path.extname "index.html" = ".html" /\ Path.extname "index.coffee.md" = ".md"
  /\ Path.extname "index." = "." /\ Path.extname "index" = ""
  /\ Path.extname ".index" = "" /\ Path.extname ".index.md" = ".md"
  /\ Path.extname "dir.d/notes" = "" /\ Path.extname "dir/iris.CSV" = ".CSV"
  /\ Path.extname ".." = "" /\ Path.extname "sales.xlsx/" = ".xlsx".
Proof. repeat split; vm_compute; reflexivity. Qed.

Example endsWith_pkl : endsWith "model.pkl" ".pkl" = true /\ endsWith "pkl" ".pkl" = false.
Proof. split; reflexivity. Qed.

Example lastIndexOf_dot :
  lastIndexOf "a.b.c" "." = 3 /\ lastIndexOf "abc" "." = -1.
Proof. split; reflexivity. Qed.

Example substring_from :
  substring "iris.csv" 4 = ".csv" /\ substring "README" (-1) = "README"
  /\ substring "abc" 7 = "".
Proof. repeat split; reflexivity. Qed.

Example split_dots :
  split "." "a.b.c" = ["a"; "b"; "c"] /\ split "." "README" = ["README"]
  /\ split "." "a." = ["a"; ""] /\ split "." "" = [""].
Proof. repeat split; reflexivity. Qed.

Example slice_indices :
  slice [1; 2; 3; 4] 0 (Some 2) = [1; 2] /\ slice [1; 2; 3; 4] 3 None = [4]
  /\ slice [1; 2; 3; 4] (-1) None = [4] /\ slice [1; 2; 3; 4] 2 (Some 1) = []
  /\ slice [1; 2; 3; 4] 4 None = [].
Proof. repeat split; reflexivity. Qed.

Example findIndex_first :
  findIndex (Z.eqb 2) [1; 2; 3; 2] = 1 /\ findIndex (Z.eqb 5) [1; 2; 3; 2] = -1.
Proof. split; reflexivity. Qed.

Example toString_clock : toString 1700000000000 = "1700000000000".
Proof. vm_compute. reflexivity. Qed.

(** ** Arrays *)

Section ArrayFacts.

Context {A : Type} (p : A -> bool).

Lemma some_false (l : list A) :
  some p l = false <-> Forall (fun x => p x = false) l.
Proof.
  unfold some. induction l as [|x l IH]; simpl.
  - split; [constructor | reflexivity].
  - rewrite orb_false_iff, IH. split.
    + intros [Hx Hl]. by constructor.
    + intros H. by inversion H.
Qed.

Lemma findIndex_from_absent (i : Z) (l : list A) :
  Forall (fun x => p x = false) l -> findIndex_from i p l = -1.
Proof.
  intros H. revert i. induction H as [|x l Hx _ IH]; intros i; simpl.
  - reflexivity.
  - rewrite Hx. apply IH.
Qed.

Lemma findIndex_from_first (i : Z) (before : list A) (x : A) (after : list A) :
  Forall (fun y => p y = false) before -> p x = true ->
  findIndex_from i p (before ++ x :: after) = i + Z.of_nat (length before).
Proof.
  intros H Hx. revert i. induction H as [|y l Hy _ IH]; intros i; simpl.
  - rewrite Hx. lia.
  - rewrite Hy, IH. lia.
Qed.

(** Either no element satisfies [p], or the array splits at the first one
    that does. *)
Lemma first_match (l : list A) :
  Forall (fun x => p x = false) l \/
  exists before x after,
    l = before ++ x :: after /\ Forall (fun y => p y = false) before /\ p x = true.
Proof.
  induction l as [|y l IH].
  - left. constructor.
  - destruct (p y) eqn:Hy.
    + right. exists [], y, l. repeat split; [constructor | assumption].
    + destruct IH as [IH | (before & x & after & -> & Hb & Hx)].
      * left. by constructor.
      * right. exists (y :: before), x, after. repeat split; [by constructor | assumption].
Qed.

Lemma slice_before (before : list A) (x : A) (after : list A) :
  slice (before ++ x :: after) 0 (Some (Z.of_nat (length before))) = before.
Proof.
  unfold slice, relative_index. rewrite length_app. simpl length.
  replace (0 <? 0) with false by reflexivity.
  destruct (Z.ltb_spec (Z.of_nat (length before)) 0) as [Hneg|_]; [lia|].
  rewrite !Z.min_l by lia. simpl Z.to_nat. rewrite drop_0.
  replace (Z.to_nat (Z.of_nat (length before) - 0)) with (length before) by lia.
  by rewrite take_app_length.
Qed.

Lemma slice_after (before : list A) (x : A) (after : list A) :
  slice (before ++ x :: after) (Z.of_nat (length before) + 1) None = after.
Proof.
  unfold slice, relative_index. rewrite length_app. simpl length.
  destruct (Z.ltb_spec (Z.of_nat (length before) + 1) 0) as [Hneg|_]; [lia|].
  rewrite Z.min_l by lia.
  replace (Z.to_nat (Z.of_nat (length before) + 1)) with (length (before ++ [x]))
    by (rewrite length_app; simpl; lia).
  replace (before ++ x :: after) with ((before ++ [x]) ++ after)
    by (by rewrite <- app_assoc).
  rewrite drop_app_length. apply take_ge.
  rewrite ?length_app. simpl. lia.
Qed.

End ArrayFacts.

(** ** Strings *)


Section StringFacts.

Lemma endsWith_spec (s x : string) :
  endsWith s x = true <-> exists stem, s = stem +:+ x.
Proof.
  induction s as [|c s IH].
  - change (endsWith "" x) with (if JSString.eqb "" x then true else false).
    destruct (string_eqb_spec "" x) as [<-|Hne].
    + split; [by exists "" | reflexivity].
    + split; [discriminate|]. intros [stem Hs].
      destruct stem; simpl in Hs; [congruence | discriminate].
  - change (endsWith (String c s) x)
      with (if JSString.eqb (String c s) x then true else endsWith s x).
    destruct (string_eqb_spec (String c s) x) as [<-|Hne].
    + split; [by exists "" | reflexivity].
    + rewrite IH. split.
      * intros [stem ->]. by exists (String c stem).
      * intros [stem Hs]. destruct stem as [|d stem]; simpl in Hs.
        -- congruence.
        -- injection Hs as _ ->. by exists stem.
Qed.

Lemma includes_char_app (a b : string) (c : code_unit) :
  includes_char (a +:+ b) c = includes_char a c || includes_char b c.
Proof.
  induction a as [|d a IH]; simpl; [reflexivity|].
  destruct (N.eqb d c); [reflexivity | exact IH].
Qed.

Lemma includes_char_here (t : string) (c : code_unit) : includes_char (String c t) c = true.
Proof. simpl. by rewrite N.eqb_refl. Qed.

(** A string without [c], or its split at the last [c]. *)
Lemma last_split (s : string) (c : code_unit) :
  includes_char s c = false \/
  exists p t, s = p +:+ String c t /\ includes_char t c = false.
Proof.
  induction s as [|d s IH]; [by left|].
  destruct IH as [Hfree | (p & t & -> & Ht)].
  - destruct (N.eqb_spec d c) as [->|Hne].
    + right. by exists "", s.
    + left. simpl. by apply N.eqb_neq in Hne as ->.
  - right. by exists (String d p), t.
Qed.

Lemma last_split_unique (p1 t1 p2 t2 : string) (c : code_unit) :
  p1 +:+ String c t1 = p2 +:+ String c t2 ->
  includes_char t1 c = false -> includes_char t2 c = false -> t1 = t2.
Proof.
  revert p2. induction p1 as [|d p1 IH]; intros [|e p2] Heq H1 H2; simpl in Heq.
  - congruence.
  - injection Heq as _ ->.
    by rewrite includes_char_app, includes_char_here, orb_true_r in H1.
  - injection Heq as _ <-.
    by rewrite includes_char_app, includes_char_here, orb_true_r in H2.
  - injection Heq as _ Heq. by apply (IH p2).
Qed.

Lemma lastIndexOf_from_free (i found : Z) (s : string) (c : code_unit) :
  includes_char s c = false -> lastIndexOf_from i found s c = found.
Proof.
  revert i found. induction s as [|d s IH]; intros i found H; simpl in *; [reflexivity|].
  destruct (N.eqb d c); [discriminate | by apply IH].
Qed.

Lemma lastIndexOf_from_last (i found : Z) (p t : string) (c : code_unit) :
  includes_char t c = false ->
  lastIndexOf_from i found (p +:+ String c t) c = i + Z.of_nat (JSString.length p).
Proof.
  intros Ht. revert i found. induction p as [|d p IH]; intros i found; simpl.
  - rewrite N.eqb_refl, lastIndexOf_from_free by assumption. lia.
  - rewrite IH. lia.
Qed.

Lemma drop_chars_app (p r : string) : drop_chars (JSString.length p) (p +:+ r) = r.
Proof. induction p as [|d p IH]; simpl; [by destruct r | exact IH]. Qed.

(** [s.substring(s.lastIndexOf(c))]: the text from the last [c] on, or
    all of [s] when it has no [c]. *)
Lemma substring_lastIndexOf_free (s : string) (c : code_unit) :
  includes_char s c = false -> substring s (lastIndexOf s c) = s.
Proof.
  intros H. unfold lastIndexOf. rewrite lastIndexOf_from_free by assumption.
  unfold substring. simpl. by destruct s.
Qed.





Lemma has_extension_endsWith (platform : Platform) (ext filename : string) :
  has_extension platform ext filename
  <-> endsWith (toLowerCase platform filename) ext = true.
Proof. unfold has_extension. by rewrite endsWith_spec. Qed.

Lemma includes_cases (l : list string) (x : string) :
  includes l x = true <-> x ∈ l.
Proof.
  unfold includes. rewrite existsb_exists. split.
  - intros (y & Hin & Heq). apply string_eqb_eq in Heq as ->. by apply list_elem_of_In.
  - intros Hin. exists x. split; [by apply list_elem_of_In | apply string_eqb_refl].
Qed.

End StringFacts.

(** ** Result Store *)

Section StoreFacts.

Import ModelContext.

Variable JSON_stringify : list BenchmarkResult -> string.
Variable JSON_parse : string -> option (list BenchmarkResult).

Local Abbreviation addModel := (ModelContext.addModel JSON_stringify).
Local Abbreviation removeModel := (ModelContext.removeModel JSON_stringify).
Local Abbreviation loadModels := (ModelContext.loadModels JSON_parse).
Local Abbreviation storedModels := (ModelContext.storedModels JSON_parse).
Local Abbreviation in_sync := (ModelContext.in_sync JSON_parse).
Local Abbreviation round_trips := (ModelContext.round_trips JSON_stringify JSON_parse).

Lemma name_test_false (n : string) (l : list BenchmarkResult) :
  Forall (fun m => JSString.eqb (modelName m) n = false) l <-> n ∉ names l.
Proof.
  unfold names. rewrite Forall_forall, list_elem_of_fmap. split.
  - intros H (m & -> & Hm). apply H in Hm. by rewrite string_eqb_refl in Hm.
  - intros H m Hm. apply string_eqb_neq. intros Heq. apply H. by exists m.
Qed.

Lemma addModel_present (model : BenchmarkResult) (st : Store) :
  modelName model ∈ names (selectedModels st) -> addModel model st = st.
Proof.
  intros Hin. unfold ModelContext.addModel.
  destruct (some _ (selectedModels st)) eqn:Hsome; [reflexivity|].
  apply some_false, name_test_false in Hsome. contradiction.
Qed.

Lemma addModel_fresh (model : BenchmarkResult) (st : Store) :
  modelName model ∉ names (selectedModels st) ->
  addModel model st =
    mkStore (selectedModels st ++ [model])
            (setItem (localStorage st) "selectedModels"
                     (JSON_stringify (selectedModels st ++ [model]))).
Proof.
  intros Hout. unfold ModelContext.addModel.
  apply name_test_false, some_false in Hout. by rewrite Hout.
Qed.

Lemma removeModel_absent (n : string) (st : Store) :
  n ∉ names (selectedModels st) -> removeModel n st = st.
Proof.
  intros Hout. unfold ModelContext.removeModel.
  apply name_test_false in Hout.
  unfold findIndex. by rewrite (findIndex_from_absent _ 0 _ Hout).
Qed.

Lemma removeModel_first (n : string) (st : Store)
    (before : list BenchmarkResult) (m : BenchmarkResult) (after : list BenchmarkResult) :
  selectedModels st = before ++ m :: after ->
  n ∉ names before -> modelName m = n ->
  removeModel n st =
    mkStore (before ++ after)
            (setItem (localStorage st) "selectedModels" (JSON_stringify (before ++ after))).
Proof.
  intros Hl Hout Hm. unfold ModelContext.removeModel. rewrite Hl.
  apply name_test_false in Hout.
  unfold findIndex.
  rewrite (findIndex_from_first _ 0 before m after Hout)
    by (rewrite Hm; apply string_eqb_refl).
  destruct (Z.eqb_spec (0 + Z.of_nat (length before)) (-1)) as [Hneg|_]; [lia|].
  rewrite Z.add_0_l. by rewrite slice_before, slice_after.
Qed.

Lemma addModel_holds_name (model : BenchmarkResult) (st : Store) :
  modelName model ∈ names (selectedModels (addModel model st)).
Proof.
  destruct (decide (modelName model ∈ names (selectedModels st))) as [Hin|Hout].
  - by rewrite addModel_present.
  - rewrite addModel_fresh by assumption. simpl. unfold names.
    rewrite fmap_app. apply elem_of_app. right. simpl. apply list_elem_of_here.
Qed.

Lemma storedModels_written (storage : Storage) (l : list BenchmarkResult) :
  round_trips l ->
  storedModels (setItem storage "selectedModels" (JSON_stringify l)) = Some l.
Proof.
  intros [Hne Hrt]. unfold ModelContext.storedModels, ModelContext.loadModels.
  unfold getItem, setItem. simpl. rewrite lookup_insert_eq. simpl.
  destruct (string_eqb_spec (JSON_stringify l) "") as [He|_]; [contradiction|].
  simpl. by rewrite Hrt.
Qed.

Lemma first_match_by_name (modelName_ : string) (l : list BenchmarkResult) :
  modelName_ ∉ names l \/
  exists before m after,
    l = (before ++ m :: after) /\ (modelName_ ∉ names before) /\ modelName m = modelName_.
Proof.
  destruct (first_match (fun m => JSString.eqb (modelName m) modelName_) l)
    as [Hnone | (before & m & after & Hl & Hb & Hm)].
  - left. by apply name_test_false.
  - right. exists before, m, after. repeat split; [assumption| |].
    + by apply name_test_false.
    + by apply string_eqb_eq.
Qed.

(** C4 -- [addModel] deduplicates by model name, first write wins: adding
    a result whose name the store already holds changes nothing, so a
    second [addModel] under the same name is absorbed, and two such adds
    to the empty store leave exactly one entry. *)
Theorem addModel_first_write_wins (st : Store) (result result' : BenchmarkResult) :
  modelName result' = modelName result ->
  (modelName result ∈ names (selectedModels st) -> addModel result st = st)
  /\ addModel result' (addModel result st) = addModel result st
  /\ (selectedModels st = [] ->
      length (selectedModels (addModel result' (addModel result st))) = 1%nat).
Proof.
  intros Hname.
  assert (Hsecond : addModel result' (addModel result st) = addModel result st).
  { apply addModel_present. rewrite Hname. apply addModel_holds_name. }
  split; [apply addModel_present|]. split; [exact Hsecond|].
  intros Hempty. rewrite Hsecond, addModel_fresh.
  - simpl. by rewrite Hempty.
  - rewrite Hempty. apply not_elem_of_nil.
Qed.

(** C9 -- [removeModel] drops the first entry carrying the given name and
    keeps every other entry in place; when no entry carries the name (the
    empty store included) the store, state and storage, is returned
    unchanged.  Every store falls under one of the two cases. *)
Theorem removeModel_removes_first_match (st : Store) (modelName_ : string) :
  (modelName_ ∉ names (selectedModels st) -> removeModel modelName_ st = st)
  /\ (forall before m after,
        selectedModels st = (before ++ m :: after) ->
        modelName_ ∉ names before -> modelName m = modelName_ ->
        selectedModels (removeModel modelName_ st) = before ++ after)
  /\ (modelName_ ∉ names (selectedModels st) \/
      exists before m after,
        selectedModels st = before ++ m :: after /\
        (modelName_ ∉ names before) /\ modelName m = modelName_).
Proof.
  split; [apply removeModel_absent|]. split.
  - intros before m after Hl Hout Hm.
    by rewrite (removeModel_first _ _ before m after Hl Hout Hm).
  - apply first_match_by_name.
Qed.

(** C10 -- the in-memory collection and the one read back from the
    ['selectedModels'] key stay equal under [addModel], [removeModel] and
    [clearModels], provided the collections involved survive the JSON
    round trip: a call that changes the collection writes the new one
    under the key ([clearModels] removes the key), and a call that changes
    nothing leaves the storage as it was. *)
Theorem store_stays_in_sync (st : Store) (model : BenchmarkResult) (modelName_ : string) :
  in_sync st ->
  round_trips (selectedModels (addModel model st)) ->
  round_trips (selectedModels (removeModel modelName_ st)) ->
  (in_sync (addModel model st)
   /\ in_sync (removeModel modelName_ st)
   /\ in_sync (clearModels st))
  /\ (modelName model ∉ names (selectedModels st) ->
      getItem (localStorage (addModel model st)) "selectedModels"
      = Some (JSON_stringify (selectedModels st ++ [model])))
  /\ (modelName model ∈ names (selectedModels st) ->
      localStorage (addModel model st) = localStorage st)
  /\ (modelName_ ∈ names (selectedModels st) ->
      getItem (localStorage (removeModel modelName_ st)) "selectedModels"
      = Some (JSON_stringify (selectedModels (removeModel modelName_ st))))
  /\ (modelName_ ∉ names (selectedModels st) ->
      localStorage (removeModel modelName_ st) = localStorage st)
  /\ getItem (localStorage (clearModels st)) "selectedModels" = None.
Proof.
  intros Hsync Hadd Hrem.
  pose proof (removeModel_absent modelName_ st) as Habsent.
  pose proof (first_match_by_name modelName_ (selectedModels st)) as Hcases.
  repeat split.
  - destruct (decide (modelName model ∈ names (selectedModels st))) as [Hin|Hout].
    + by rewrite addModel_present.
    + rewrite addModel_fresh in Hadd |- * by assumption.
      unfold ModelContext.in_sync. simpl in *. by apply storedModels_written.
  - destruct Hcases as [Hout | (before & m & after & Hl & Hb & Hm)].
    + by rewrite Habsent.
    + rewrite (removeModel_first _ _ before m after Hl Hb Hm) in Hrem |- *.
      unfold ModelContext.in_sync. simpl in *. by apply storedModels_written.
  - unfold ModelContext.in_sync, ModelContext.storedModels, ModelContext.loadModels,
      clearModels, getItem, removeItem. simpl. by rewrite lookup_delete_eq.
  - intros Hout. rewrite addModel_fresh by assumption.
    unfold getItem, setItem. simpl. apply lookup_insert_eq.
  - intros Hin. by rewrite addModel_present.
  - intros Hin. destruct Hcases as [Hout | (before & m & after & Hl & Hb & Hm)];
      [contradiction|].
    rewrite (removeModel_first _ _ before m after Hl Hb Hm).
    unfold getItem, setItem. simpl. apply lookup_insert_eq.
  - intros Hout. by rewrite Habsent.
  - unfold clearModels, getItem, removeItem. simpl. apply lookup_delete_eq.
Qed.

(** C1 (as amended) -- on initial load an absent ['selectedModels'] key or
    an empty stored string leaves the collection as it is (empty in a
    freshly mounted provider), and a stored string that [JSON.parse]
    accepts becomes the collection; a non-empty stored string that is not
    valid JSON makes [JSON.parse] throw, and the load does not catch it. *)
Theorem loadModels_outcomes (st : Store) :
  (getItem (localStorage st) "selectedModels" = None \/
   getItem (localStorage st) "selectedModels" = Some "" ->
   loadModels st = Returned st)
  /\ (forall s parsed,
        getItem (localStorage st) "selectedModels" = Some s -> s <> "" ->
        JSON_parse s = Some parsed ->
        loadModels st = Returned (mkStore parsed (localStorage st)))
  /\ (forall s,
        getItem (localStorage st) "selectedModels" = Some s -> s <> "" ->
        JSON_parse s = None ->
        loadModels st = Threw "SyntaxError").
Proof.
  unfold ModelContext.loadModels. repeat split.
  - intros [-> | ->]; reflexivity.
  - intros s parsed -> Hne Hparse. simpl.
    destruct (string_eqb_spec s "") as [He|_]; [contradiction|].
    simpl. by rewrite Hparse.
  - intros s -> Hne Hparse. simpl.
    destruct (string_eqb_spec s "") as [He|_]; [contradiction|].
    simpl. by rewrite Hparse.
Qed.

End StoreFacts.

(** *** The store on concrete contents *)

Ltac not_among := apply (bool_decide_unpack _); vm_compute; exact I.

Lemma addModel_first_write_wins_witness :
  ModelContext.addModel RefJSON.stringify Samples.ResNet50_again
    (ModelContext.addModel RefJSON.stringify Samples.ResNet50 Samples.emptyStore)
  = ModelContext.addModel RefJSON.stringify Samples.ResNet50 Samples.emptyStore
  /\ length (ModelContext.selectedModels
               (ModelContext.addModel RefJSON.stringify Samples.ResNet50_again
                  (ModelContext.addModel RefJSON.stringify Samples.ResNet50
                     Samples.emptyStore))) = 1%nat
  /\ ModelContext.addModel RefJSON.stringify Samples.ResNet50 Samples.threeModels
     = Samples.threeModels.
Proof.
  destruct (addModel_first_write_wins RefJSON.stringify Samples.emptyStore
              Samples.ResNet50 Samples.ResNet50_again eq_refl) as (_ & Hsecond & Hone).
  destruct (addModel_first_write_wins RefJSON.stringify Samples.threeModels
              Samples.ResNet50 Samples.ResNet50_again eq_refl) as (Hnoop & _ & _).
  split; [exact Hsecond|]. split; [apply Hone; reflexivity|].
  apply Hnoop. not_among.
Defined.

Lemma removeModel_removes_first_match_witness :
  ModelContext.removeModel RefJSON.stringify "ResNet50" Samples.emptyStore
  = Samples.emptyStore
  /\ ModelContext.selectedModels
       (ModelContext.removeModel RefJSON.stringify "mine.pkl" Samples.threeModels)
     = [Samples.ResNet50; Samples.EfficientNet].
Proof.
  split.
  - apply (proj1 (removeModel_removes_first_match RefJSON.stringify
                    Samples.emptyStore "ResNet50")).
    apply not_elem_of_nil.
  - apply (proj1 (proj2 (removeModel_removes_first_match RefJSON.stringify
                           Samples.threeModels "mine.pkl"))
             [Samples.ResNet50] (Samples.uploaded "mine.pkl" "uploads/mine.pkl")
             [Samples.EfficientNet]).
    + vm_compute. reflexivity.
    + not_among.
    + reflexivity.
Defined.

Lemma store_stays_in_sync_witness :
  ModelContext.in_sync RefJSON.parse
    (ModelContext.addModel RefJSON.stringify Samples.ResNet50_again Samples.threeModels)
  /\ ModelContext.in_sync RefJSON.parse
       (ModelContext.removeModel RefJSON.stringify "mine.pkl" Samples.threeModels)
  /\ ModelContext.in_sync RefJSON.parse (ModelContext.clearModels Samples.threeModels).
Proof.
  apply (store_stays_in_sync RefJSON.stringify RefJSON.parse Samples.threeModels
           Samples.ResNet50_again "mine.pkl").
  - vm_compute. reflexivity.
  - split; [vm_compute; discriminate | vm_compute; reflexivity].
  - split; [vm_compute; discriminate | vm_compute; reflexivity].
Defined.

Lemma loadModels_outcomes_witness :
  ModelContext.loadModels RefJSON.parse Samples.emptyStore = Returned Samples.emptyStore
  /\ ModelContext.loadModels RefJSON.parse
       (ModelContext.mkStore [] (ModelContext.localStorage Samples.threeModels))
     = Returned Samples.threeModels
  /\ ModelContext.loadModels RefJSON.parse Samples.corruptStore = Threw "SyntaxError".
Proof.
  split; [|split].
  - apply (proj1 (loadModels_outcomes RefJSON.parse Samples.emptyStore)).
    left. reflexivity.
  - apply (proj1 (proj2 (loadModels_outcomes RefJSON.parse
                           (ModelContext.mkStore []
                              (ModelContext.localStorage Samples.threeModels))))
             (RefJSON.stringify (ModelContext.selectedModels Samples.threeModels))).
    + vm_compute. reflexivity.
    + vm_compute. discriminate.
    + vm_compute. reflexivity.
  - apply (proj2 (proj2 (loadModels_outcomes RefJSON.parse Samples.corruptStore))
             Samples.truncatedPayload).
    + vm_compute. reflexivity.
    + discriminate.
    + vm_compute. reflexivity.
Defined.

(** C1, as stated, fails: the stored text [truncatedPayload], an opening
    bracket and an opening brace, is not valid JSON, and loading it throws
    instead of yielding the empty collection. *)
Lemma corrupt_payload_not_treated_as_empty :
  RefJSON.parse_json Samples.truncatedPayload = None
  /\ getItem (ModelContext.localStorage Samples.corruptStore) "selectedModels"
     = Some Samples.truncatedPayload
  /\ ModelContext.loadModels RefJSON.parse Samples.corruptStore = Threw "SyntaxError"
  /\ ModelContext.loadModels RefJSON.parse Samples.corruptStore
     <> Returned (ModelContext.mkStore [] (ModelContext.localStorage Samples.corruptStore)).
Proof.
  assert (H : ModelContext.loadModels RefJSON.parse Samples.corruptStore
              = Threw "SyntaxError") by (vm_compute; reflexivity).
  split; [vm_compute; reflexivity|].
  split; [vm_compute; reflexivity|].
  split; [exact H|].
  rewrite H. discriminate.
Qed.

(** ** File validators *)

Section ValidatorFacts.

Variable platform : Platform.

Lemma app_dot (ext : string) : "." +:+ ext = String "."%unit ext.
Proof. reflexivity. Qed.








(** C8 (as amended) -- [validateModelFile] decides from the file's name
    and declared size alone: two files with the same name and size get
    the same verdict whatever their contents, type or the time of the
    call.  The format comes first: a name that, lowered, does not end in
    [.pkl] is refused with the format error whatever the size of the
    file; a [.pkl] file larger than 500 * 1024 * 1024 bytes is refused
    with the too-large error, and every [.pkl] file at or under that
    ceiling is accepted.  No file over the ceiling passes, and the
    upload route, whose multipart parser has the same ceiling, answers
    500 with the parser's message for a file part over it and stores
    nothing. *)
Theorem validateModelFile_metadata_only (file other : File)
    (Date_now Date_now' : N) (Date_iso Date_iso' : string) :
  (name other = name file -> size other = size file ->
   ModelHandler.verdict
     (ModelHandler.validateModelFile platform other Date_now' Date_iso')
   = ModelHandler.verdict
       (ModelHandler.validateModelFile platform file Date_now Date_iso))
  /\ (~ has_extension platform ".pkl" (name file) ->
      ModelHandler.validateModelFile platform file Date_now Date_iso
      = Threw "Invalid file format. Only .pkl files are supported.")
  /\ (has_extension platform ".pkl" (name file) -> size file > 500 * 1024 * 1024 ->
      ModelHandler.validateModelFile platform file Date_now Date_iso
      = Threw "File size too large. Maximum size is 500MB.")
  /\ (has_extension platform ".pkl" (name file) -> size file <= 500 * 1024 * 1024 ->
      ModelHandler.validateModelFile platform file Date_now Date_iso
      = Returned (ModelHandler.mkModelInfo (toString Date_now) (name file)
                    ModelHandler.pkl (size file) Date_iso "gpt-4"))
  /\ (size file > 500 * 1024 * 1024 ->
      ModelHandler.verdict
        (ModelHandler.validateModelFile platform file Date_now Date_iso)
      <> None)
  /\ (forall UPLOADS_DIR part fs,
        truthy (Formidable.mimetype part) = true ->
        Z.of_nat (length (Formidable.content part)) > 500 * 1024 * 1024 ->
        UploadModel.handler platform UPLOADS_DIR (mkRequest "POST" (Some part))
          Date_now Date_iso fs
        = (UploadModel.mkResponse 500
             (UploadModel.error_body
                ("Upload failed: "
                 +:+ formidable_message platform Formidable.fileTooLarge
                       (500 * 1024 * 1024) part)),
           fs)).
Proof.
  unfold ModelHandler.validateModelFile, ModelHandler.maxSize.
  repeat apply conj.
  - intros -> ->.
    destruct (endsWith _ _); [|reflexivity].
    by destruct (size file >? _).
  - intros Hext. destruct (endsWith _ _) eqn:He; [|reflexivity].
    by apply has_extension_endsWith in He.
  - intros Hext Hbig. apply has_extension_endsWith in Hext as ->. simpl.
    destruct (Z.gtb_spec (size file) (500 * 1024 * 1024)); [reflexivity | lia].
  - intros Hext Hfits. apply has_extension_endsWith in Hext as ->. simpl.
    destruct (Z.gtb_spec (size file) (500 * 1024 * 1024)); [lia | reflexivity].
  - intros Hbig. destruct (negb _); [discriminate|].
    destruct (Z.gtb_spec (size file) (500 * 1024 * 1024)); [discriminate | lia].
  - intros UPLOADS_DIR part fs Htype Hbig.
    unfold UploadModel.handler, Formidable.parse. simpl. rewrite Htype. simpl.
    destruct (Z.eqb_spec (Z.of_nat (length (Formidable.content part))) 0); [lia|].
    destruct (Z.gtb_spec (Z.of_nat (length (Formidable.content part)))
                         (500 * 1024 * 1024)); [reflexivity | lia].
Qed.

End ValidatorFacts.

Ltac has_ext := apply has_extension_endsWith; vm_compute; reflexivity.

Ltac lacks_ext :=
  let H := fresh in intros H; apply has_extension_endsWith in H; vm_compute in H; discriminate.

Ltac among := apply (bool_decide_unpack _); vm_compute; exact I.



(** A name with no dot at all is compared whole by [split('.').pop()]:
    the comparison page takes a file that is just called [csv]. *)
Example dotless_name_passes_comparison_validation :
  DatasetComparisonPage.isValid
    (DatasetComparisonPage.validateDataset Samples.platform
       (Some (Samples.filled "1" "csv" 10 ""))) = true
  /\ includes DatasetUploader.validTypes
       (DatasetUploader.fileExtension Samples.platform (Samples.filled "1" "csv" 10 ""))
     = false.
Proof. split; vm_compute; reflexivity. Qed.

Lemma validateModelFile_metadata_only_witness :
  ModelHandler.verdict
    (ModelHandler.validateModelFile Samples.platform Samples.same_name_and_size 7 "later")
  = None
  /\ ModelHandler.verdict
       (ModelHandler.validateModelFile Samples.platform Samples.weights_h5 1 "now")
     = Some "Invalid file format. Only .pkl files are supported."
  /\ ModelHandler.verdict
       (ModelHandler.validateModelFile Samples.platform Samples.huge_pkl 1 "now")
     = Some "File size too large. Maximum size is 500MB."
  /\ ModelHandler.verdict
       (ModelHandler.validateModelFile Samples.platform Samples.other_pkl 1 "now")
     = None.
Proof.
  repeat apply conj.
  - rewrite (proj1 (validateModelFile_metadata_only Samples.platform Samples.model_pkl
                      Samples.same_name_and_size 1 7 "now" "later") eq_refl eq_refl).
    vm_compute. reflexivity.
  - rewrite (proj1 (proj2 (validateModelFile_metadata_only Samples.platform
                             Samples.weights_h5 Samples.weights_h5 1 1 "now" "now")));
      [reflexivity|].
    lacks_ext.
  - rewrite (proj1 (proj2 (proj2 (validateModelFile_metadata_only Samples.platform
                                    Samples.huge_pkl Samples.huge_pkl 1 1 "now" "now"))));
      [reflexivity | has_ext | vm_compute; reflexivity].
  - rewrite (proj1 (proj2 (proj2 (proj2 (validateModelFile_metadata_only
                                           Samples.platform
                                           Samples.other_pkl Samples.other_pkl
                                           1 1 "now" "now")))));
      [reflexivity | has_ext | vm_compute; discriminate].
Defined.

(** C8, as stated, fails: [huge.txt] is larger than the ceiling and is
    refused with the format error, not with the too-large error. *)
Lemma oversized_text_file_gets_format_error :
  size Samples.huge_txt > 500 * 1024 * 1024
  /\ ModelHandler.validateModelFile Samples.platform Samples.huge_txt 1 "now"
     = Threw "Invalid file format. Only .pkl files are supported."
  /\ ModelHandler.validateModelFile Samples.platform Samples.huge_txt 1 "now"
     <> Threw "File size too large. Maximum size is 500MB.".
Proof.
  split; [vm_compute; reflexivity|].
  assert (H : ModelHandler.validateModelFile Samples.platform Samples.huge_txt 1 "now"
              = Threw "Invalid file format. Only .pkl files are supported.")
    by (vm_compute; reflexivity).
  split; [exact H | rewrite H; discriminate].
Qed.

(** The lowering is the platform's: where it turns the Kelvin sign
    (U+212A) into [k], as [toLowerCase] does, [model.p], Kelvin sign, [l]
    is a [.pkl] name and the validator takes the file. *)
Lemma validateModelFile_lowers_with_the_platform
    (platform : Platform) (file : File) (Date_now : N) (Date_iso : string) :
  name file = "model.p" +:+ String 8490%N "l" ->
  toLowerCase platform (name file) = "model.pkl" ->
  size file <= 500 * 1024 * 1024 ->
  ModelHandler.validateModelFile platform file Date_now Date_iso
  = Returned (ModelHandler.mkModelInfo (toString Date_now) (name file)
                ModelHandler.pkl (size file) Date_iso "gpt-4").
Proof.
  intros _ Hlow Hsize. unfold ModelHandler.validateModelFile, ModelHandler.maxSize.
  rewrite Hlow. simpl.
  destruct (Z.gtb_spec (size file) (500 * 1024 * 1024)); [lia | reflexivity].
Qed.

(** ** Evaluation *)

Section EvaluationFacts.

Import UnifiedBenchmarkPage.

Variable env : Env.
Variable dataset : option File.
Variable datasetPath : option string.

Local Abbreviation evaluateOne := (UnifiedBenchmarkPage.evaluateOne env dataset datasetPath).
Local Abbreviation succeeds := (UnifiedBenchmarkPage.succeeds env dataset datasetPath).
Local Abbreviation dispatch_fails :=
  (UnifiedBenchmarkPage.dispatch_fails env dataset datasetPath).

Local Abbreviation result_of := (UnifiedBenchmarkPage.result_of env dataset datasetPath).

Ltac run_evaluateOne :=
  unfold UnifiedBenchmarkPage.evaluateOne, UnifiedBenchmarkPage.customMetrics,
    UnifiedBenchmarkPage.simulatedMetrics, try_catch, bind, throw, ret,
    api_evaluateModel, Math_random, Date_toISOString, console_error_.

Lemma evaluateOne_library (model : BenchmarkResult) (w : World) :
  default false (fromLibrary model) = true ->
  exists r w',
    evaluateOne model w = (Returned r, w') /\ error r = None /\
    requests w' = requests w /\ result_of model r.
Proof.
  intros Hlib. run_evaluateOne. rewrite Hlib. simpl.
  eexists _, _. split; [reflexivity|]. simpl.
  unfold UnifiedBenchmarkPage.result_of, UnifiedBenchmarkPage.succeeds. rewrite Hlib. simpl.
  by repeat split.
Qed.

Lemma evaluateOne_no_dataset (model : BenchmarkResult) (w : World) :
  default false (fromLibrary model) = false ->
  negb (defined dataset) || negb (truthy datasetPath) = true ->
  exists r w',
    evaluateOne model w = (Returned r, w') /\
    error r = Some "Failed to evaluate model: Please upload a dataset before evaluating custom models" /\
    requests w' = requests w /\ result_of model r.
Proof.
  intros Hlib Hmissing. run_evaluateOne. rewrite Hlib, Hmissing. simpl.
  eexists _, _. split; [reflexivity|]. simpl.
  unfold UnifiedBenchmarkPage.result_of, UnifiedBenchmarkPage.succeeds. rewrite Hlib, Hmissing. simpl.
  repeat split; try done.
Qed.

Lemma evaluateOne_dispatch_fails (model : BenchmarkResult) (why : string) (w : World) :
  dispatch_fails model why ->
  exists r w',
    evaluateOne model w = (Returned r, w') /\
    error r = Some ("Failed to evaluate model: Failed to evaluate " +:+ modelName model
                    +:+ ": " +:+ why) /\
    result_of model r.
Proof.
  intros (Hlib & Hds & Hpath & Hpost). run_evaluateOne.
  unfold UnifiedBenchmarkPage.result_of, UnifiedBenchmarkPage.succeeds.
  rewrite Hlib, Hds, Hpath. simpl.
  destruct (POST_evaluate env _) as [response|msg].
  - destruct Hpost as [Hnone ->]. rewrite Hnone. simpl.
    eexists _, _. split; [reflexivity|]. simpl. repeat split; try done.
  - subst why. simpl.
    eexists _, _. split; [reflexivity|]. simpl. repeat split; try done.
Qed.

Lemma evaluateOne_returns (model : BenchmarkResult) (w : World) :
  exists r w', evaluateOne model w = (Returned r, w') /\ result_of model r.
Proof.
  destruct (default false (fromLibrary model)) eqn:Hlib.
  { destruct (evaluateOne_library model w Hlib) as (r & w' & H & _ & _ & Hr). eauto. }
  destruct (negb (defined dataset) || negb (truthy datasetPath)) eqn:Hmissing.
  { destruct (evaluateOne_no_dataset model w Hlib Hmissing) as (r & w' & H & _ & _ & Hr).
    eauto. }
  apply orb_false_iff in Hmissing as [Hds Hpath].
  apply negb_false_iff in Hds, Hpath.
  destruct (POST_evaluate env (mkEvaluateRequest (modelId model) (default "" datasetPath)))
    as [response|msg] eqn:Hpost.
  - destruct (response_metrics response) as [m|] eqn:Hm.
    + run_evaluateOne. unfold UnifiedBenchmarkPage.result_of, UnifiedBenchmarkPage.succeeds.
      rewrite Hlib, Hds, Hpath. simpl. rewrite Hpost, Hm. simpl.
      eexists _, _. split; [reflexivity|]. simpl. by repeat split.
    + destruct (evaluateOne_dispatch_fails model "Evaluation failed to return metrics" w)
        as (r & w' & H & _ & Hr); [|eauto].
      repeat split; try assumption. by rewrite Hpost.
  - destruct (evaluateOne_dispatch_fails model msg w) as (r & w' & H & _ & Hr); [|eauto].
    repeat split; try assumption. by rewrite Hpost.
Qed.

(** The loop returns one result per model, in the order of the models. *)
Lemma for_of_evaluateOne (models : list BenchmarkResult) (w : World) :
  exists results w',
    for_of models evaluateOne w = (Returned results, w') /\
    Forall2 result_of models results.
Proof.
  revert w. induction models as [|model models IH]; intros w.
  - exists [], w. by split; [|constructor].
  - destruct (evaluateOne_returns model w) as (r & w1 & Hone & Hr).
    destruct (IH w1) as (rs & w2 & Hrest & Hrs).
    exists (r :: rs), w2. split; [|by constructor].
    simpl. unfold bind at 1. rewrite Hone. unfold bind at 1. by rewrite Hrest.
Qed.

Lemma handleEvaluate_returns (models : list BenchmarkResult) (pg : Page) (w : World) :
  models <> [] ->
  exists results w',
    handleEvaluate env models dataset datasetPath pg w
    = (Returned (mkPage false None results 2 (Some (models, results))), w') /\
    Forall2 result_of models results.
Proof.
  intros Hne. destruct (for_of_evaluateOne models w) as (results & w' & Hrun & Hres).
  exists results, w'. split; [|assumption].
  unfold handleEvaluate.
  destruct (Z.eqb_spec (Z.of_nat (length models)) 0) as [Hlen|_].
  { destruct models; [contradiction | simpl in Hlen; lia]. }
  unfold try_catch, bind. by rewrite Hrun.
Qed.

(** C3 -- batch evaluation of [A; B; C] in which the dispatch for [B]
    fails returns exactly three results in the order of the models:
    [A]'s without an error, [B]'s with the error set and zero metrics,
    [C]'s without an error.  More generally, for any selection the page
    gets one result per model, in order, and a result carries an error
    exactly when the evaluation of its own model fails, whatever happens
    to the others. *)
Theorem batch_evaluation_isolates_failures
    (A B C : BenchmarkResult) (why : string) (pg : Page) (w : World) :
  succeeds A = true -> dispatch_fails B why -> succeeds C = true ->
  (exists rA rB rC w',
     handleEvaluate env [A; B; C] dataset datasetPath pg w
     = (Returned (mkPage false None [rA; rB; rC] 2 (Some ([A; B; C], [rA; rB; rC]))), w')
     /\ (modelName rA = modelName A /\ error rA = None)
     /\ (modelName rB = modelName B /\ metrics rB = zeroMetrics /\
         error rB = Some ("Failed to evaluate model: Failed to evaluate "
                          +:+ modelName B +:+ ": " +:+ why))
     /\ (modelName rC = modelName C /\ error rC = None))
  /\ (forall models pg0 w0, models <> [] ->
      exists results w',
        handleEvaluate env models dataset datasetPath pg0 w0
        = (Returned (mkPage false None results 2 (Some (models, results))), w')
        /\ ModelContext.names results = ModelContext.names models
        /\ Forall2 (fun model r => error r = None <-> succeeds model = true)
                   models results).
Proof.
  intros HA HB HC. split.
  - destruct (evaluateOne_returns A w) as (rA & w1 & HrunA & HnA & _ & _ & HeA & _).
    destruct (evaluateOne_dispatch_fails B why w1 HB)
      as (rB & w2 & HrunB & HeB & HnB & _ & _ & _ & HzB).
    destruct (evaluateOne_returns C w2) as (rC & w3 & HrunC & HnC & _ & _ & HeC & _).
    exists rA, rB, rC, w3. split.
    + unfold handleEvaluate, try_catch. simpl. unfold bind at 1 2.
      rewrite HrunA. unfold bind at 1 2. rewrite HrunB.
      unfold bind at 1 2. by rewrite HrunC.
    + repeat split; try assumption.
      * by apply HeA.
      * apply HzB. by rewrite HeB.
      * by apply HeC.
  - intros models pg0 w0 Hne.
    destruct (handleEvaluate_returns models pg0 w0 Hne) as (results & w' & Hrun & Hres).
    exists results, w'. split; [assumption|]. clear Hrun Hne. split.
    + unfold ModelContext.names. induction Hres as [|m r ms rs (Hn & _) _ IH];
        [reflexivity | rewrite !fmap_cons; by rewrite Hn, IH].
    + eapply Forall2_impl; [exact Hres|]. by intros m r (_ & _ & _ & He & _).
Qed.

(** C7 -- every result that batch evaluation produces with its [error]
    set has the metrics record of the error branch: accuracy, f1Score,
    precision, recall, latency, throughput, memoryUsage and modelSize,
    each of them zero. *)
Theorem error_results_have_zero_metrics
    (models : list BenchmarkResult) (pg : Page) (w : World) :
  models <> [] ->
  exists pg' w',
    handleEvaluate env models dataset datasetPath pg w = (Returned pg', w') /\
    Forall (fun r =>
              error r <> None ->
              (fst <$> metrics r)
              = ["accuracy"; "f1Score"; "precision"; "recall";
                 "latency"; "throughput"; "memoryUsage"; "modelSize"]
              /\ Forall (fun kv => snd kv = 0%float) (metrics r))
           (comparisonResults pg').
Proof.
  intros Hne.
  destruct (handleEvaluate_returns models pg w Hne) as (results & w' & Hrun & Hres).
  eexists _, w'. split; [exact Hrun|]. simpl.
  clear Hrun Hne. induction Hres as [|m r ms rs (_ & _ & _ & _ & Hz) _ IH];
    [constructor|]. constructor; [|exact IH].
  intros Herr. rewrite (Hz Herr). split; [reflexivity|].
  unfold zeroMetrics. by repeat constructor.
Qed.



End EvaluationFacts.

Lemma batch_evaluation_isolates_failures_witness :
  exists rA rB rC w',
    UnifiedBenchmarkPage.handleEvaluate Samples.env
      [Samples.modelA; Samples.modelB; Samples.modelC]
      (Some Samples.iris_csv) (Some "uploads/datasets/iris.csv")
      Samples.page0 Samples.world0
    = (Returned (UnifiedBenchmarkPage.mkPage false None [rA; rB; rC] 2
                   (Some ([Samples.modelA; Samples.modelB; Samples.modelC],
                          [rA; rB; rC]))), w')
    /\ (modelName rA = "a.pkl" /\ error rA = None)
    /\ (modelName rB = "b.pkl" /\ metrics rB = UnifiedBenchmarkPage.zeroMetrics /\
        error rB
        = Some "Failed to evaluate model: Failed to evaluate b.pkl: Failed to fetch")
    /\ (modelName rC = "c.pkl" /\ error rC = None).
Proof.
  apply (batch_evaluation_isolates_failures Samples.env (Some Samples.iris_csv)
           (Some "uploads/datasets/iris.csv")
           Samples.modelA Samples.modelB Samples.modelC "Failed to fetch"
           Samples.page0 Samples.world0).
  - vm_compute. reflexivity.
  - repeat split; vm_compute; reflexivity.
  - vm_compute. reflexivity.
Defined.

Lemma error_results_have_zero_metrics_witness :
  exists pg' w',
    UnifiedBenchmarkPage.handleEvaluate Samples.env
      [Samples.libraryModel; Samples.modelB] None None Samples.page0 Samples.world0
    = (Returned pg', w') /\
    Forall (fun r =>
              error r <> None ->
              (fst <$> metrics r)
              = ["accuracy"; "f1Score"; "precision"; "recall";
                 "latency"; "throughput"; "memoryUsage"; "modelSize"]
              /\ Forall (fun kv => snd kv = 0%float) (metrics r))
           (UnifiedBenchmarkPage.comparisonResults pg').
Proof.
  apply (error_results_have_zero_metrics Samples.env None None
           [Samples.libraryModel; Samples.modelB] Samples.page0 Samples.world0).
  discriminate.
Defined.



(** ** Upload identifiers *)

Section IdFacts.

Lemma validateModelFile_id (platform : Platform) (file : File) (Date_now : N)
    (Date_iso : string) (info : ModelHandler.ModelInfo) :
  ModelHandler.validateModelFile platform file Date_now Date_iso = Returned info ->
  ModelHandler.id info = toString Date_now.
Proof.
  unfold ModelHandler.validateModelFile.
  destruct (negb _); [discriminate|]. destruct (_ >? _); [discriminate|].
  by intros [= <-].
Qed.

(** The ids of two accepted files coincide exactly when the two calls read
    the same millisecond off the clock. *)
Lemma ids_coincide_iff_same_reading (platform : Platform) (f1 f2 : File) (t1 t2 : N)
    (iso1 iso2 : string) (i1 i2 : ModelHandler.ModelInfo) :
  ModelHandler.validateModelFile platform f1 t1 iso1 = Returned i1 ->
  ModelHandler.validateModelFile platform f2 t2 iso2 = Returned i2 ->
  ModelHandler.id i1 = ModelHandler.id i2 <-> t1 = t2.
Proof.
  intros H1%validateModelFile_id H2%validateModelFile_id. rewrite H1, H2.
  unfold toString. split; [apply decimal_inj | by intros ->].
Qed.

(** C2 (the code at the failing input) -- ids are the decimal text of
    [Date.now()]: a thousand accepted validations within one millisecond
    all return the id [1700000000000], and two dataset uploads served in
    the same millisecond both answer 200 with that one id, the second
    file replacing the first under the shared final path. *)
Theorem upload_ids_collide_within_a_millisecond :
  ModelHandler.returned_ids Samples.platform Samples.burst = replicate 1000 "1700000000000"
  /\ ~ NoDup (ModelHandler.returned_ids Samples.platform Samples.burst)
  /\ (UploadDataset.status <$>
        (UploadDataset.serve Samples.platform "uploads/datasets"
           Samples.sameMillisecond ∅).1) = [200; 200]
  /\ (UploadDataset.response_id <$>
        (UploadDataset.serve Samples.platform "uploads/datasets"
           Samples.sameMillisecond ∅).1)
     = [Some "1700000000000"; Some "1700000000000"]
  /\ map_to_list
       (UploadDataset.serve Samples.platform "uploads/datasets"
          Samples.sameMillisecond ∅).2
     = [("uploads/datasets/dataset_1700000000000.csv", ["b"%char; "2"%char])].
Proof.
  assert (Hids : ModelHandler.returned_ids Samples.platform Samples.burst
                 = replicate 1000 "1700000000000") by (vm_compute; reflexivity).
  split; [exact Hids|]. split.
  - rewrite Hids. intros Hnodup.
    change (replicate 1000 "1700000000000")
      with ("1700000000000" :: "1700000000000" :: replicate 998 "1700000000000")
      in Hnodup.
    apply NoDup_cons_1_1 in Hnodup. apply Hnodup. apply list_elem_of_here.
  - repeat split; vm_compute; reflexivity.
Qed.

End IdFacts.

(* ===================================================================== *)
(** * Further properties *)
(* ===================================================================== *)

(** ** Result Store: uniqueness, order, composition *)

Section StoreMore.

Import ModelContext.

Variable JSON_stringify : list BenchmarkResult -> string.

Local Abbreviation addModel := (ModelContext.addModel JSON_stringify).
Local Abbreviation removeModel := (ModelContext.removeModel JSON_stringify).

Lemma names_app (l k : list BenchmarkResult) : names (l ++ k) = names l ++ names k.
Proof. unfold names. apply fmap_app. Qed.

Lemma addModel_selected (model : BenchmarkResult) (st : Store) :
  selectedModels (addModel model st)
  = if bool_decide (modelName model ∈ names (selectedModels st))
    then selectedModels st else selectedModels st ++ [model].
Proof.
  case_bool_decide as Hin.
  - by rewrite addModel_present.
  - by rewrite addModel_fresh.
Qed.

Lemma removeModel_selected (n : string) (st : Store)
    (before : list BenchmarkResult) (m : BenchmarkResult) (after : list BenchmarkResult) :
  selectedModels st = before ++ m :: after ->
  n ∉ names before -> modelName m = n ->
  selectedModels (removeModel n st) = before ++ after.
Proof. intros Hl Hb Hm. by rewrite (removeModel_first JSON_stringify n st before m after Hl Hb Hm). Qed.

Lemma addModel_NoDup (model : BenchmarkResult) (st : Store) :
  NoDup (names (selectedModels st)) ->
  NoDup (names (selectedModels (addModel model st))).
Proof.
  intros Hnd. rewrite addModel_selected. case_bool_decide as Hin; [assumption|].
  rewrite names_app. apply NoDup_app. repeat split; [assumption| |].
  - intros x Hx Hx'. apply list_elem_of_singleton in Hx'. by subst.
  - apply NoDup_singleton.
Qed.

Lemma removeModel_NoDup (n : string) (st : Store) :
  NoDup (names (selectedModels st)) ->
  NoDup (names (selectedModels (removeModel n st)))
  /\ (n ∉ names (selectedModels (removeModel n st))).
Proof.
  intros Hnd.
  destruct (first_match_by_name n (selectedModels st))
    as [Hout | (before & m & after & Hl & Hb & Hm)].
  - by rewrite removeModel_absent.
  - rewrite (removeModel_selected n st before m after Hl Hb Hm).
    rewrite Hl, names_app in Hnd. rewrite names_app.
    apply NoDup_app in Hnd as (Hnb & Hdis & Hna).
    simpl in Hna. apply NoDup_cons in Hna as [Hm' Hna]. rewrite Hm in Hm'.
    split.
    + apply NoDup_app. repeat split; [assumption| |assumption].
      intros x Hx Hx'. apply (Hdis x Hx). by apply list_elem_of_further.
    + rewrite elem_of_app. tauto.
Qed.

Lemma removeModel_filter_other (n : string) (st : Store) :
  List.filter (fun m => negb (JSString.eqb (modelName m) n))
              (selectedModels (removeModel n st))
  = List.filter (fun m => negb (JSString.eqb (modelName m) n)) (selectedModels st).
Proof.
  destruct (first_match_by_name n (selectedModels st))
    as [Hout | (before & m & after & Hl & Hb & Hm)].
  - by rewrite removeModel_absent.
  - rewrite (removeModel_selected n st before m after Hl Hb Hm), Hl.
    rewrite !List.filter_app. simpl. by rewrite Hm, string_eqb_refl.
Qed.

(** X1 -- the store keeps its names unique: if no two entries share a
    name, the same holds after [addModel], [removeModel] and
    [clearModels], and after [removeModel] the removed name is gone. *)
Theorem store_names_stay_unique (st : Store) (model : BenchmarkResult) (n : string) :
  NoDup (names (selectedModels st)) ->
  NoDup (names (selectedModels (addModel model st)))
  /\ NoDup (names (selectedModels (removeModel n st)))
  /\ (n ∉ names (selectedModels (removeModel n st)))
  /\ NoDup (names (selectedModels (clearModels st))).
Proof.
  intros Hnd. split; [by apply addModel_NoDup|].
  destruct (removeModel_NoDup n st Hnd) as [H1 H2].
  repeat split; [assumption | assumption |]. simpl. apply NoDup_nil_2.
Qed.

(** X2 -- removing a model right after adding it under a new name gives
    back the collection as it was, and the storage then holds the text of
    that collection. *)
Theorem removeModel_undoes_addModel (st : Store) (model : BenchmarkResult) :
  modelName model ∉ names (selectedModels st) ->
  selectedModels (removeModel (modelName model) (addModel model st)) = selectedModels st
  /\ getItem (localStorage (removeModel (modelName model) (addModel model st)))
             "selectedModels"
     = Some (JSON_stringify (selectedModels st)).
Proof.
  intros Hfresh. rewrite addModel_fresh by assumption.
  rewrite (removeModel_first JSON_stringify (modelName model) _
             (selectedModels st) model []) by (simpl; done).
  simpl. rewrite app_nil_r. split; [reflexivity|].
  unfold getItem, setItem. apply lookup_insert_eq.
Qed.

(** X3 -- [removeModel] touches the entries of one name only: the entries
    under any other name are kept, in their order, and when the name is
    present exactly one entry goes. *)
Theorem removeModel_keeps_other_names (st : Store) (n : string) :
  List.filter (fun m => negb (JSString.eqb (modelName m) n))
              (selectedModels (removeModel n st))
  = List.filter (fun m => negb (JSString.eqb (modelName m) n)) (selectedModels st)
  /\ (n ∈ names (selectedModels st) ->
      S (length (selectedModels (removeModel n st))) = length (selectedModels st)).
Proof.
  split; [apply removeModel_filter_other|].
  destruct (first_match_by_name n (selectedModels st))
    as [Hout | (before & m & after & Hl & Hb & Hm)]; [contradiction|].
  intros _. rewrite (removeModel_selected n st before m after Hl Hb Hm), Hl.
  rewrite !length_app. simpl. lia.
Qed.

Lemma addModel_prefix (model : BenchmarkResult) (st : Store) :
  selectedModels st `prefix_of` selectedModels (addModel model st).
Proof.
  rewrite addModel_selected. case_bool_decide; [reflexivity|].
  by apply prefix_app_r.
Qed.

Lemma addModel_from (model x : BenchmarkResult) (st : Store) :
  x ∈ selectedModels (addModel model st) -> x ∈ selectedModels st \/ x = model.
Proof.
  rewrite addModel_selected. case_bool_decide; [by left|].
  rewrite elem_of_app, list_elem_of_singleton. tauto.
Qed.

(** X4 -- the page's mount effect, which replays the saved selection
    through [addModel], leaves every saved name in the store, keeps the
    entries that were there in front and in order, adds nothing that was
    not saved, and keeps the names unique. *)
Theorem restoreSelectedModels_merges (saved : list BenchmarkResult) (st : Store) :
  let st' := BenchmarkUploads.restoreSelectedModels JSON_stringify saved st in
  (forall m, m ∈ saved -> modelName m ∈ names (selectedModels st'))
  /\ selectedModels st `prefix_of` selectedModels st'
  /\ (forall x, x ∈ selectedModels st' -> x ∈ selectedModels st \/ x ∈ saved)
  /\ (NoDup (names (selectedModels st)) -> NoDup (names (selectedModels st'))).
Proof.
  unfold BenchmarkUploads.restoreSelectedModels.
  assert (Hfold : forall l s,
    let s' := foldl (fun st model => addModel model st) s l in
    (forall m, m ∈ l -> modelName m ∈ names (selectedModels s'))
    /\ selectedModels s `prefix_of` selectedModels s'
    /\ (forall x, x ∈ selectedModels s' -> x ∈ selectedModels s \/ x ∈ l)
    /\ (NoDup (names (selectedModels s)) -> NoDup (names (selectedModels s')))).
  { induction l as [|m l IH]; intros s; simpl.
    - repeat apply conj;
        [by intros m Hm%elem_of_nil | reflexivity | by left | done].
    - destruct (IH (addModel m s)) as (Hall & Hpre & Hfrom & Hnd).
      repeat apply conj.
      + intros m' [->|Hm']%elem_of_cons; [|by apply Hall].
        destruct Hpre as [k ->]. rewrite names_app, elem_of_app. left.
        apply addModel_holds_name.
      + etrans; [apply addModel_prefix | exact Hpre].
      + intros x Hx. destruct (Hfrom x Hx) as [Hx'|Hx'].
        * destruct (addModel_from m x s Hx') as [?| ->]; [by left|].
          right. apply list_elem_of_here.
        * right. by apply list_elem_of_further.
      + intros Hs. apply Hnd. by apply addModel_NoDup. }
  destruct (Z.ltb_spec 0 (Z.of_nat (length saved))) as [_|Hlen].
  - apply Hfold.
  - destruct saved; [|simpl in Hlen; lia]. simpl.
    repeat apply conj; [by intros m Hm%elem_of_nil | reflexivity | by left | done].
Qed.

(** X5 -- selecting a model in the library toggles it: in a store with
    unique names the clicked name is held afterwards exactly when it was
    not held before, and the entries under every other name are the same
    as before. *)
Theorem handleModelSelect_toggles (st : Store) (model : BenchmarkResult) :
  NoDup (names (selectedModels st)) ->
  let st' := ModelLibraryPage.handleModelSelect JSON_stringify model st in
  (modelName model ∈ names (selectedModels st')
   <-> modelName model ∉ names (selectedModels st))
  /\ List.filter (fun m => negb (JSString.eqb (modelName m) (modelName model)))
                 (selectedModels st')
     = List.filter (fun m => negb (JSString.eqb (modelName m) (modelName model)))
                   (selectedModels st).
Proof.
  intros Hnd. unfold ModelLibraryPage.handleModelSelect.
  destruct (some _ (selectedModels st)) eqn:Hsome; simpl.
  - assert (modelName model ∈ names (selectedModels st)) as Hin.
    { destruct (decide (modelName model ∈ names (selectedModels st))) as [?|Hout];
        [assumption|].
      apply name_test_false, some_false in Hout. congruence. }
    split; [|apply removeModel_filter_other].
    pose proof (removeModel_NoDup (modelName model) st Hnd) as [_ Hgone].
    tauto.
  - apply some_false, name_test_false in Hsome.
    split.
    + pose proof (addModel_holds_name JSON_stringify model st). tauto.
    + rewrite addModel_fresh by assumption. simpl.
      rewrite List.filter_app. simpl. rewrite string_eqb_refl. simpl.
      by rewrite app_nil_r.
Qed.

End StoreMore.


Lemma store_names_stay_unique_witness :
  NoDup (ModelContext.names
           (ModelContext.selectedModels
              (ModelContext.addModel RefJSON.stringify Samples.ResNet50_again
                 Samples.threeModels)))
  /\ NoDup (ModelContext.names
             (ModelContext.selectedModels
                (ModelContext.removeModel RefJSON.stringify "mine.pkl"
                   Samples.threeModels)))
  /\ ("mine.pkl" ∉ ModelContext.names
                    (ModelContext.selectedModels
                       (ModelContext.removeModel RefJSON.stringify "mine.pkl"
                          Samples.threeModels)))
  /\ NoDup (ModelContext.names
             (ModelContext.selectedModels (ModelContext.clearModels Samples.threeModels))).
Proof.
  apply (store_names_stay_unique RefJSON.stringify Samples.threeModels
           Samples.ResNet50_again "mine.pkl").
  among.
Defined.

Lemma removeModel_undoes_addModel_witness :
  ModelContext.selectedModels
    (ModelContext.removeModel RefJSON.stringify "ResNet50"
       (ModelContext.addModel RefJSON.stringify Samples.ResNet50 Samples.emptyStore))
  = []
  /\ getItem
       (ModelContext.localStorage
          (ModelContext.removeModel RefJSON.stringify "ResNet50"
             (ModelContext.addModel RefJSON.stringify Samples.ResNet50
                Samples.emptyStore)))
       "selectedModels"
     = Some (RefJSON.stringify []).
Proof.
  apply (removeModel_undoes_addModel RefJSON.stringify Samples.emptyStore
           Samples.ResNet50).
  apply not_elem_of_nil.
Defined.

Lemma removeModel_keeps_other_names_witness :
  S (length (ModelContext.selectedModels
               (ModelContext.removeModel RefJSON.stringify "mine.pkl"
                  Samples.threeModels)))
  = length (ModelContext.selectedModels Samples.threeModels).
Proof.
  apply (proj2 (removeModel_keeps_other_names RefJSON.stringify Samples.threeModels
                  "mine.pkl")).
  among.
Defined.

Lemma restoreSelectedModels_merges_witness :
  NoDup (ModelContext.names
           (ModelContext.selectedModels
              (BenchmarkUploads.restoreSelectedModels RefJSON.stringify
                 [Samples.ResNet50_again; Samples.modelA; Samples.modelA]
                 Samples.threeModels)))
  /\ "a.pkl" ∈ ModelContext.names
                 (ModelContext.selectedModels
                    (BenchmarkUploads.restoreSelectedModels RefJSON.stringify
                       [Samples.ResNet50_again; Samples.modelA; Samples.modelA]
                       Samples.threeModels)).
Proof.
  pose proof (restoreSelectedModels_merges RefJSON.stringify
                [Samples.ResNet50_again; Samples.modelA; Samples.modelA]
                Samples.threeModels) as (Hall & _ & _ & Hnd).
  split.
  - apply Hnd. among.
  - apply (Hall Samples.modelA). apply list_elem_of_further, list_elem_of_here.
Defined.

Lemma handleModelSelect_toggles_witness :
  ("mine.pkl" ∈ ModelContext.names
                  (ModelContext.selectedModels
                     (ModelLibraryPage.handleModelSelect RefJSON.stringify
                        (Samples.uploaded "mine.pkl" "uploads/mine.pkl")
                        Samples.threeModels))
   <-> "mine.pkl" ∉ ModelContext.names (ModelContext.selectedModels Samples.threeModels)).
Proof.
  apply (handleModelSelect_toggles RefJSON.stringify Samples.threeModels
           (Samples.uploaded "mine.pkl" "uploads/mine.pkl")).
  among.
Defined.

(** ** The two providers on one storage *)

Section ProviderFacts.

Variable JSON_stringify : list BenchmarkResult -> string.
Variable JSON_parse : string -> option (list BenchmarkResult).

Lemma storedPath_other_key (storage : Storage) (v : string) :
  DatasetContext.storedPath (setItem storage "selectedModels" v)
  = DatasetContext.storedPath storage
  /\ DatasetContext.storedPath (removeItem storage "selectedModels")
     = DatasetContext.storedPath storage.
Proof.
  unfold DatasetContext.storedPath, DatasetContext.loadDatasetPath, getItem, setItem,
    removeItem. cbn [DatasetContext.localStorage].
  split; [rewrite !lookup_insert_ne by done | rewrite !lookup_delete_ne by done];
    by destruct (truthy _).
Qed.

Lemma storedModels_other_key (storage : Storage) (v : string) :
  ModelContext.storedModels JSON_parse (setItem storage "datasetPath" v)
  = ModelContext.storedModels JSON_parse storage
  /\ ModelContext.storedModels JSON_parse (removeItem storage "datasetPath")
     = ModelContext.storedModels JSON_parse storage.
Proof.
  unfold ModelContext.storedModels, ModelContext.loadModels, getItem, setItem,
    removeItem. cbn [ModelContext.localStorage].
  split; [rewrite !lookup_insert_ne by done | rewrite !lookup_delete_ne by done];
    (destruct (truthy _); [destruct (JSON_parse _)|]; reflexivity).
Qed.

(** X6 -- the two providers share [localStorage] without disturbing each
    other: no operation of the Result Store changes the dataset path a
    reload would show, and no operation of the dataset context changes
    the collection a reload would read. *)
Theorem providers_keep_to_their_keys
    (st : ModelContext.Store) (p : DatasetContext.Provider)
    (model : BenchmarkResult) (n : string) (file : option File) (path : option string) :
  (DatasetContext.storedPath
     (ModelContext.localStorage (ModelContext.addModel JSON_stringify model st))
   = DatasetContext.storedPath (ModelContext.localStorage st)
   /\ DatasetContext.storedPath
        (ModelContext.localStorage (ModelContext.removeModel JSON_stringify n st))
      = DatasetContext.storedPath (ModelContext.localStorage st)
   /\ DatasetContext.storedPath
        (ModelContext.localStorage (ModelContext.clearModels st))
      = DatasetContext.storedPath (ModelContext.localStorage st))
  /\ (ModelContext.storedModels JSON_parse
        (DatasetContext.localStorage (DatasetContext.setDataset file p))
      = ModelContext.storedModels JSON_parse (DatasetContext.localStorage p)
      /\ ModelContext.storedModels JSON_parse
           (DatasetContext.localStorage (DatasetContext.setDatasetPath path p))
         = ModelContext.storedModels JSON_parse (DatasetContext.localStorage p)
      /\ ModelContext.storedModels JSON_parse
           (DatasetContext.localStorage (DatasetContext.clearDataset p))
         = ModelContext.storedModels JSON_parse (DatasetContext.localStorage p)).
Proof.
  repeat apply conj.
  - unfold ModelContext.addModel. destruct (some _ _); [reflexivity|].
    cbn [ModelContext.localStorage]. apply storedPath_other_key.
  - unfold ModelContext.removeModel. destruct (_ =? _); [reflexivity|].
    cbn [ModelContext.localStorage]. apply storedPath_other_key.
  - unfold ModelContext.clearModels. cbn [ModelContext.localStorage].
    apply (storedPath_other_key _ "").
  - unfold DatasetContext.setDataset. cbn [DatasetContext.localStorage].
    destruct (negb _); [apply (storedModels_other_key _ "") | reflexivity].
  - unfold DatasetContext.setDatasetPath. cbn [DatasetContext.localStorage].
    destruct (truthy path); apply (storedModels_other_key _ (default "" path)).
  - unfold DatasetContext.clearDataset. cbn [DatasetContext.localStorage].
    apply (storedModels_other_key _ "").
Qed.

End ProviderFacts.

(** ** Dataset context *)

Section DatasetContextFacts.

Import DatasetContext.

(** X7 -- a dataset path survives a reload: after [setDatasetPath] with a
    non-empty path a freshly mounted provider shows that path, and after
    [setDatasetPath(null)] or [clearDataset] it shows none.
    [setDataset(null)] also drops the persisted path, yet leaves the path
    held in memory as it was, and [setDataset] with a file does not touch
    the storage. *)
Theorem datasetPath_survives_reload (p : Provider) (path : option string) :
  path <> Some "" ->
  storedPath (localStorage (setDatasetPath path p)) = path
  /\ storedPath (localStorage (clearDataset p)) = None
  /\ (storedPath (localStorage (setDataset None p)) = None
      /\ datasetPath (setDataset None p) = datasetPath p)
  /\ (forall f, localStorage (setDataset (Some f) p) = localStorage p).
Proof.
  intros Hne.
  unfold storedPath, loadDatasetPath, setDatasetPath, clearDataset, setDataset,
    getItem, setItem, removeItem.
  simpl. repeat apply conj; try reflexivity.
  - destruct path as [s|]; simpl.
    + destruct (string_eqb_spec s "") as [->|Hs]; [contradiction|]. simpl.
      rewrite lookup_insert_eq. simpl.
      destruct (string_eqb_spec s "") as [->|_]; [contradiction | reflexivity].
    + by rewrite lookup_delete_eq.
  - by rewrite lookup_delete_eq.
  - by rewrite lookup_delete_eq.
Qed.

End DatasetContextFacts.

Lemma datasetPath_survives_reload_witness :
  DatasetContext.storedPath
    (DatasetContext.localStorage
       (DatasetContext.setDatasetPath (Some "uploads/datasets/iris.csv")
          MoreSamples.unmounted))
  = Some "uploads/datasets/iris.csv".
Proof.
  apply (datasetPath_survives_reload MoreSamples.unmounted
           (Some "uploads/datasets/iris.csv")).
  discriminate.
Defined.

(** ** Client API *)

Section ApiFacts.

Variable fetch : string -> Api.FormData -> completion Api.Response.

(** X8 -- [api.uploadModel] turns every failure into a result:
    either the result has no error, and then its file path is not empty
    and is the one an [ok] JSON response carried, or it has an error,
    and then its file path is empty and its message is
    [Upload failed]. *)
Theorem uploadModel_outcome (formData : Api.FormData) :
  let result := Api.uploadModel fetch formData in
  (Api.result_error result = None /\ Api.result_filepath result <> "" /\
   exists response data,
     fetch (Api.API_BASE_URL +:+ "/upload/model") formData = Returned response /\
     Api.ok response = true /\ Api.json response = Returned data /\
     Api.filepath data = Some (Api.result_filepath result))
  \/ (exists msg,
        Api.result_error result = Some msg /\ Api.result_filepath result = "" /\
        Api.result_message result = "Upload failed").
Proof.
  unfold Api.uploadModel, Api.uploadModel_try.
  destruct (fetch _ formData) as [response|msg] eqn:Hfetch; [|right; by eexists].
  destruct (truthy (Api.content_type response) && _); [|right; by eexists].
  destruct (Api.json response) as [data|msg] eqn:Hjson; [|right; by eexists].
  destruct (Api.ok response) eqn:Hok; [|right; by eexists].
  destruct (Api.filepath data) as [path|] eqn:Hpath; [|right; by eexists].
  simpl. destruct (string_eqb_spec path "") as [->|Hne]; [right; by eexists|].
  simpl. left. repeat split; [assumption|].
  exists response, data. by rewrite Hpath.
Qed.

End ApiFacts.

(** ** Model selection page *)

Section ModelSelectionFacts.

Variable JSON_stringify : list BenchmarkResult -> string.
Variable fetch : string -> Api.FormData -> completion Api.Response.

(** X9 -- the model selection page selects a model whether or not its
    upload worked: after [handleModelUpload] the page shows no error and
    the store holds the file's name; when the request fails and the name
    is new, the entry added has the empty string for its model id. *)
Theorem selection_page_adds_after_failed_upload
    (file : File) (Date_iso msg : string)
    (pg : ModelSelectionPage.Page) (st : ModelContext.Store) :
  fetch (Api.API_BASE_URL +:+ "/upload/model") [("model", Api.file_value file)]
  = Threw msg ->
  name file ∉ ModelContext.names (ModelContext.selectedModels st) ->
  let '(pg', st') :=
    ModelSelectionPage.handleModelUpload JSON_stringify fetch (Some file) Date_iso pg st in
  ModelSelectionPage.error pg' = None
  /\ ModelSelectionPage.loading pg' = false
  /\ ModelContext.selectedModels st'
     = ModelContext.selectedModels st
       ++ [mkBenchmarkResult (name file) (Some "")
             [("accuracy", 0%float); ("precision", 0%float); ("recall", 0%float);
              ("f1Score", 0%float); ("latency", 0%float); ("throughput", 0%float);
              ("memoryUsage", 0%float); ("modelSize", 0%float)]
             Date_iso None None].
Proof.
  intros Hfetch Hfresh. unfold ModelSelectionPage.handleModelUpload.
  repeat split.
  rewrite addModel_fresh by exact Hfresh. simpl.
  unfold ModelSelectionPage.newModel, Api.uploadModel, Api.uploadModel_try.
  by rewrite Hfetch.
Qed.

End ModelSelectionFacts.

Lemma selection_page_adds_after_failed_upload_witness :
  ModelContext.names
    (ModelContext.selectedModels
       (ModelSelectionPage.handleModelUpload RefJSON.stringify
          MoreSamples.unreachableServer (Some Samples.model_pkl)
          "2024-03-01T09:05:00.000Z" (ModelSelectionPage.mkPage None false)
          Samples.emptyStore).2)
  = ["model.pkl"]
  /\ modelId <$>
       ModelContext.selectedModels
         (ModelSelectionPage.handleModelUpload RefJSON.stringify
            MoreSamples.unreachableServer (Some Samples.model_pkl)
            "2024-03-01T09:05:00.000Z" (ModelSelectionPage.mkPage None false)
            Samples.emptyStore).2
     = [Some ""].
Proof.
  pose proof (selection_page_adds_after_failed_upload RefJSON.stringify
                MoreSamples.unreachableServer Samples.model_pkl
                "2024-03-01T09:05:00.000Z" "Failed to fetch"
                (ModelSelectionPage.mkPage None false) Samples.emptyStore
                eq_refl (not_elem_of_nil _)) as H.
  destruct (ModelSelectionPage.handleModelUpload _ _ _ _ _ _) as [pg' st'].
  destruct H as (_ & _ & H). simpl. rewrite H. split; reflexivity.
Defined.

(** ** Upload handlers of the benchmark page *)

Section BenchmarkUploadFacts.

Variable platform : Platform.

Lemma length_drop_chars (n : nat) (s : string) :
  JSString.length (drop_chars n s) = (JSString.length s - n)%nat.
Proof.
  revert s. induction n as [|n IH]; intros [|c s]; simpl; done.
Qed.

(** The page cuts the lowered name at the index at which the name
    itself has its last dot. *)
Lemma benchmark_fileExtension_dotted (file : File) (stem ext : string) :
  name file = stem +:+ "." +:+ ext ->
  includes_char ext "." = false ->
  BenchmarkUploads.fileExtension platform file
  = drop_chars (JSString.length stem) (toLowerCase platform (name file)).
Proof.
  intros Hname Hext. unfold BenchmarkUploads.fileExtension, JSText.slice.
  generalize (toLowerCase platform (name file)). intros lowered.
  rewrite Hname, app_dot. unfold lastIndexOf.
  rewrite lastIndexOf_from_last by assumption.
  destruct (Z.ltb_spec (0 + Z.of_nat (JSString.length stem)) 0) as [Hneg|_]; [lia|].
  f_equal. lia.
Qed.

(** Of a name without a dot the page looks at the last character of the
    lowered name. *)
Lemma benchmark_fileExtension_dotless (file : File) :
  includes_char (name file) "." = false ->
  (JSString.length (BenchmarkUploads.fileExtension platform file) <= 1)%nat.
Proof.
  intros Hfree. unfold BenchmarkUploads.fileExtension, JSText.slice, lastIndexOf.
  rewrite lastIndexOf_from_free by assumption.
  change (-1 <? 0) with true. cbv iota.
  rewrite length_drop_chars. lia.
Qed.

Lemma benchmark_rejects (JSON_stringify : list BenchmarkResult -> string)
    (fetch : string -> Api.FormData -> completion Api.Response)
    (file : File) (Date_iso : string)
    (b : BenchmarkUploads.Banner) (st : ModelContext.Store) :
  (BenchmarkUploads.fileExtension platform file ∉ BenchmarkUploads.validExtensions) ->
  BenchmarkUploads.handleModelUpload platform JSON_stringify fetch (Some file) Date_iso b st
  = (BenchmarkUploads.mkBanner (BenchmarkUploads.loading b)
       (Some "Invalid file format. Supported formats: .h5, .pt, .pth, .onnx, .pkl")
       (BenchmarkUploads.successMessage b), st).
Proof.
  intros Hout. unfold BenchmarkUploads.handleModelUpload.
  destruct (JS.includes _ _) eqn:Hinc; [|reflexivity].
  apply includes_cases in Hinc. contradiction.
Qed.

Variable JSON_stringify : list BenchmarkResult -> string.
Variable fetch : string -> Api.FormData -> completion Api.Response.

(** X10 -- the benchmark page's check of a model file.  A name without a
    dot is refused.  Of a name [stem.ext], [ext] being the text after the
    last dot, the page compares the lowered name, cut at the index of
    that dot in the name as given; where lowering keeps the length of
    [stem] and lowers [stem] and [.ext] each by itself (as it does on
    ASCII names), this is [.ext] lowered: outside [.h5], [.pt], [.pth],
    [.onnx], [.pkl] the file is refused with the format message, inside
    and over 1024^3 bytes with the size message, in both cases whatever
    the network would do and without a change to the store; for a file
    with an extension inside the set the form carries the file and the
    content type of its extension. *)
Theorem benchmark_model_validation
    (file : File) (stem ext : string) (Date_iso : string)
    (b : BenchmarkUploads.Banner) (st : ModelContext.Store) :
  let invalidFormat :=
    "Invalid file format. Supported formats: .h5, .pt, .pth, .onnx, .pkl" in
  (includes_char (name file) "." = false ->
   BenchmarkUploads.handleModelUpload platform JSON_stringify fetch (Some file)
     Date_iso b st
   = (BenchmarkUploads.mkBanner (BenchmarkUploads.loading b) (Some invalidFormat)
        (BenchmarkUploads.successMessage b), st))
  /\ (name file = stem +:+ "." +:+ ext ->
      includes_char ext "." = false ->
      toLowerCase platform (name file)
      = toLowerCase platform stem +:+ toLowerCase platform ("." +:+ ext) ->
      JSString.length (toLowerCase platform stem) = JSString.length stem ->
      let extension := toLowerCase platform ("." +:+ ext) in
      ((extension ∉ [".h5"; ".pt"; ".pth"; ".onnx"; ".pkl"]) ->
       BenchmarkUploads.handleModelUpload platform JSON_stringify fetch (Some file)
         Date_iso b st
       = (BenchmarkUploads.mkBanner (BenchmarkUploads.loading b) (Some invalidFormat)
            (BenchmarkUploads.successMessage b), st))
      /\ (extension ∈ [".h5"; ".pt"; ".pth"; ".onnx"; ".pkl"] ->
          size file > 1024 * 1024 * 1024 ->
          BenchmarkUploads.handleModelUpload platform JSON_stringify fetch (Some file)
            Date_iso b st
          = (BenchmarkUploads.mkBanner (BenchmarkUploads.loading b)
               (Some "File size exceeds limit (max 1GB)")
               (BenchmarkUploads.successMessage b), st))
      /\ (extension ∈ [".h5"; ".pt"; ".pth"; ".onnx"; ".pkl"] ->
          BenchmarkUploads.formData platform file
          = [("file", Api.file_value file);
             ("content_type",
              Api.text_value (if bool_decide (extension = ".h5")
                              then "application/x-hdf"
                              else "application/octet-stream"))])).
Proof.
  intros invalidFormat. subst invalidFormat. split.
  - intros Hfree. apply benchmark_rejects. intros Hin.
    pose proof (benchmark_fileExtension_dotless file Hfree) as Hlen.
    unfold BenchmarkUploads.validExtensions in Hin.
    rewrite !elem_of_cons, elem_of_nil in Hin.
    destruct Hin as [H | [H | [H | [H | [H | []]]]]]; rewrite H in Hlen;
      simpl in Hlen; lia.
  - intros Hname Hext Hlow Hlen extension. subst extension.
    assert (BenchmarkUploads.fileExtension platform file
            = toLowerCase platform ("." +:+ ext)) as Hfe.
    { rewrite (benchmark_fileExtension_dotted file stem ext Hname Hext).
      rewrite Hlow, <- Hlen. apply drop_chars_app. }
    repeat apply conj.
    + intros Hout. apply benchmark_rejects. by rewrite Hfe.
    + intros Hin Hbig.
      unfold BenchmarkUploads.handleModelUpload, BenchmarkUploads.maxSize,
        BenchmarkUploads.validExtensions.
      rewrite Hfe. apply includes_cases in Hin. rewrite Hin. simpl negb. cbv iota.
      destruct (Z.gtb_spec (size file) (1024 * 1024 * 1024)); [reflexivity | lia].
    + intros Hin. unfold BenchmarkUploads.formData. rewrite Hfe.
      rewrite !elem_of_cons, elem_of_nil in Hin.
      destruct Hin as [-> | [-> | [-> | [-> | [-> | []]]]]]; reflexivity.
Qed.

(** Where lowering lengthens [stem], the cut falls before the dot: the
    capital I with a dot above (U+0130) becomes [i] and a combining dot
    (U+0307), so the page looks at the four letters [.pkl] with a
    combining dot in front and refuses the file. *)
Lemma lengthening_letter_shifts_the_cut
    (file : File) (Date_iso : string)
    (b : BenchmarkUploads.Banner) (st : ModelContext.Store) :
  name file = String 304%N ".pkl" ->
  toLowerCase platform (name file) = String 105%N (String 775%N ".pkl") ->
  BenchmarkUploads.handleModelUpload platform JSON_stringify fetch (Some file) Date_iso b st
  = (BenchmarkUploads.mkBanner (BenchmarkUploads.loading b)
       (Some "Invalid file format. Supported formats: .h5, .pt, .pth, .onnx, .pkl")
       (BenchmarkUploads.successMessage b), st).
Proof.
  intros Hname Hlow. apply benchmark_rejects.
  unfold BenchmarkUploads.fileExtension. rewrite Hlow, Hname.
  apply (bool_decide_unpack _). vm_compute. exact I.
Qed.

Lemma uploadModel_cases (formData : Api.FormData) :
  let result := Api.uploadModel fetch formData in
  (Api.result_error result = None /\ Api.result_filepath result <> "" /\
   exists response data,
     fetch (Api.API_BASE_URL +:+ "/upload/model") formData = Returned response /\
     Api.ok response = true /\ Api.json response = Returned data /\
     Api.filepath data = Some (Api.result_filepath result))
  \/ (exists msg,
        Api.result_error result = Some msg /\ Api.result_filepath result = "" /\
        Api.result_message result = "Upload failed").
Proof.
  unfold Api.uploadModel, Api.uploadModel_try.
  destruct (fetch _ formData) as [response|msg] eqn:Hfetch; [|right; by eexists].
  destruct (truthy (Api.content_type response) && _); [|right; by eexists].
  destruct (Api.json response) as [data|msg] eqn:Hjson; [|right; by eexists].
  destruct (Api.ok response) eqn:Hok; [|right; by eexists].
  destruct (Api.filepath data) as [path|] eqn:Hpath; [|right; by eexists].
  simpl. destruct (string_eqb_spec path "") as [->|Hne]; [right; by eexists|].
  simpl. left. repeat split; [assumption|].
  exists response, data. by rewrite Hpath.
Qed.

(** X11 -- on the benchmark page the store changes only through a
    successful upload: either the store is exactly as before and the page
    shows an error, or the page shows the success message and the store
    is the old one with [addModel] applied to the new entry, whose model
    id is the non-empty file path that an [ok] JSON response carried and
    whose model size is the size of the file. *)
Theorem benchmark_upload_store_effect
    (file : File) (Date_iso : string)
    (b : BenchmarkUploads.Banner) (st : ModelContext.Store) :
  let '(b', st') :=
    BenchmarkUploads.handleModelUpload platform JSON_stringify fetch (Some file)
      Date_iso b st in
  (st' = st /\ BenchmarkUploads.error b' <> None)
  \/ (BenchmarkUploads.error b' = None
      /\ BenchmarkUploads.loading b' = false
      /\ BenchmarkUploads.successMessage b' = Some ("Successfully uploaded " +:+ name file)
      /\ exists path response data,
           path <> ""
           /\ st' = ModelContext.addModel JSON_stringify
                      (BenchmarkUploads.newModel file path Date_iso) st
           /\ fetch (Api.API_BASE_URL +:+ "/upload/model")
                (BenchmarkUploads.formData platform file)
              = Returned response
           /\ Api.ok response = true /\ Api.json response = Returned data
           /\ Api.filepath data = Some path).
Proof.
  unfold BenchmarkUploads.handleModelUpload.
  destruct (negb _); [by left|].
  destruct (_ >? _); [by left|].
  unfold BenchmarkUploads.uploadedModel.
  destruct (uploadModel_cases (BenchmarkUploads.formData platform file))
    as [(Herr & Hpath & response & data & Hfetch & Hok & Hjson & Hfp)
       | (msg & Herr & Hpath & _)].
  - rewrite Herr. simpl.
    destruct (string_eqb_spec (Api.result_filepath
                (Api.uploadModel fetch (BenchmarkUploads.formData platform file))) "")
      as [He|_]; [contradiction|].
    simpl. right. repeat split.
    exists (Api.result_filepath
              (Api.uploadModel fetch (BenchmarkUploads.formData platform file))),
      response, data.
    by repeat split.
  - rewrite Herr, Hpath. simpl.
    destruct (JSString.eqb msg ""); simpl; by left.
Qed.

End BenchmarkUploadFacts.

Lemma benchmark_model_validation_witness :
  BenchmarkUploads.handleModelUpload Samples.platform RefJSON.stringify
    MoreSamples.storingServer (Some Samples.notes_txt) "2024-03-01T09:05:00.000Z"
    MoreSamples.quiet Samples.emptyStore
  = (BenchmarkUploads.mkBanner false
       (Some "Invalid file format. Supported formats: .h5, .pt, .pth, .onnx, .pkl")
       None, Samples.emptyStore)
  /\ BenchmarkUploads.formData Samples.platform Samples.weights_h5
     = [("file", Api.file_value Samples.weights_h5);
        ("content_type", Api.text_value "application/x-hdf")].
Proof.
  split.
  - apply (proj1 (proj2 (benchmark_model_validation Samples.platform RefJSON.stringify
                           MoreSamples.storingServer Samples.notes_txt "notes" "txt"
                           "2024-03-01T09:05:00.000Z" MoreSamples.quiet
                           Samples.emptyStore)
                    eq_refl eq_refl eq_refl eq_refl)).
    not_among.
  - apply (proj2 (proj2 (proj2 (benchmark_model_validation Samples.platform
                                  RefJSON.stringify MoreSamples.storingServer
                                  Samples.weights_h5 "weights" "h5"
                                  "2024-03-01T09:05:00.000Z" MoreSamples.quiet
                                  Samples.emptyStore)
                           eq_refl eq_refl eq_refl eq_refl))).
    among.
Defined.

(** ** Dataset upload against the dataset route *)

Section DatasetRouteFacts.

Variable platform : Platform.
Variable UPLOADS_DIR : string.



End DatasetRouteFacts.


(** ** Dataset uploader: what it reports *)

Section UploaderFacts.

Variable platform : Platform.
Variable props : DatasetUploader.Props.
Variable fetch : string -> File -> completion DatasetUploader.Response.


End UploaderFacts.

(** The benchmark page mounts the uploader with [onDatasetSelect] alone:
    there no run makes a callback. *)
Lemma mounted_uploader_makes_no_callback
    (platform : Platform) (fetch : string -> File -> completion DatasetUploader.Response)
    (file : option File) (st : DatasetUploader.State) :
  Forall (fun e => match e with
                   | DatasetUploader.onUploadError _
                   | DatasetUploader.onUploadSuccess _ => False
                   | _ => True
                   end)
         (DatasetUploader.handleDatasetUpload platform Samples.mounted fetch file st).2.
Proof.
  unfold DatasetUploader.handleDatasetUpload, DatasetUploader.upload,
    DatasetUploader.call_onUploadError, DatasetUploader.call_onUploadSuccess.
  destruct file as [f|]; [|by repeat constructor].
  destruct (negb (JS.includes _ _)); [by repeat constructor|].
  destruct (fetch DatasetUploader.apiUrl f) as [response|msg];
    [|by repeat constructor].
  destruct (DatasetUploader.json response) as [data|msg]; [|by repeat constructor].
  destruct (DatasetUploader.ok response); by repeat constructor.
Qed.

(** ** Simulated evaluation: utils/modelEvaluation.ts *)

Section ModelEvaluationFacts.

Variable env : Env.

Lemma generateDummyKFoldResults_from_runs (n : nat) (i0 : Z) (w : World) :
  exists rs,
    ModelEvaluation.generateDummyKFoldResults_from env i0 n w
    = (Returned rs,
       mkWorld (4 * n + draws w) (date_reads w) (requests w) (console_error w))
    /\ ModelEvaluation.fold <$> rs = seqZ (i0 + 1) (Z.of_nat n).
Proof.
  revert i0 w. induction n as [|n IH]; intros i0 w.
  - exists []. split; [by destruct w | reflexivity].
  - cbn [ModelEvaluation.generateDummyKFoldResults_from].
    unfold bind at 1 2 3 4 5. unfold Math_random at 1 2 3 4.
    cbn [draws date_reads requests console_error].
    destruct (IH (i0 + 1) (mkWorld (S (S (S (S (draws w))))) (date_reads w)
                             (requests w) (console_error w))) as (rs & Hrun & Hfold).
    rewrite Hrun. cbn [draws date_reads requests console_error].
    eexists. split.
    + unfold ret. do 2 f_equal. lia.
    + rewrite fmap_cons. cbn [ModelEvaluation.fold]. rewrite Hfold.
      rewrite (seqZ_cons (i0 + 1) (Z.of_nat (S n))) by lia.
      do 2 f_equal; lia.
Qed.

Lemma generateDummyMetrics_runs (isBuiltInModel : bool) (w : World) :
  exists m,
    ModelEvaluation.generateDummyMetrics env isBuiltInModel w
    = (Returned m,
       mkWorld (6 + draws w) (date_reads w) (requests w) (console_error w)).
Proof.
  unfold ModelEvaluation.generateDummyMetrics, bind, Math_random, ret.
  cbn [draws date_reads requests console_error]. by eexists.
Qed.

(** X14 -- [generateDummyKFoldResults(k)] returns [k] results whose fold
    numbers are 1, 2, ..., k in this order, and costs four draws of
    [Math.random()] per fold and nothing else. *)
Theorem kfold_results_are_numbered (k : nat) (w : World) :
  exists rs,
    ModelEvaluation.generateDummyKFoldResults env k w
    = (Returned rs,
       mkWorld (4 * k + draws w) (date_reads w) (requests w) (console_error w))
    /\ length rs = k
    /\ ModelEvaluation.fold <$> rs = seqZ 1 (Z.of_nat k).
Proof.
  destruct (generateDummyKFoldResults_from_runs k 0 w) as (rs & Hrun & Hfold).
  exists rs. repeat split; [exact Hrun | | exact Hfold].
  apply (f_equal length) in Hfold.
  rewrite length_fmap, length_seqZ in Hfold. lia.
Qed.

Lemma evaluateModel_runs (model dataset : File) (isBuiltInModel : bool) (w : World) :
  exists r,
    ModelEvaluation.evaluateModel env model dataset isBuiltInModel w
    = (Returned r,
       mkWorld (26 + draws w) (date_reads w) (requests w) (console_error w))
    /\ ModelEvaluation.isSimulated r = true
    /\ ModelEvaluation.fold <$> ModelEvaluation.kFoldResults r = [1; 2; 3; 4; 5].
Proof.
  destruct (generateDummyMetrics_runs isBuiltInModel w) as (m & Hm).
  destruct (generateDummyKFoldResults_from_runs 5 0
              (mkWorld (6 + draws w) (date_reads w) (requests w) (console_error w)))
    as (rs & Hrs & Hfold).
  cbn [draws date_reads requests console_error] in Hrs.
  exists (ModelEvaluation.mkModelEvaluationResult m rs true).
  split; [|split; [reflexivity | exact Hfold]].
  unfold ModelEvaluation.evaluateModel, ModelEvaluation.generateDummyKFoldResults.
  destruct isBuiltInModel.
  - unfold bind at 1. rewrite Hm. unfold bind at 1. rewrite Hrs. reflexivity.
  - unfold try_catch. unfold bind at 1. rewrite Hm. unfold bind at 1. rewrite Hrs.
    reflexivity.
Qed.

(** X15 -- [evaluateModel] never fails and never looks at its files:
    for a built-in and for a custom model alike it returns a result
    marked [isSimulated], with five folds numbered 1 to 5, after exactly
    26 draws of [Math.random()]; it sends no request and logs nothing
    (its [catch] is never entered), and any other pair of files gives the
    same outcome. *)
Theorem evaluateModel_is_always_simulated
    (model dataset model' dataset' : File) (isBuiltInModel : bool) (w : World) :
  (exists r,
     ModelEvaluation.evaluateModel env model dataset isBuiltInModel w
     = (Returned r,
        mkWorld (26 + draws w) (date_reads w) (requests w) (console_error w))
     /\ ModelEvaluation.isSimulated r = true
     /\ ModelEvaluation.fold <$> ModelEvaluation.kFoldResults r = [1; 2; 3; 4; 5])
  /\ ModelEvaluation.evaluateModel env model' dataset' isBuiltInModel w
     = ModelEvaluation.evaluateModel env model dataset isBuiltInModel w.
Proof.
  split; [apply evaluateModel_runs | reflexivity].
Qed.

(** X16 -- [runComparison] does nothing without a model or a first
    dataset.  With both it never shows its error message: processing
    ends, the error is null, the first dataset's result is there and
    simulated, the second dataset's result is there exactly when a
    second dataset is, and each evaluation costs 26 draws. *)
Theorem runComparison_outcome (pg : ComparisonRun.Page) (w : World) :
  match ComparisonRun.model pg, ComparisonRun.dataset1 pg with
  | Some _, Some _ =>
      exists r1 r2,
        ComparisonRun.runComparison env pg w
        = (Returned
             (ComparisonRun.mkPage (ComparisonRun.model pg) (ComparisonRun.dataset1 pg)
                (ComparisonRun.dataset2 pg) false None (ComparisonRun.isBuiltInModel pg)
                (ComparisonRun.mkResults (Some r1) r2)),
           mkWorld (match ComparisonRun.dataset2 pg with Some _ => 52 | None => 26 end
                    + draws w)
                   (date_reads w) (requests w) (console_error w))
        /\ ModelEvaluation.isSimulated r1 = true
        /\ (r2 = None <-> ComparisonRun.dataset2 pg = None)
        /\ (forall r, r2 = Some r -> ModelEvaluation.isSimulated r = true)
  | _, _ => ComparisonRun.runComparison env pg w = (Returned pg, w)
  end.
Proof.
  unfold ComparisonRun.runComparison.
  destruct (ComparisonRun.model pg) as [m|]; [|reflexivity].
  destruct (ComparisonRun.dataset1 pg) as [d1|]; [|reflexivity].
  destruct (evaluateModel_runs m d1 (ComparisonRun.isBuiltInModel pg) w)
    as (r1 & Hr1 & Hsim1 & _).
  unfold try_catch. unfold bind at 1. rewrite Hr1.
  destruct (ComparisonRun.dataset2 pg) as [d2|].
  - destruct (evaluateModel_runs m d2 (ComparisonRun.isBuiltInModel pg)
                (mkWorld (26 + draws w) (date_reads w) (requests w) (console_error w)))
      as (r2 & Hr2 & Hsim2 & _).
    cbn [draws date_reads requests console_error] in Hr2.
    unfold bind at 1. unfold bind at 1. rewrite Hr2.
    exists r1, (Some r2). repeat split; try done.
    by intros r [= <-].
  - exists r1, None. repeat split; try done.
Qed.

End ModelEvaluationFacts.

(** ** The upload routes *)

Section RouteFacts.

Lemma has_extension_nonempty (platform : Platform) (ext filename : string) :
  toLowerCase platform "" = "" ->
  ext <> "" -> has_extension platform ext filename -> filename <> "".
Proof.
  intros Hempty Hext [stem Hstem] ->. rewrite Hempty in Hstem.
  destruct stem; simpl in Hstem; [by subst ext | discriminate].
Qed.

Lemma truthy_Some_nonempty (s : string) : s <> "" -> truthy (Some s) = true.
Proof. destruct s; [done | reflexivity]. Qed.

Variable platform : Platform.
Variable UPLOADS_DIR : string.

(** X17 -- the model route on a POST that carries a file part (a part
    with a content type) under its field.  An empty part and a part over
    500 MB are answered 500 with the parser's message, and nothing is
    stored.  Of any other part the name decides: if it ends, lowered, in
    [.pkl], the answer is 200 with the model's info, whose id is the
    clock reading, and the file is moved from its staging path to
    [<uploads>/<id>.pkl]; otherwise the answer is 400 or 500 and the
    staged file is left where formidable wrote it. *)
Theorem model_route_outcome
    (req : Request) (part : Formidable.Part) (Date_now : N) (Date_iso : string)
    (fs : FileSystem) :
  method req = "POST" ->
  file_part req = Some part ->
  truthy (Formidable.mimetype part) = true ->
  let size := Z.of_nat (length (Formidable.content part)) in
  let '(response, fs') := UploadModel.handler platform UPLOADS_DIR req Date_now Date_iso fs in
  (size = 0 ->
   response
   = UploadModel.mkResponse 500
       (UploadModel.error_body
          ("Upload failed: "
           +:+ formidable_message platform Formidable.emptyFile (500 * 1024 * 1024) part))
   /\ fs' = fs)
  /\ (size > 500 * 1024 * 1024 ->
      response
      = UploadModel.mkResponse 500
          (UploadModel.error_body
             ("Upload failed: "
              +:+ formidable_message platform Formidable.fileTooLarge
                    (500 * 1024 * 1024) part))
      /\ fs' = fs)
  /\ (0 < size <= 500 * 1024 * 1024 ->
      (exists name_,
         Formidable.originalFilename part = Some name_
         /\ name_ <> ""
         /\ has_extension platform ".pkl" name_
         /\ response
            = UploadModel.mkResponse 200
                (UploadModel.model_body
                   (ModelHandler.mkModelInfo (toString Date_now) name_ ModelHandler.pkl
                      size Date_iso "gpt-4"))
         /\ fs' = <[UPLOADS_DIR +:+ "/" +:+ toString Date_now +:+ ".pkl"
                    := Formidable.content part]>
                    (delete (Formidable.staging part) fs))
      \/ ((forall name_, Formidable.originalFilename part = Some name_ ->
                         name_ <> "" -> ~ has_extension platform ".pkl" name_)
          /\ (UploadModel.status response = 400 \/ UploadModel.status response = 500)
          /\ fs' = <[Formidable.staging part := Formidable.content part]> fs)).
Proof.
  intros Hpost Hpart Htype size. subst size.
  unfold UploadModel.handler, Formidable.parse.
  rewrite Hpost, Hpart, Htype. simpl negb. cbv iota.
  destruct (Z.eqb_spec (Z.of_nat (length (Formidable.content part))) 0) as [Hzero|Hpos].
  { repeat apply conj; [done | lia | lia]. }
  destruct (Z.gtb_spec (Z.of_nat (length (Formidable.content part))) (500 * 1024 * 1024))
    as [Hbig|Hfits].
  { repeat apply conj; [lia | done | lia]. }
  cbn [Formidable.pf_originalFilename Formidable.filepath Formidable.pf_mimetype
       Formidable.pf_size].
  destruct (Formidable.originalFilename part) as [name_|] eqn:Hname.
  2:{ repeat apply conj; [lia | lia |]. intros _. right. simpl.
      repeat split; [discriminate | by left]. }
  destruct (truthy (Some name_)) eqn:Htruthy; simpl negb; cbv iota.
  2:{ repeat apply conj; [lia | lia |]. intros _. right.
      repeat split; [|by left].
      intros n [= <-] Hne. by rewrite (truthy_Some_nonempty name_ Hne) in Htruthy. }
  rewrite lookup_insert_eq.
  change (default "" (Some name_)) with name_.
  unfold ModelHandler.validateModelFile, File_of, ModelHandler.maxSize.
  cbn [name size].
  destruct (endsWith (toLowerCase platform name_) ".pkl") eqn:Hends; simpl negb; cbv iota.
  2:{ repeat apply conj; [lia | lia |]. intros _. right.
      repeat split; [|by right].
      intros n [= <-] _ Hext%has_extension_endsWith. congruence. }
  destruct (Z.gtb_spec (Z.of_nat (length (Formidable.content part))) (500 * 1024 * 1024))
    as [Hbig|_]; [lia|].
  cbn [ModelHandler.id]. unfold rename. rewrite lookup_insert_eq.
  repeat apply conj; [lia | lia |]. intros _. left. exists name_. repeat split.
  - by destruct name_.
  - by apply has_extension_endsWith.
  - by rewrite delete_insert_eq.
Qed.

(** X18 -- the dataset route on a POST that carries a part under its
    field.  A part without a content type and a part the filter turns
    down (no name, or an extension that, lowered, is none of [.csv],
    [.xlsx], [.xls]) are answered 400 [No file part], and nothing is
    written; of the parts the filter lets through, an empty one and one
    over 100 MB are answered 500 with the parser's message, and nothing
    is stored; any other is answered 200 with the clock reading as id
    and [dataset_<id><ext>] as file name, [ext] being the extension as
    the client wrote it, and is moved to that name under the upload
    directory. *)
Theorem dataset_route_outcome
    (req : Request) (part : Formidable.Part) (Date_now : N) (Date_iso : string)
    (fs : FileSystem) :
  method req = "POST" ->
  file_part req = Some part ->
  let size := Z.of_nat (length (Formidable.content part)) in
  let taken :=
    truthy (Formidable.mimetype part) && UploadDataset.filter platform part in
  let '(response, fs') :=
    UploadDataset.handler platform UPLOADS_DIR req Date_now Date_iso fs in
  (taken = false ->
   response = UploadDataset.mkResponse 400 (UploadDataset.error_body "No file part")
   /\ fs' = fs)
  /\ (taken = true -> size = 0 ->
      response
      = UploadDataset.mkResponse 500
          (UploadDataset.error_body
             (formidable_message platform Formidable.emptyFile (100 * 1024 * 1024) part))
      /\ fs' = fs)
  /\ (taken = true -> size > 100 * 1024 * 1024 ->
      response
      = UploadDataset.mkResponse 500
          (UploadDataset.error_body
             (formidable_message platform Formidable.fileTooLarge
                (100 * 1024 * 1024) part))
      /\ fs' = fs)
  /\ (taken = true -> 0 < size <= 100 * 1024 * 1024 ->
      exists name_,
        Formidable.originalFilename part = Some name_
        /\ toLowerCase platform (path_extname platform name_)
           ∈ [".csv"; ".xlsx"; ".xls"]
        /\ response
           = UploadDataset.mkResponse 200
               (UploadDataset.dataset_body
                  (UploadDataset.mkDatasetInfo (toString Date_now)
                     ("dataset_" +:+ toString Date_now +:+ path_extname platform name_)
                     name_ size (Formidable.mimetype part) Date_iso))
        /\ fs' = <[UPLOADS_DIR +:+ "/" +:+ "dataset_" +:+ toString Date_now
                     +:+ path_extname platform name_
                   := Formidable.content part]>
                   (delete (Formidable.staging part) fs)).
Proof.
  intros Hpost Hpart size taken. subst size taken.
  unfold UploadDataset.handler, Formidable.parse.
  rewrite Hpost, Hpart. simpl negb. cbv iota.
  destruct (truthy (Formidable.mimetype part)); simpl negb; simpl andb; cbv iota.
  2:{ repeat split; discriminate. }
  destruct (UploadDataset.filter platform part) eqn:Hfilter; simpl negb; cbv iota.
  2:{ repeat split; discriminate. }
  destruct (Z.eqb_spec (Z.of_nat (length (Formidable.content part))) 0) as [Hzero|Hpos].
  { repeat apply conj; [discriminate | done | intros; lia | intros; lia]. }
  destruct (Z.gtb_spec (Z.of_nat (length (Formidable.content part))) (100 * 1024 * 1024))
    as [Hbig|Hfits].
  { repeat apply conj; [discriminate | intros; lia | done | intros; lia]. }
  unfold UploadDataset.filter in Hfilter.
  cbn [Formidable.pf_originalFilename Formidable.filepath Formidable.pf_mimetype
       Formidable.pf_size].
  destruct (Formidable.originalFilename part) as [name_|]; [|discriminate].
  destruct (JSString.eqb name_ "") eqn:Hne; [discriminate|].
  apply string_eqb_neq in Hne.
  rewrite (truthy_Some_nonempty name_ Hne). simpl negb. cbv iota.
  change (default "" (Some name_)) with name_.
  unfold rename. rewrite lookup_insert_eq.
  repeat apply conj; [discriminate | intros; lia | intros; lia |]. intros _ _.
  exists name_. repeat split.
  - by apply includes_cases.
  - unfold UploadDataset.path_join. by rewrite delete_insert_eq.
Qed.

Lemma dataset_route_id (req : Request) (Date_now : N) (Date_iso : string)
    (fs : FileSystem) :
  UploadDataset.status
    (UploadDataset.handler platform UPLOADS_DIR req Date_now Date_iso fs).1 = 200 ->
  UploadDataset.response_id
    (UploadDataset.handler platform UPLOADS_DIR req Date_now Date_iso fs).1
  = Some (toString Date_now).
Proof.
  unfold UploadDataset.handler.
  destruct (negb _); [discriminate|].
  destruct (Formidable.parse _ _ _ _ _) as [[[uploaded|]|msg] fs1]; try discriminate.
  destruct (negb _); [discriminate|].
  by destruct (rename _ _ _) as [[u|msg] fs2]; [|discriminate].
Qed.

Lemma model_route_id (req : Request) (Date_now : N) (Date_iso : string)
    (fs : FileSystem) :
  UploadModel.status
    (UploadModel.handler platform UPLOADS_DIR req Date_now Date_iso fs).1 = 200 ->
  UploadModel.response_id
    (UploadModel.handler platform UPLOADS_DIR req Date_now Date_iso fs).1
  = Some (toString Date_now).
Proof.
  unfold UploadModel.handler.
  destruct (negb _); [discriminate|].
  destruct (Formidable.parse _ _ _ _ _) as [[[uploaded|]|msg] fs1]; try discriminate.
  destruct (negb _); [discriminate|].
  destruct (fs1 !! _); [|discriminate].
  destruct (ModelHandler.validateModelFile _ _ _ _) as [info|msg] eqn:Hinfo;
    [|discriminate].
  destruct (rename _ _ _) as [[u|msg] fs2]; [|discriminate].
  intros _. unfold UploadModel.response_id. simpl.
  by rewrite (validateModelFile_id _ _ _ _ _ Hinfo).
Qed.

(** X19 -- on both routes the id of a successful upload is the decimal
    text of the millisecond read off the clock, and of nothing else: two
    uploads that are answered 200, whatever their files and whatever is
    on disk, get the same id exactly when they are served in the same
    millisecond. *)
Theorem route_ids_are_clock_readings
    (req1 req2 : Request) (t1 t2 : N) (iso1 iso2 : string) (fs1 fs2 : FileSystem) :
  (UploadDataset.status
     (UploadDataset.handler platform UPLOADS_DIR req1 t1 iso1 fs1).1 = 200 ->
   UploadDataset.status
     (UploadDataset.handler platform UPLOADS_DIR req2 t2 iso2 fs2).1 = 200 ->
   UploadDataset.response_id
     (UploadDataset.handler platform UPLOADS_DIR req1 t1 iso1 fs1).1
   = UploadDataset.response_id
       (UploadDataset.handler platform UPLOADS_DIR req2 t2 iso2 fs2).1
   <-> t1 = t2)
  /\ (UploadModel.status
        (UploadModel.handler platform UPLOADS_DIR req1 t1 iso1 fs1).1 = 200 ->
      UploadModel.status
        (UploadModel.handler platform UPLOADS_DIR req2 t2 iso2 fs2).1 = 200 ->
      UploadModel.response_id (UploadModel.handler platform UPLOADS_DIR req1 t1 iso1 fs1).1
      = UploadModel.response_id
          (UploadModel.handler platform UPLOADS_DIR req2 t2 iso2 fs2).1
      <-> t1 = t2).
Proof.
  split; intros H1 H2.
  - rewrite (dataset_route_id _ _ _ _ H1), (dataset_route_id _ _ _ _ H2).
    unfold toString. split; [intros [= H]; by apply decimal_inj in H | by intros ->].
  - rewrite (model_route_id _ _ _ _ H1), (model_route_id _ _ _ _ H2).
    unfold toString. split; [intros [= H]; by apply decimal_inj in H | by intros ->].
Qed.

End RouteFacts.

Lemma model_route_outcome_witness :
  UploadModel.status
    (UploadModel.handler Samples.platform "uploads"
       (mkRequest "POST" (Some MoreSamples.pklPart))
       1700000000000%N "2023-11-14T22:13:20.000Z" ∅).1 = 200
  /\ map_to_list
       (UploadModel.handler Samples.platform "uploads"
          (mkRequest "POST" (Some MoreSamples.pklPart))
          1700000000000%N "2023-11-14T22:13:20.000Z" ∅).2
     = [("uploads/1700000000000.pkl", ["m"%char; "0"%char; "1"%char])]
  /\ map_to_list
       (UploadModel.handler Samples.platform "uploads"
          (mkRequest "POST" (Some MoreSamples.txtPart))
          1700000000000%N "2023-11-14T22:13:20.000Z" ∅).2
     = [("uploads/tmp-8", ["h"%char; "i"%char])].
Proof.
  pose proof (model_route_outcome Samples.platform "uploads"
                (mkRequest "POST" (Some MoreSamples.pklPart))
                MoreSamples.pklPart 1700000000000%N "2023-11-14T22:13:20.000Z" ∅
                eq_refl eq_refl eq_refl) as Hpkl.
  pose proof (model_route_outcome Samples.platform "uploads"
                (mkRequest "POST" (Some MoreSamples.txtPart))
                MoreSamples.txtPart 1700000000000%N "2023-11-14T22:13:20.000Z" ∅
                eq_refl eq_refl eq_refl) as Htxt.
  destruct (UploadModel.handler Samples.platform "uploads"
              (mkRequest "POST" (Some MoreSamples.pklPart)) _ _ _)
    as [r1 d1].
  destruct (UploadModel.handler Samples.platform "uploads"
              (mkRequest "POST" (Some MoreSamples.txtPart)) _ _ _)
    as [r2 d2].
  destruct Hpkl as (_ & _ & Hpkl). destruct Htxt as (_ & _ & Htxt).
  destruct Hpkl as [(n & _ & _ & _ & -> & ->) | (Hno & _)]; [simpl; lia | |].
  2:{ exfalso. apply (Hno "Model.PKL"); [reflexivity | discriminate | has_ext]. }
  destruct Htxt as [(n' & Hn & _ & Hext & _) | (_ & _ & ->)]; [simpl; lia | |].
  { exfalso. injection Hn as <-. revert Hext. lacks_ext. }
  repeat split; vm_compute; reflexivity.
Defined.

Lemma dataset_route_outcome_witness :
  exists response fs',
    UploadDataset.handler Samples.platform "uploads/datasets"
      (mkRequest "POST" (Some MoreSamples.csvPart))
      1700000000000%N "2023-11-14T22:13:20.000Z" ∅ = (response, fs')
    /\ UploadDataset.response_id response = Some "1700000000000"
    /\ map_to_list fs'
       = [("uploads/datasets/dataset_1700000000000.CSV", ["a"%char; ","%char; "b"%char])].
Proof.
  pose proof (dataset_route_outcome Samples.platform "uploads/datasets"
                (mkRequest "POST" (Some MoreSamples.csvPart)) MoreSamples.csvPart
                1700000000000%N "2023-11-14T22:13:20.000Z" ∅ eq_refl eq_refl) as H.
  destruct (UploadDataset.handler _ _ _ _ _ _) as [response fs'].
  destruct H as (_ & _ & _ & H).
  destruct H as (n & Hn & _ & -> & ->); [vm_compute; reflexivity | simpl; lia |].
  injection Hn as <-. eexists _, _. split; [reflexivity|]. split; vm_compute; reflexivity.
Defined.

Lemma route_ids_are_clock_readings_witness :
  UploadDataset.response_id
    (UploadDataset.handler Samples.platform "uploads/datasets"
       (mkRequest "POST" (Some MoreSamples.csvPart))
       1700000000000%N "2023-11-14T22:13:20.000Z" ∅).1
  = UploadDataset.response_id
      (UploadDataset.handler Samples.platform "uploads/datasets"
         (mkRequest "POST" (Some MoreSamples.csvPart))
         1700000000001%N "2023-11-14T22:13:20.001Z" ∅).1
  <-> 1700000000000%N = 1700000000001%N.
Proof.
  apply (proj1 (route_ids_are_clock_readings Samples.platform "uploads/datasets"
                  (mkRequest "POST" (Some MoreSamples.csvPart))
                  (mkRequest "POST" (Some MoreSamples.csvPart))
                  1700000000000%N 1700000000001%N
                  "2023-11-14T22:13:20.000Z" "2023-11-14T22:13:20.001Z" ∅ ∅)).
  - vm_compute. reflexivity.
  - vm_compute. reflexivity.
Defined.

(** ** Batch evaluation: what a run does to its surroundings *)

Section BatchEffects.

Variable env : Env.
Variable dataset : option File.
Variable datasetPath : option string.

Local Abbreviation evaluateOne := (UnifiedBenchmarkPage.evaluateOne env dataset datasetPath).

(** The request a custom model is evaluated with. *)
Local Abbreviation request_for :=
  (fun model : BenchmarkResult =>
     mkEvaluateRequest (modelId model) (default "" datasetPath)).

Local Abbreviation is_library :=
  (fun model : BenchmarkResult => default false (fromLibrary model)).

Local Abbreviation is_custom :=
  (fun model : BenchmarkResult => negb (default false (fromLibrary model))).

Lemma evaluateOne_effects (model : BenchmarkResult) (w : World) :
  exists r w',
    evaluateOne model w = (Returned r, w')
    /\ draws w' = ((if is_library model then 8 else 0) + draws w)%nat
    /\ date_reads w' = S (date_reads w)
    /\ requests w'
       = requests w
         ++ (if is_library model then []
             else if negb (defined dataset) || negb (truthy datasetPath) then []
             else [request_for model])
    /\ timestamp r = Date_toISOString_at env (date_reads w).
Proof.
  unfold UnifiedBenchmarkPage.evaluateOne, UnifiedBenchmarkPage.customMetrics,
    UnifiedBenchmarkPage.simulatedMetrics, try_catch, bind, throw, ret,
    api_evaluateModel, Math_random, Date_toISOString, console_error_.
  destruct (default false (fromLibrary model)).
  { simpl. eexists _, _. split; [reflexivity|]. simpl.
    by rewrite app_nil_r. }
  destruct (negb (defined dataset) || negb (truthy datasetPath)).
  { simpl. eexists _, _. split; [reflexivity|]. simpl.
    by rewrite app_nil_r. }
  simpl. destruct (POST_evaluate env _) as [response|msg].
  - destruct (response_metrics response); simpl;
      (eexists _, _; split; [reflexivity|]; by simpl).
  - simpl. eexists _, _. split; [reflexivity|]. by simpl.
Qed.

Lemma for_of_evaluateOne_effects (models : list BenchmarkResult) (w : World) :
  exists results w',
    for_of models evaluateOne w = (Returned results, w')
    /\ draws w' = (8 * length (List.filter is_library models) + draws w)%nat
    /\ date_reads w' = (length models + date_reads w)%nat
    /\ requests w'
       = requests w
         ++ (if negb (defined dataset) || negb (truthy datasetPath) then []
             else request_for <$> List.filter is_custom models)
    /\ timestamp <$> results
       = (fun i => Date_toISOString_at env (i + date_reads w)%nat) <$> seq 0 (length models).
Proof.
  revert w. induction models as [|model models IH]; intros w.
  - exists [], w. repeat apply conj; try done.
    simpl. destruct (negb _ || negb _); by rewrite app_nil_r.
  - destruct (evaluateOne_effects model w) as (r & w1 & Hone & Hd1 & Ht1 & Hq1 & Hs1).
    destruct (IH w1) as (rs & w2 & Hrest & Hd2 & Ht2 & Hq2 & Hs2).
    exists (r :: rs), w2. repeat apply conj.
    + simpl. unfold bind at 1. rewrite Hone. unfold bind at 1. by rewrite Hrest.
    + rewrite Hd2, Hd1. simpl List.filter.
      destruct (default false (fromLibrary model)); simpl length; lia.
    + rewrite Ht2, Ht1. simpl length. lia.
    + rewrite Hq2, Hq1, <- app_assoc. f_equal. simpl List.filter.
      destruct (default false (fromLibrary model)); simpl negb; cbv iota; [done|].
      by destruct (negb (defined dataset) || negb (truthy datasetPath)).
    + rewrite fmap_cons, Hs1, Hs2. simpl length. simpl seq. rewrite fmap_cons.
      f_equal. rewrite <- seq_shift, <- list_fmap_compose.
      apply list_fmap_ext. intros _ i _. simpl. rewrite Ht1. f_equal. lia.
Qed.

(** X20 -- what a batch run does to its surroundings: one evaluation
    request per custom model, in the order of the selection, each with
    the model's id and the dataset path, and none at all while the dataset
    or its path is missing; eight draws of [Math.random()] per library
    model and none for a custom one; one reading of the clock per model,
    which stamps that model's result, failed or not. *)
Theorem batch_evaluation_effects
    (models : list BenchmarkResult) (pg : UnifiedBenchmarkPage.Page) (w : World) :
  models <> [] ->
  exists pg' w',
    UnifiedBenchmarkPage.handleEvaluate env models dataset datasetPath pg w
    = (Returned pg', w')
    /\ requests w'
       = requests w
         ++ (if negb (defined dataset) || negb (truthy datasetPath) then []
             else request_for <$> List.filter is_custom models)
    /\ draws w' = (8 * length (List.filter is_library models) + draws w)%nat
    /\ date_reads w' = (length models + date_reads w)%nat
    /\ timestamp <$> UnifiedBenchmarkPage.comparisonResults pg'
       = (fun i => Date_toISOString_at env (i + date_reads w)%nat) <$> seq 0 (length models).
Proof.
  intros Hne.
  destruct (for_of_evaluateOne_effects models w)
    as (results & w' & Hrun & Hd & Ht & Hq & Hs).
  exists (UnifiedBenchmarkPage.mkPage false None results 2 (Some (models, results))), w'.
  repeat split; try assumption.
  unfold UnifiedBenchmarkPage.handleEvaluate.
  destruct (Z.eqb_spec (Z.of_nat (length models)) 0) as [Hlen|_].
  { destruct models; [contradiction | simpl in Hlen; lia]. }
  unfold try_catch, bind. by rewrite Hrun.
Qed.

End BatchEffects.

Lemma batch_evaluation_effects_witness :
  exists pg' w',
    UnifiedBenchmarkPage.handleEvaluate Samples.env
      [Samples.modelA; Samples.libraryModel; Samples.modelB]
      (Some Samples.iris_csv) (Some "uploads/datasets/iris.csv")
      Samples.page0 Samples.world0
    = (Returned pg', w')
    /\ requests w'
       = [mkEvaluateRequest (modelId Samples.modelA) "uploads/datasets/iris.csv";
          mkEvaluateRequest (modelId Samples.modelB) "uploads/datasets/iris.csv"]
    /\ draws w' = 8%nat
    /\ date_reads w' = 3%nat.
Proof.
  destruct (batch_evaluation_effects Samples.env (Some Samples.iris_csv)
              (Some "uploads/datasets/iris.csv")
              [Samples.modelA; Samples.libraryModel; Samples.modelB]
              Samples.page0 Samples.world0)
    as (pg' & w' & Hrun & Hq & Hd & Ht & _); [discriminate|].
  exists pg', w'. repeat split; [exact Hrun | exact Hq | exact Hd | exact Ht].
Defined.

(** ** The chat page's model upload, served by the model route *)

Section HomeUploadFacts.

Variable platform : Platform.
Variable UPLOADS_DIR : string.
Variable fetch : string -> File -> completion HomePage.Response.

Lemma length_bytes (file : File) :
  0 <= size file -> Z.of_nat (length (HomePage.bytes file)) = size file.
Proof.
  intros Hsize. unfold HomePage.bytes. rewrite length_fmap, length_seq. lia.
Qed.

Lemma part_type_truthy (t : string) :
  truthy (Some (if JSString.eqb t "" then "application/octet-stream" else t)) = true.
Proof.
  destruct (JSString.eqb t "") eqn:Ht; [reflexivity|].
  apply string_eqb_neq in Ht. by apply truthy_Some_nonempty.
Qed.

(** X21 -- a model picked on the chat page and served by the model route.
    A name that, lowered, does not end in [.pkl] is refused by the page
    before any request.  Of the [.pkl] files, an empty one and one over
    500 MB leave the custom model as it was and show [Upload failed: ]
    followed by the parser's message; any other becomes the page's
    custom model, with the server's clock reading as id, the file's own
    name and size, and type [gpt-4], which is also made the selected
    model.  The server's own format error can thus never reach this
    page. *)
Theorem home_upload_through_model_route
    (file : File) (staging : string) (Date_now : N) (Date_iso : string)
    (fs : FileSystem) (pg : HomePage.Page) :
  let part :=
    Formidable.mkPart (Some (name file))
      (Some (if JSString.eqb (type file) "" then "application/octet-stream"
             else type file))
      (HomePage.bytes file) staging in
  toLowerCase platform "" = "" ->
  0 <= size file ->
  fetch HomePage.uploadUrl file
  = Returned (HomePage.seen_by_client
                (UploadModel.handler platform UPLOADS_DIR
                   (HomePage.request_of file staging) Date_now Date_iso fs).1) ->
  (~ has_extension platform ".pkl" (name file) ->
   HomePage.handleModelFileUpload platform fetch (Some file) pg
   = Returned (HomePage.mkPage (HomePage.selectedModel pg) (HomePage.isLoading pg)
                 (Some "Invalid file format. Only .pkl files are supported.")
                 (HomePage.customModel pg)))
  /\ (has_extension platform ".pkl" (name file) -> size file = 0 ->
      HomePage.handleModelFileUpload platform fetch (Some file) pg
      = Returned (HomePage.mkPage (HomePage.selectedModel pg) false
                    (Some ("Upload failed: "
                           +:+ formidable_message platform Formidable.emptyFile
                                 (500 * 1024 * 1024) part))
                    (HomePage.customModel pg)))
  /\ (has_extension platform ".pkl" (name file) ->
      0 < size file <= 500 * 1024 * 1024 ->
      HomePage.handleModelFileUpload platform fetch (Some file) pg
      = Returned (HomePage.mkPage "gpt-4" false None
                    (Some (ModelHandler.mkModelInfo (toString Date_now) (name file)
                             ModelHandler.pkl (size file) Date_iso "gpt-4"))))
  /\ (has_extension platform ".pkl" (name file) -> size file > 500 * 1024 * 1024 ->
      HomePage.handleModelFileUpload platform fetch (Some file) pg
      = Returned (HomePage.mkPage (HomePage.selectedModel pg) false
                    (Some ("Upload failed: "
                           +:+ formidable_message platform Formidable.fileTooLarge
                                 (500 * 1024 * 1024) part))
                    (HomePage.customModel pg))).
Proof.
  intros part Hempty Hsize Hfetch.
  unfold HomePage.handleModelFileUpload, HomePage.uploaded.
  rewrite Hfetch. clear Hfetch.
  destruct (endsWith (toLowerCase platform (name file)) ".pkl") eqn:Hends;
    simpl negb; cbv iota.
  2:{ repeat apply conj; try done;
        intros Hext%has_extension_endsWith; congruence. }
  assert (has_extension platform ".pkl" (name file)) as Hext
    by by apply has_extension_endsWith.
  assert (name file <> "") as Hname
    by (apply (has_extension_nonempty platform ".pkl");
        [exact Hempty | discriminate | exact Hext]).
  subst part.
  unfold UploadModel.handler, HomePage.request_of, Formidable.parse.
  cbn [method file_part Formidable.content Formidable.originalFilename
       Formidable.staging Formidable.mimetype].
  simpl (negb (JSString.eqb _ _)). cbv iota.
  rewrite !part_type_truthy, !(length_bytes file Hsize). simpl negb. cbv iota.
  destruct (Z.eqb_spec (size file) 0) as [Hzero|Hpos].
  { repeat apply conj;
      [intros Hno; contradiction | done | intros _ ?; lia | intros _ ?; lia]. }
  destruct (Z.gtb_spec (size file) (500 * 1024 * 1024)) as [Hbig|Hfits].
  { repeat apply conj;
      [intros Hno; contradiction | intros _ ?; lia | intros _ ?; lia | done]. }
  cbn [Formidable.pf_originalFilename Formidable.filepath Formidable.pf_mimetype
       Formidable.pf_size].
  rewrite (truthy_Some_nonempty (name file) Hname). simpl negb. cbv iota.
  rewrite lookup_insert_eq.
  change (default "" (Some (name file))) with (name file).
  unfold ModelHandler.validateModelFile, File_of, ModelHandler.maxSize.
  cbn [name size]. rewrite Hends, !(length_bytes file Hsize). simpl negb. cbv iota.
  destruct (Z.gtb_spec (size file) (500 * 1024 * 1024)) as [Hbig|_]; [lia|].
  unfold rename. rewrite lookup_insert_eq.
  repeat apply conj;
    [intros Hno; contradiction | intros _ ?; lia | done | intros _ ?; lia].
Qed.

End HomeUploadFacts.

Lemma home_upload_through_model_route_witness :
  HomePage.handleModelFileUpload Samples.platform
    (fun _ file =>
       Returned (HomePage.seen_by_client
                   (UploadModel.handler Samples.platform "uploads"
                      (HomePage.request_of file "uploads/tmp-1")
                      1700000000000%N "2023-11-14T22:13:20.000Z" ∅).1))
    (Some Samples.model_pkl)
    (HomePage.mkPage "gpt-3.5-turbo" false None None)
  = Returned (HomePage.mkPage "gpt-4" false None
                (Some (ModelHandler.mkModelInfo "1700000000000" (name Samples.model_pkl)
                         ModelHandler.pkl (size Samples.model_pkl)
                         "2023-11-14T22:13:20.000Z" "gpt-4"))).
Proof.
  apply (proj1 (proj2 (proj2
           (home_upload_through_model_route Samples.platform "uploads"
              (fun _ file =>
                 Returned (HomePage.seen_by_client
                             (UploadModel.handler Samples.platform "uploads"
                                (HomePage.request_of file "uploads/tmp-1")
                                1700000000000%N "2023-11-14T22:13:20.000Z" ∅).1))
              Samples.model_pkl "uploads/tmp-1" 1700000000000%N
              "2023-11-14T22:13:20.000Z" ∅
              (HomePage.mkPage "gpt-3.5-turbo" false None None)
              eq_refl ltac:(simpl; lia) eq_refl)))).
  - has_ext.
  - simpl. lia.
Defined.
